(** * A shallow embedding of the mini agent (mylib/llm) and its properties

    The development follows the Python sources:
    - [llm/llmapi/llm_factory.py]: [LLMChatAdapter] (request building,
      the conversion of tool definitions and the normalisation of a raw
      reply into content blocks) and [LLMFactory.create];
    - [llm/llmapi/util/llm_utils.py]: [process_llm_response];
    - [llm/llmapi/miniagent/utils.py]: [safe_path], [run_bash], the file
      tools, [execute_base_tools], [TodoManager], [AGENT_TYPES];
    - [llm/llmapi/miniagent/v0_bash.py], [v1_basic.py], [v2_todo.py],
      [v3_subagent.py], [v4_skills.py]: the agent loops and their
      dispatchers, the subagent runner and the skill loader.

    Python [str] values are modelled as [string]s holding their UTF-8
    encoding; what Python does per code point (lengths, slices, blanks)
    is done per code point ([PyStr.chars]).  Exceptions are explicit: a
    computation that can raise returns an [outcome].  The model backend,
    the file system and the processes started by tools are parameters of
    the sections that use them, and so are the limits of the interpreter
    that the decoder of JSON meets ([Interpreter]). *)

From Stdlib Require Import ZArith Lia Ascii String DecimalString.
From Stdlib Require DecimalFacts DecimalPos DecimalN.
From stdpp Require Import base option list strings gmap.

(** ** Results of computations that may raise *)

Inductive outcome (A : Type) : Type :=
| Ret (a : A)
| Raise (msg : string).
Arguments Ret {A} a.
Arguments Raise {A} msg.

Definition is_raise {A} (o : outcome A) : bool :=
  match o with Ret _ => false | Raise _ => true end.

Definition obind {A B} (o : outcome A) (k : A -> outcome B) : outcome B :=
  match o with Ret a => k a | Raise m => Raise m end.

(** ** Python string primitives *)

Module PyStr.

Definition chr (n : nat) : string := String (ascii_of_nat n) EmptyString.
Definition nl : string := chr 10.
Definition dq : string := chr 34.
Definition sq : string := chr 39.

(** A byte that starts a code point (anything but 10xxxxxx). *)
Definition is_lead (c : ascii) : bool :=
  let n := nat_of_ascii c in negb ((128 <=? n) && (n <? 192)).

(** The code points of a string, each as the string of its bytes. *)
Fixpoint chars (s : string) : list string :=
  match s with
  | EmptyString => []
  | String c r =>
      match r with
      | EmptyString => [String c EmptyString]
      | String d _ =>
          if is_lead d then String c EmptyString :: chars r
          else match chars r with
               | ch :: rest => String c ch :: rest
               | [] => [String c EmptyString]
               end
      end
  end.

Fixpoint unchars (l : list string) : string :=
  match l with
  | [] => EmptyString
  | ch :: r => ch +:+ unchars r
  end.

(** The ASCII blanks: TAB..CR, FS..US and the space. *)
Definition is_space_ascii (c : ascii) : bool :=
  let n := nat_of_ascii c in
  (n =? 32) || ((9 <=? n) && (n <=? 13)) || ((28 <=? n) && (n <=? 31)).

(** [str.isspace] on one code point: the ASCII blanks and the blanks
    outside ASCII (U+0085, U+00A0, U+1680, U+2000..U+200A, U+2028,
    U+2029, U+202F, U+205F, U+3000) in their UTF-8 form. *)
Definition is_space (ch : string) : bool :=
  match ch with
  | String c EmptyString => is_space_ascii c
  | String "194" (String c EmptyString) =>
      let n := nat_of_ascii c in (n =? 133) || (n =? 160)
  | String "225" (String "154" (String "128" EmptyString)) => true
  | String "226" (String "128" (String c EmptyString)) =>
      let n := nat_of_ascii c in
      ((128 <=? n) && (n <=? 138)) || (n =? 168) || (n =? 169) || (n =? 175)
  | String "226" (String "129" (String "159" EmptyString)) => true
  | String "227" (String "128" (String "128" EmptyString)) => true
  | _ => false
  end.

Fixpoint drop_blanks (l : list string) : list string :=
  match l with
  | [] => []
  | ch :: r => if is_space ch then drop_blanks r else l
  end.

(** [s.lstrip()], [s.rstrip()] and [s.strip()] *)
Definition lstrip (s : string) : string := unchars (drop_blanks (chars s)).

Definition rstrip (s : string) : string :=
  unchars (rev (drop_blanks (rev (chars s)))).

Definition strip (s : string) : string :=
  unchars (rev (drop_blanks (rev (drop_blanks (chars s))))).

Definition lower_ascii (c : ascii) : ascii :=
  let n := nat_of_ascii c in
  if (65 <=? n) && (n <=? 90) then ascii_of_nat (n + 32) else c.

(** [s.lower()] on the ASCII letters; the case mapping of the letters
    outside ASCII is not modelled (their bytes are left alone). *)
Fixpoint lower (s : string) : string :=
  match s with
  | EmptyString => EmptyString
  | String c r => String (lower_ascii c) (lower r)
  end.

(** [sep.join(l)] *)
Fixpoint join (sep : string) (l : list string) : string :=
  match l with
  | [] => EmptyString
  | [x] => x
  | x :: r => x +:+ sep +:+ join sep r
  end.

(** [str(n)] for a natural number and for an integer. *)
Definition of_nat (n : nat) : string := NilZero.string_of_uint (Nat.to_uint n).
Definition of_Z (z : Z) : string := NilZero.string_of_int (Z.to_int z).

(** [sub in s] *)
Fixpoint contains (sub s : string) : bool :=
  String.prefix sub s ||
  match s with
  | EmptyString => false
  | String _ r => contains sub r
  end.

(** [len(s)]: the number of code points. *)
Definition py_len (s : string) : nat := length (chars s).

(** [s[:n]] for [n >= 0]: the first [n] code points. *)
Definition py_take (n : nat) (s : string) : string := unchars (take n (chars s)).

(** [s.replace(old, new, 1)]: the first occurrence only. *)
Fixpoint replace_first (old new s : string) : string :=
  if String.prefix old s
  then new +:+ String.substring (String.length old) (String.length s) s
  else match s with
       | EmptyString => EmptyString
       | String c r => String c (replace_first old new r)
       end.

End PyStr.

(** ** utils.py: the todo manager *)

Module Todo.
Import PyStr.

(** An element of the [items] argument of [TodoWrite]: a JSON object
    whose three fields the tool schema types as strings; a missing key
    is [None] ([item.get(key, default)]). *)
Record raw_item : Type := RawItem {
  raw_content : option string;
  raw_status : option string;
  raw_activeForm : option string
}.

(** A validated entry, as stored in [self.items]. *)
Record item : Type := Item {
  content : string;
  status : string;
  activeForm : string
}.

Record TodoManager : Type := { items : list item }.

(** [TodoManager.__init__] *)
Definition init : TodoManager := {| items := [] |}.

Definition status_ok (st : string) : bool :=
  String.eqb st "pending" || String.eqb st "in_progress" || String.eqb st "completed".

(** The line of [render] for one entry. *)
Definition render_item (it : item) : string :=
  if String.eqb (status it) "completed" then "[x] " +:+ content it
  else if String.eqb (status it) "in_progress"
       then "[>] " +:+ content it +:+ " <- " +:+ activeForm it
       else "[ ] " +:+ content it.

Definition completed_count (l : list item) : nat :=
  length (filter (fun t => String.eqb (status t) "completed" = true) l).

(** [TodoManager.render] *)
Definition render (self : TodoManager) : string :=
  match items self with
  | [] => "No todos."
  | _ =>
      let lines := map render_item (items self) in
      let completed := completed_count (items self) in
      let lines := lines ++ [nl +:+ "(" +:+ of_nat completed +:+ "/"
                                +:+ of_nat (length (items self)) +:+ " completed)"] in
      join nl lines
  end.

(** The body of the [for i, item in enumerate(items)] loop of
    [update], from index [i] on, with the two accumulators. *)
Fixpoint validate (i : nat) (l : list raw_item)
         (validated : list item) (in_progress_count : nat)
  : outcome (list item * nat) :=
  match l with
  | [] => Ret (validated, in_progress_count)
  | it :: rest =>
      let content := strip (default EmptyString (raw_content it)) in
      let status := lower (default "pending" (raw_status it)) in
      let active_form := strip (default EmptyString (raw_activeForm it)) in
      if String.eqb content EmptyString
      then Raise ("Item " +:+ of_nat i +:+ ": content required")
      else if negb (status_ok status)
      then Raise ("Item " +:+ of_nat i +:+ ": invalid status '" +:+ status +:+ "'")
      else if String.eqb active_form EmptyString
      then Raise ("Item " +:+ of_nat i +:+ ": activeForm required")
      else
        let in_progress_count :=
          if String.eqb status "in_progress"
          then in_progress_count + 1 else in_progress_count in
        validate (S i) rest
                 (validated ++ [Item content status active_form])
                 in_progress_count
  end.

(** [TodoManager.update]: the result (the rendered list, or the
    [ValueError] raised) and the manager afterwards. *)
Definition update (self : TodoManager) (l : list raw_item)
  : outcome string * TodoManager :=
  match validate 0 l [] 0 with
  | Raise m => (Raise m, self)
  | Ret (validated, in_progress_count) =>
      if 20 <? length validated
      then (Raise "Max 20 todos allowed", self)
      else if 1 <? in_progress_count
      then (Raise "Only one task can be in_progress at a time", self)
      else
        let self' := {| items := validated |} in
        (Ret (render self'), self')
  end.

End Todo.

(** ** Python dictionaries with string keys

    Insertion-ordered, as Python's [dict]: assigning to an existing key
    keeps its position. *)

Module PyDict.

Fixpoint dget {V} (k : string) (d : list (string * V)) : option V :=
  match d with
  | [] => None
  | (k', v) :: r => if String.eqb k k' then Some v else dget k r
  end.

Fixpoint dset {V} (k : string) (v : V) (d : list (string * V)) : list (string * V) :=
  match d with
  | [] => [(k, v)]
  | (k', v') :: r =>
      if String.eqb k k' then (k, v) :: r else (k', v') :: dset k v r
  end.

Definition dhas {V} (k : string) (d : list (string * V)) : bool :=
  match dget k d with Some _ => true | None => false end.

Definition keys {V} (d : list (string * V)) : list string := map fst d.

End PyDict.

(** ** The interpreter

    Two settings of the running interpreter decide whether [json.loads]
    accepts a document that is well formed.  [int_max_str_digits] is
    [sys.get_int_max_str_digits()]: 4300 unless it was changed, 0 when
    the limit is switched off.  [json_nesting] is the number of arrays
    and objects, one inside the other, that the decoder can enter
    before the interpreter raises [RecursionError]; it depends on the
    recursion limit and on the call stack at the place of the call. *)

Class Interpreter : Type := {
  int_max_str_digits : nat;
  json_nesting : nat
}.

(** ** Python values and [json.loads] *)

Module Json.
Import PyStr PyDict.

(** The values [json.loads] can return.  A float is kept as the lexeme
    it was read from. *)
#[warnings="-register-all"] Inductive pyval : Type :=
| PNone
| PBool (b : bool)
| PInt (z : Z)
| PFloat (lexeme : string)
| PStr (s : string)
| PList (l : list pyval)
| PDict (kvs : list (string * pyval)).

Definition is_str (s : string) (v : pyval) : bool :=
  match v with PStr t => String.eqb t s | _ => false end.

Definition is_digit (c : ascii) : bool :=
  let n := nat_of_ascii c in (48 <=? n) && (n <=? 57).

(** *** The scanner *)

Definition is_json_ws (c : ascii) : bool :=
  Ascii.eqb c " " || Ascii.eqb c "009" || Ascii.eqb c "010" || Ascii.eqb c "013".

Fixpoint skip_ws (s : string) : string :=
  match s with
  | String c r => if is_json_ws c then skip_ws r else s
  | EmptyString => EmptyString
  end.

Fixpoint span_digits (s : string) : string * string :=
  match s with
  | String c r =>
      if is_digit c then let '(ds, rest) := span_digits r in (String c ds, rest)
      else (EmptyString, s)
  | EmptyString => (EmptyString, EmptyString)
  end.

Fixpoint digits_value (acc : Z) (s : string) : Z :=
  match s with
  | String c r => digits_value (10 * acc + Z.of_nat (nat_of_ascii c - 48)) r
  | EmptyString => acc
  end.

(** *** Truth values

    [float(lexeme) == 0.0] for the value [m * 10^k]: the nearest double
    is zero when the value is at most [2^-1075], half of the smallest
    positive double (a tie goes to zero, whose significand is even). *)
Definition rounds_to_zero (m k : Z) : bool :=
  (m =? 0)%Z || ((k <? 0)%Z && (m * 2 ^ 1075 <=? 10 ^ (- k))%Z).

(** Zero test of a float lexeme in the notation of the decoder: the
    digits before and after the point are the mantissa, the exponent is
    lowered by the number of digits after the point.  [NaN] and the
    infinities are not zero. *)
Definition float_is_zero (lexeme : string) : bool :=
  let body := match lexeme with String "-" r => r | _ => lexeme end in
  let '(intpart, rest) := span_digits body in
  match intpart with
  | EmptyString => false
  | _ =>
      let '(frac, rest1) :=
        match rest with
        | String "." r => span_digits r
        | _ => (EmptyString, rest)
        end in
      let exponent :=
        match rest1 with
        | String _ (String "-" r) => (- digits_value 0 (fst (span_digits r)))%Z
        | String _ (String "+" r) => digits_value 0 (fst (span_digits r))
        | String _ r => digits_value 0 (fst (span_digits r))
        | EmptyString => 0%Z
        end in
      rounds_to_zero (digits_value 0 (intpart +:+ frac))
                     (exponent - Z.of_nat (String.length frac))
  end.

(** Python truth value, as tested by [if v:]. *)
Definition truthy (v : pyval) : bool :=
  match v with
  | PNone => false
  | PBool b => b
  | PInt z => negb (z =? 0)%Z
  | PFloat lx => negb (float_is_zero lx)
  | PStr s => negb (String.eqb s EmptyString)
  | PList l => match l with [] => false | _ => true end
  | PDict kvs => match kvs with [] => false | _ => true end
  end.

Section Decoder.

Context {interp : Interpreter}.

(** [int(digits)] refuses a string of more than [int_max_str_digits]
    digits (the limit is not looked at up to 640 digits). *)
Definition exceeds_int_limit (digits : nat) : bool :=
  (640 <? digits) && (0 <? int_max_str_digits) && (int_max_str_digits <? digits).

(** The number pattern of the decoder: an optional minus sign, then 0
    or a digit sequence without leading zero; an optional fraction (a
    dot and at least one digit); an optional exponent (e or E, an
    optional sign, at least one digit).  A number without fraction and
    exponent is converted by [int], which raises on too many digits:
    there is no result then. *)
Definition scan_number (s : string) : option (pyval * string) :=
  let '(neg, s1) := match s with
                    | String "-" r => (true, r)
                    | _ => (false, s)
                    end in
  match s1 with
  | String c r =>
      if is_digit c then
        let '(intpart, rest) :=
          if Ascii.eqb c "0" then (String c EmptyString, r)
          else let '(ds, rest) := span_digits r in (String c ds, rest) in
        let '(frac, rest1) :=
          match rest with
          | String "." r2 =>
              let '(ds, r3) := span_digits r2 in
              match ds with
              | EmptyString => (EmptyString, rest)
              | _ => (String "." ds, r3)
              end
          | _ => (EmptyString, rest)
          end in
        let '(expo, rest2) :=
          match rest1 with
          | String e r2 =>
              if Ascii.eqb e "e" || Ascii.eqb e "E" then
                let '(sign, r3) :=
                  match r2 with
                  | String "+" r3 => ("+", r3)
                  | String "-" r3 => ("-", r3)
                  | _ => (EmptyString, r2)
                  end in
                let '(ds, r4) := span_digits r3 in
                match ds with
                | EmptyString => (EmptyString, rest1)
                | _ => (String e sign +:+ ds, r4)
                end
              else (EmptyString, rest1)
          | _ => (EmptyString, rest1)
          end in
        match frac, expo with
        | EmptyString, EmptyString =>
            if exceeds_int_limit (String.length intpart) then None
            else
              let v := digits_value 0 intpart in
              Some (PInt (if neg then (- v)%Z else v), rest2)
        | _, _ =>
            Some (PFloat ((if neg then "-" else EmptyString)
                            +:+ intpart +:+ frac +:+ expo), rest2)
        end
      else None
  | EmptyString => None
  end.

Definition hex_value (c : ascii) : option N :=
  let n := nat_of_ascii c in
  if (48 <=? n) && (n <=? 57) then Some (N.of_nat (n - 48))
  else if (65 <=? n) && (n <=? 70) then Some (N.of_nat (n - 55))
  else if (97 <=? n) && (n <=? 102) then Some (N.of_nat (n - 87))
  else None.

(** A unit of a string literal: a byte copied from the input, or the
    16-bit value of a [\uXXXX] escape. *)
Inductive sunit : Type := UByte (c : ascii) | UEsc (u : N).

Definition simple_escape (e : ascii) : option ascii :=
  if Ascii.eqb e "034" then Some "034"%char
  else if Ascii.eqb e "\" then Some "\"%char
  else if Ascii.eqb e "/" then Some "/"%char
  else if Ascii.eqb e "b" then Some "008"%char
  else if Ascii.eqb e "f" then Some "012"%char
  else if Ascii.eqb e "n" then Some "010"%char
  else if Ascii.eqb e "r" then Some "013"%char
  else if Ascii.eqb e "t" then Some "009"%char
  else None.

(** The body of a string literal, after its opening quote (strict mode:
    a raw control character is an error). *)
Fixpoint scan_units (s : string) : option (list sunit * string) :=
  match s with
  | EmptyString => None
  | String c r =>
      if Ascii.eqb c "034" then Some ([], r)
      else if Ascii.eqb c "\" then
        match r with
        | String e r1 =>
            match simple_escape e with
            | Some ch =>
                match scan_units r1 with
                | Some (us, rest) => Some (UByte ch :: us, rest)
                | None => None
                end
            | None =>
                if Ascii.eqb e "u" then
                  match r1 with
                  | String h1 (String h2 (String h3 (String h4 r5))) =>
                      match hex_value h1, hex_value h2, hex_value h3, hex_value h4 with
                      | Some a, Some b, Some c', Some d =>
                          match scan_units r5 with
                          | Some (us, rest) =>
                              Some (UEsc (((a * 16 + b) * 16 + c') * 16 + d)%N :: us, rest)
                          | None => None
                          end
                      | _, _, _, _ => None
                      end
                  | _ => None
                  end
                else None
            end
        | EmptyString => None
        end
      else if nat_of_ascii c <? 32 then None
      else
        match scan_units r with
        | Some (us, rest) => Some (UByte c :: us, rest)
        | None => None
        end
  end.

Definition byte_of_N (n : N) : ascii := ascii_of_N n.

(** UTF-8 encoding of a code point. *)
Definition utf8 (cp : N) : string :=
  (if cp <? 128 then String (byte_of_N cp) EmptyString
   else if cp <? 2048 then
     String (byte_of_N (192 + cp / 64))
       (String (byte_of_N (128 + cp mod 64)) EmptyString)
   else if cp <? 65536 then
     String (byte_of_N (224 + cp / 4096))
       (String (byte_of_N (128 + (cp / 64) mod 64))
          (String (byte_of_N (128 + cp mod 64)) EmptyString))
   else
     String (byte_of_N (240 + cp / 262144))
       (String (byte_of_N (128 + (cp / 4096) mod 64))
          (String (byte_of_N (128 + (cp / 64) mod 64))
             (String (byte_of_N (128 + cp mod 64)) EmptyString))))%N.

Definition is_high (u : N) : bool := ((55296 <=? u) && (u <=? 56319))%N.
Definition is_low (u : N) : bool := ((56320 <=? u) && (u <=? 57343))%N.

(** Surrogate pairs are combined; the result is the UTF-8 text. *)
Fixpoint encode_units (us : list sunit) : string :=
  match us with
  | [] => EmptyString
  | UByte c :: r => String c (encode_units r)
  | UEsc hi :: r =>
      match r with
      | UEsc lo :: r' =>
          if is_high hi && is_low lo
          then utf8 (65536 + (hi - 55296) * 1024 + (lo - 56320))%N +:+ encode_units r'
          else utf8 hi +:+ encode_units r
      | _ => utf8 hi +:+ encode_units r
      end
  end.

Definition scan_string (s : string) : option (string * string) :=
  match scan_units s with
  | Some (us, rest) => Some (encode_units us, rest)
  | None => None
  end.

(** [scan_once] with the array and object loops of the decoder.  The
    fuel bounds the number of nested calls; [json_loads] supplies more
    than any input can use.  [depth] is the number of arrays and
    objects that can still be entered: an opening bracket at depth 0
    raises [RecursionError], and the document has no value. *)
Fixpoint scan_once (fuel depth : nat) (s : string) {struct fuel}
  : option (pyval * string) :=
  match fuel with
  | 0 => None
  | S f =>
      match s with
      | EmptyString => None
      | String c r =>
          if Ascii.eqb c "034" then
            match scan_string r with
            | Some (t, rest) => Some (PStr t, rest)
            | None => None
            end
          else if Ascii.eqb c "{" then
            match depth with
            | 0 => None
            | S d =>
                match skip_ws r with
                | String "}" rest => Some (PDict [], rest)
                | r1 => object_loop f d r1 []
                end
            end
          else if Ascii.eqb c "[" then
            match depth with
            | 0 => None
            | S d =>
                match skip_ws r with
                | String "]" rest => Some (PList [], rest)
                | r1 => array_loop f d r1 []
                end
            end
          else if String.prefix "null" s then Some (PNone, String.substring 4 (String.length s) s)
          else if String.prefix "true" s then Some (PBool true, String.substring 4 (String.length s) s)
          else if String.prefix "false" s then Some (PBool false, String.substring 5 (String.length s) s)
          else
            match scan_number s with
            | Some res => Some res
            | None =>
                if String.prefix "NaN" s
                then Some (PFloat "NaN", String.substring 3 (String.length s) s)
                else if String.prefix "Infinity" s
                then Some (PFloat "Infinity", String.substring 8 (String.length s) s)
                else if String.prefix "-Infinity" s
                then Some (PFloat "-Infinity", String.substring 9 (String.length s) s)
                else None
            end
      end
  end
with array_loop (fuel depth : nat) (s : string) (acc : list pyval) {struct fuel}
  : option (pyval * string) :=
  match fuel with
  | 0 => None
  | S f =>
      match scan_once f depth s with
      | Some (v, r) =>
          match skip_ws r with
          | String "]" rest => Some (PList (acc ++ [v]), rest)
          | String "," rest => array_loop f depth (skip_ws rest) (acc ++ [v])
          | _ => None
          end
      | None => None
      end
  end
with object_loop (fuel depth : nat) (s : string) (acc : list (string * pyval))
         {struct fuel} : option (pyval * string) :=
  match fuel with
  | 0 => None
  | S f =>
      match s with
      | String "034" r =>
          match scan_string r with
          | Some (key, r1) =>
              match skip_ws r1 with
              | String ":" r2 =>
                  match scan_once f depth (skip_ws r2) with
                  | Some (v, r3) =>
                      match skip_ws r3 with
                      | String "}" rest => Some (PDict (dset key v acc), rest)
                      | String "," rest =>
                          object_loop f depth (skip_ws rest) (dset key v acc)
                      | _ => None
                      end
                  | None => None
                  end
              | _ => None
              end
          | None => None
          end
      | _ => None
      end
  end.

(** [json.loads(s)] for a [str] argument: [None] stands for the
    exception raised: [JSONDecodeError] on malformed input,
    [ValueError] on an integer with too many digits, [RecursionError]
    on a document nested too deeply. *)
Definition json_loads (s : string) : option pyval :=
  match scan_once (S (String.length s)) json_nesting (skip_ws s) with
  | Some (v, rest) =>
      match skip_ws rest with
      | EmptyString => Some v
      | _ => None
      end
  | None => None
  end.

End Decoder.

End Json.

(** ** llm_factory.py: [LLMChatAdapter] *)

Module Adapter.
Import PyStr PyDict Json.

(** A history entry, [{"role": ..., "content": ...}]. *)
Record message : Type := Message { role : string; content : string }.

(** The langchain message classes. *)
Inductive lc_message : Type :=
| SystemMessage (content : string)
| HumanMessage (content : string)
| AIMessage (content : string).

Record LLMChatAdapter : Type := {
  system_info : string;
  keep_messages_count : Z
}.

(** [LLMChatAdapter.__init__] with the default [keep_messages_count]. *)
Definition new_adapter : LLMChatAdapter :=
  {| system_info := EmptyString; keep_messages_count := 20 |}.

(** [l[start:]] *)
Definition slice_from {A} (start : Z) (l : list A) : list A :=
  let len := Z.of_nat (length l) in
  let start' := if (start <? 0)%Z then Z.max (len + start) 0 else Z.min start len in
  drop (Z.to_nat start') l.

Definition to_langchain (msg : message) : lc_message :=
  if String.eqb (role msg) "system" then SystemMessage (content msg)
  else if String.eqb (role msg) "assistant" then AIMessage (content msg)
  else HumanMessage (content msg).

(** [LLMChatAdapter._build_langchain_messages]; an absent ([None]) or
    empty history is the empty list. *)
Definition _build_langchain_messages (self : LLMChatAdapter)
           (history_messages : list message) (prompt_text : string)
  : list lc_message :=
  let messages :=
    if negb (String.eqb (system_info self) EmptyString)
    then [SystemMessage (system_info self)] else [] in
  match history_messages with
  | [] => messages ++ [HumanMessage prompt_text]
  | _ =>
      let recent_messages :=
        if (keep_messages_count self <? Z.of_nat (length history_messages))%Z
        then slice_from (- keep_messages_count self) history_messages
        else history_messages in
      messages ++ map to_langchain recent_messages
  end.

(** The content blocks of a [Response].  The attributes hold whatever
    the decoded reply holds, so they are Python values. *)
Inductive block : Type :=
| TextBlock (text : pyval)
| ToolUseBlock (id name input : pyval).

Record Response : Type := {
  resp_content : list block;
  stop_reason : string
}.

(** [k in v] for a string [k]. *)
Definition py_in (k : string) (v : pyval) : outcome bool :=
  match v with
  | PDict kvs => Ret (dhas k kvs)
  | PStr s => Ret (contains k s)
  | PList l => Ret (existsb (is_str k) l)
  | _ => Raise "TypeError"
  end.

(** [v[k]] for a string [k]. *)
Definition py_item (v : pyval) (k : string) : outcome pyval :=
  match v with
  | PDict kvs =>
      match dget k kvs with
      | Some x => Ret x
      | None => Raise "KeyError"
      end
  | _ => Raise "TypeError"
  end.

(** [v.get(k, dflt)] *)
Definition py_get (v : pyval) (k : string) (dflt : pyval) : outcome pyval :=
  match v with
  | PDict kvs => Ret (default dflt (dget k kvs))
  | _ => Raise "AttributeError"
  end.

Section Normalisation.

Context {interp : Interpreter}.

(** The body of [for tc in tool_list]: the block appended for [tc], if
    any, or the exception raised. *)
Definition convert_call (tc : pyval) : outcome (option block) :=
  obind (py_in "function" tc) (fun has_function =>
  if has_function then
    obind (py_item tc "function") (fun func_data =>
    obind (py_item func_data "arguments") (fun args =>
    let args :=
      match args with
      | PStr a => match json_loads a with Some v => v | None => args end
      | _ => args
      end in
    obind (py_item func_data "name") (fun name =>
    obind (py_get tc "id" (PStr "call_1")) (fun id =>
    Ret (Some (ToolUseBlock id name args))))))
  else Ret None).

(** The loop over [tool_list], appending to [blocks]; the boolean says
    whether an iteration raised (the blocks appended before stay). *)
Fixpoint convert_calls (tool_list : list pyval) (blocks : list block)
  : list block * bool :=
  match tool_list with
  | [] => (blocks, false)
  | tc :: rest =>
      match convert_call tc with
      | Raise _ => (blocks, true)
      | Ret None => convert_calls rest blocks
      | Ret (Some b) => convert_calls rest (blocks ++ [b])
      end
  end.

Definition text_fallback (content : string) : list block * string * bool :=
  ([TextBlock (PStr content)], "end_turn", false).

(** The [try] body of [chat_with_tools] after [json.loads] succeeded:
    the locals [blocks] and [stop_reason] when it ends, and whether it
    ended by an exception.  First test: an object with a [tool_calls]
    list; second test: a non-empty list whose first element is an object
    with a [function] or a [type] key; otherwise the reply is text. *)
Definition interpret (content : string) (data : pyval) : list block * string * bool :=
  match data with
  | PDict kvs =>
      match dget "tool_calls" kvs with
      | Some (PList tool_list) =>
          let blocks :=
            if truthy (default PNone (dget "content" kvs))
            then [TextBlock (default PNone (dget "content" kvs))] else [] in
          let '(blocks, raised) := convert_calls tool_list blocks in
          (blocks, "tool_use", raised)
      | _ => text_fallback content
      end
  | PList ((PDict kv0 :: _) as tool_list) =>
      if dhas "function" kv0 || dhas "type" kv0 then
        let '(blocks, raised) := convert_calls tool_list [] in
        (blocks, "tool_use", raised)
      else text_fallback content
  | _ => text_fallback content
  end.

(** The part of [chat_with_tools] that follows the call of [self.chat]:
    from [(success, content)] to the [Response]. *)
Definition normalize (success : bool) (content : string) : Response :=
  if success then
    match json_loads content with
    | Some data =>
        let '(blocks, stop_reason, raised) := interpret content data in
        let blocks := if raised then blocks ++ [TextBlock (PStr content)] else blocks in
        {| resp_content := blocks; stop_reason := stop_reason |}
    | None =>
        {| resp_content := [TextBlock (PStr content)]; stop_reason := "end_turn" |}
    end
  else
    {| resp_content := [TextBlock (PStr ("Error: " +:+ content))];
       stop_reason := "end_turn" |}.

End Normalisation.

End Adapter.

(** ** utils.py: paths and the file tools *)

Module Tools.
Import PyStr PyDict.

(** [s.split(sep)] for a one-character separator. *)
Fixpoint split_on (sep : ascii) (cur : string) (s : string) : list string :=
  match s with
  | EmptyString => [cur]
  | String c r =>
      if Ascii.eqb c sep then cur :: split_on sep EmptyString r
      else split_on sep (cur +:+ String c EmptyString) r
  end.

(** [s.splitlines()]: the line boundaries are LF, CR, CR LF, VT, FF, FS,
    GS, RS, NEL (C2 85), LS (E2 80 A8) and PS (E2 80 A9). *)
Fixpoint splitlines_from (cur : string) (s : string) : list string :=
  match s with
  | EmptyString => match cur with EmptyString => [] | _ => [cur] end
  | String c r =>
      let n := nat_of_ascii c in
      if n =? 13 then
        match r with
        | String "010" r' => cur :: splitlines_from EmptyString r'
        | _ => cur :: splitlines_from EmptyString r
        end
      else if (n =? 10) || (n =? 11) || (n =? 12) || (n =? 28) || (n =? 29) || (n =? 30)
      then cur :: splitlines_from EmptyString r
      else
        match s with
        | String "194" (String "133" r') => cur :: splitlines_from EmptyString r'
        | String "226" (String "128" (String "168" r')) => cur :: splitlines_from EmptyString r'
        | String "226" (String "128" (String "169" r')) => cur :: splitlines_from EmptyString r'
        | _ => splitlines_from (cur +:+ String c EmptyString) r
        end
  end.

Definition splitlines (s : string) : list string := splitlines_from EmptyString s.

(** [l[:stop]] *)
Definition slice_to {A} (stop : Z) (l : list A) : list A :=
  let len := Z.of_nat (length l) in
  let stop' := if (stop <? 0)%Z then Z.max (len + stop) 0 else Z.min stop len in
  take (Z.to_nat stop') l.

(** *** pathlib

    An absolute path is the list of its components below the root. *)
Definition path : Type := list string.

(** The components of a path string: empty components and [.] are
    dropped, [..] is kept. *)
Definition parts (p : string) : list string :=
  filter (fun c => c <> EmptyString /\ c <> ".") (split_on "/" EmptyString p).

Definition is_absolute (p : string) : bool := String.prefix "/" p.

(** [base / p] *)
Definition joinpath (base : path) (p : string) : path :=
  if is_absolute p then parts p else base ++ parts p.

(** [path.is_relative_to(base)] *)
Fixpoint is_relative_to (pa base : path) : bool :=
  match base, pa with
  | [], _ => true
  | b :: base', c :: pa' => String.eqb b c && is_relative_to pa' base'
  | _ :: _, [] => false
  end.

(** [path.parent] *)
Definition parent (pa : path) : path := removelast pa.

(** [str(path)] *)
Definition path_str (pa : path) : string := "/" +:+ join "/" pa.

(** The operations performed on file contents. *)
Inductive fs_op : Type :=
| OpRead (pa : path)
| OpMkdir (pa : path)
| OpWrite (pa : path) (data : string).

Section FileTools.

(** The file system, with the library operations the tools call on it:
    [Path.resolve] (which only looks at the directory structure),
    [Path.read_text], [Path.mkdir(parents=True, exist_ok=True)] and
    [Path.write_text].  An operation that fails raises. *)
Variable FS : Type.
Variable resolve : FS -> path -> path.
Variable read_text : FS -> path -> outcome string.
Variable mkdir : path -> FS -> outcome unit * FS.
Variable write_text : path -> string -> FS -> outcome unit * FS.

(** [WORKDIR = Path.cwd()] *)
Variable WORKDIR : path.

(** The file system together with the trace of the operations done. *)
Record world : Type := World { fs : FS; ops : list fs_op }.

Definition do_read (pa : path) (w : world) : outcome string * world :=
  (read_text (fs w) pa, World (fs w) (ops w ++ [OpRead pa])).

Definition do_mkdir (pa : path) (w : world) : outcome unit * world :=
  let '(r, fs') := mkdir pa (fs w) in (r, World fs' (ops w ++ [OpMkdir pa])).

Definition do_write (pa : path) (data : string) (w : world) : outcome unit * world :=
  let '(r, fs') := write_text pa data (fs w) in
  (r, World fs' (ops w ++ [OpWrite pa data])).

(** [safe_path] *)
Definition safe_path (w : world) (p : string) : outcome path :=
  let pa := resolve (fs w) (joinpath WORKDIR p) in
  if negb (is_relative_to pa WORKDIR)
  then Raise ("Path escapes workspace: " +:+ p)
  else Ret pa.

(** [run_read] *)
#[warnings="-abstract-large-number"] Definition run_read (p : string) (limit : option Z) (w : world) : string * world :=
  match safe_path w p with
  | Raise e => ("Error: " +:+ e, w)
  | Ret fp =>
      match do_read fp w with
      | (Raise e, w1) => ("Error: " +:+ e, w1)
      | (Ret text, w1) =>
          let lines := splitlines text in
          let lines :=
            match limit with
            | Some lim =>
                if negb (lim =? 0)%Z && (lim <? Z.of_nat (length lines))%Z
                then slice_to lim lines ++
                     ["... (" +:+ of_Z (Z.of_nat (length (splitlines text)) - lim)
                              +:+ " more lines)"]
                else lines
            | None => lines
            end in
          (py_take 50000 (join nl lines), w1)
      end
  end.

(** [run_write] *)
Definition run_write (p : string) (content : string) (w : world) : string * world :=
  match safe_path w p with
  | Raise e => ("Error: " +:+ e, w)
  | Ret fp =>
      match do_mkdir (parent fp) w with
      | (Raise e, w1) => ("Error: " +:+ e, w1)
      | (Ret _, w1) =>
          match do_write fp content w1 with
          | (Raise e, w2) => ("Error: " +:+ e, w2)
          | (Ret _, w2) =>
              ("Wrote " +:+ of_nat (py_len content) +:+ " bytes to " +:+ p, w2)
          end
      end
  end.

(** [run_edit] *)
Definition run_edit (p old_text new_text : string) (w : world) : string * world :=
  match safe_path w p with
  | Raise e => ("Error: " +:+ e, w)
  | Ret fp =>
      match do_read fp w with
      | (Raise e, w1) => ("Error: " +:+ e, w1)
      | (Ret content, w1) =>
          if negb (contains old_text content)
          then ("Error: Text not found in " +:+ p, w1)
          else
            let new_content := replace_first old_text new_text content in
            match do_write fp new_content w1 with
            | (Raise e, w2) => ("Error: " +:+ e, w2)
            | (Ret _, w2) => ("Edited " +:+ p, w2)
            end
      end
  end.

End FileTools.

(** *** An in-memory file system without symbolic links

    Files are a finite map from path strings to contents; [resolve] is
    then the lexical normalisation of [..]. *)
Module MemFS.

Definition t : Type := gmap string string.

Fixpoint normalize_parts (acc : path) (l : path) : path :=
  match l with
  | [] => acc
  | c :: r =>
      if String.eqb c ".." then normalize_parts (removelast acc) r
      else normalize_parts (acc ++ [c]) r
  end.

Definition resolve (_ : t) (pa : path) : path := normalize_parts [] pa.

Definition read_text (m : t) (pa : path) : outcome string :=
  match m !! path_str pa with
  | Some data => Ret data
  | None => Raise ("[Errno 2] No such file or directory: '" +:+ path_str pa +:+ "'")
  end.

Definition mkdir (_ : path) (m : t) : outcome unit * t := (Ret tt, m).

Definition write_text (pa : path) (data : string) (m : t) : outcome unit * t :=
  (Ret tt, <[path_str pa := data]> m).

End MemFS.

(** *** Agent types and tool sets

    A tool schema is represented by its name: no function of the agent
    inspects the descriptions or the input schemas. *)

Record agent_config : Type := {
  ac_description : string;
  ac_tools : option (list string);   (* [None] is the wildcard ["*"] *)
  ac_prompt : string
}.

Definition AGENT_TYPES : list (string * agent_config) :=
  [ ("explore",
     {| ac_description := "Read-only agent for exploring code, finding files, searching";
        ac_tools := Some ["bash"; "read_file"];
        ac_prompt := "You are an exploration agent. Search and analyze, but never modify files. Return a concise summary." |});
    ("code",
     {| ac_description := "Full agent for implementing features and fixing bugs";
        ac_tools := None;
        ac_prompt := "You are a coding agent. Implement the requested changes efficiently." |});
    ("plan",
     {| ac_description := "Planning agent for designing implementation strategies";
        ac_tools := Some ["bash"; "read_file"];
        ac_prompt := "You are a planning agent. Analyze the codebase and output a numbered implementation plan. Do NOT make changes." |}) ].

(** [get_agent_descriptions] *)
Definition get_agent_descriptions : string :=
  join nl (map (fun '(name, cfg) => "- " +:+ name +:+ ": " +:+ ac_description cfg)
               AGENT_TYPES).

Definition BASH_TOOLS : list string := ["bash"].
Definition BASIC_TOOLS : list string := BASH_TOOLS ++ ["read_file"; "write_file"; "edit_file"].
Definition BASE_TOOLS : list string := BASIC_TOOLS ++ ["TodoWrite"].
Definition SUBAGENT_ALL_TOOLS : list string := BASE_TOOLS ++ ["Task"].

(** [get_tools_for_agent] *)
Definition get_tools_for_agent (agent_type : string) : list string :=
  let allowed :=
    match dget agent_type AGENT_TYPES with
    | Some cfg => ac_tools cfg
    | None => None
    end in
  match allowed with
  | None => BASE_TOOLS
  | Some names => filter (fun t => t ∈ names) BASE_TOOLS
  end.

End Tools.

(** ** v4_skills.py: the skill loader *)

Module Skills.
Import PyStr PyDict Tools.

(** *** The manifest pattern

    The pattern of [parse_skill_md], applied by [re.match] with
    [re.DOTALL]: three dashes at the start of the text, blanks up to a
    line feed, a first group (lazy, any characters), a line feed and
    three dashes, blanks up to a line feed, and a second group (greedy,
    any characters) up to the end.  The functions below follow the order
    in which the backtracking matcher explores: each run of blanks is
    greedy, the first group is lazy, and the second group takes the rest
    of the text. *)

(** The ways "blanks up to a line feed" can match a prefix of the text,
    longest first: what remains after each line feed of the leading run
    of blanks.  On the code points of the text, then on the text. *)
Fixpoint blank_nl_matches_chars (l : list string) : list (list string) :=
  match l with
  | [] => []
  | ch :: r =>
      if is_space ch
      then blank_nl_matches_chars r ++ (if String.eqb ch nl then [r] else [])
      else []
  end.

Definition blank_nl_matches (s : string) : list string :=
  map unchars (blank_nl_matches_chars (chars s)).

(** From the end of the first group on: the closing marker, then the
    second group. *)
Definition match_closing (s : string) : option string :=
  if String.prefix (nl +:+ "---") s
  then head (blank_nl_matches (String.substring 4 (String.length s) s))
  else None.

(** The lazy first group: the shortest prefix after which the closing
    marker matches; the result is the two groups. *)
Fixpoint match_groups (s : string) : option (string * string) :=
  match match_closing s with
  | Some body => Some (EmptyString, body)
  | None =>
      match s with
      | EmptyString => None
      | String c r =>
          match match_groups r with
          | Some (front, body) => Some (String c front, body)
          | None => None
          end
      end
  end.

Fixpoint first_match (cands : list string) : option (string * string) :=
  match cands with
  | [] => None
  | s :: rest =>
      match match_groups s with
      | Some g => Some g
      | None => first_match rest
      end
  end.

Definition match_manifest (content : string) : option (string * string) :=
  if String.prefix "---" content
  then first_match (blank_nl_matches (String.substring 3 (String.length content) content))
  else None.

(** [s.strip(chars)] for the characters of [chars]. *)
Definition in_chars (chars : string) (c : ascii) : bool :=
  contains (String c EmptyString) chars.

Fixpoint lstrip_chars (chars s : string) : string :=
  match s with
  | EmptyString => EmptyString
  | String c r => if in_chars chars c then lstrip_chars chars r else s
  end.

Fixpoint rstrip_chars (chars s : string) : string :=
  match s with
  | EmptyString => EmptyString
  | String c r =>
      match rstrip_chars chars r with
      | EmptyString => if in_chars chars c then EmptyString else String c EmptyString
      | r' => String c r'
      end
  end.

Definition strip_chars (chars s : string) : string :=
  rstrip_chars chars (lstrip_chars chars s).

(** The split of a line at its first colon, [None] without a colon. *)
Fixpoint split_colon (key : string) (s : string) : option (string * string) :=
  match s with
  | EmptyString => None
  | String c r =>
      if Ascii.eqb c ":" then Some (key, r)
      else split_colon (key +:+ String c EmptyString) r
  end.

(** The loop over the lines of the front matter. *)
Fixpoint parse_metadata (lines : list string) (metadata : list (string * string))
  : list (string * string) :=
  match lines with
  | [] => metadata
  | line :: rest =>
      match split_colon EmptyString line with
      | Some (key, value) =>
          parse_metadata rest
            (dset (strip key) (strip_chars (dq +:+ sq) (strip value)) metadata)
      | None => parse_metadata rest metadata
      end
  end.

(** A loaded skill; [sk_dir] is the folder of its [SKILL.md]. *)
Record skill : Type := {
  sk_name : string;
  sk_description : string;
  sk_body : string;
  sk_path : string;
  sk_dir : string
}.

(** [SkillLoader.parse_skill_md], applied to the text of the file at
    [dir/SKILL.md]. *)
Definition parse_skill_md (dir : string) (content : string) : option skill :=
  match match_manifest content with
  | None => None
  | Some (frontmatter, body) =>
      let metadata := parse_metadata (split_on "010" EmptyString (strip frontmatter)) [] in
      match dget "name" metadata, dget "description" metadata with
      | Some name, Some description =>
          Some {| sk_name := name;
                  sk_description := description;
                  sk_body := strip body;
                  sk_path := dir +:+ "/SKILL.md";
                  sk_dir := dir |}
      | _, _ => None
      end
  end.

(** An entry of the skills directory, as [iterdir] yields it: its name,
    whether it is a directory, and the text of its [SKILL.md] if that
    file exists. *)
Record dir_entry : Type := {
  e_name : string;
  e_is_dir : bool;
  e_skill_md : option string
}.

(** The loop of [SkillLoader.load_skills] over the entries. *)
Fixpoint load_entries (skills_dir : string) (entries : list dir_entry)
         (skills : list (string * skill)) : list (string * skill) :=
  match entries with
  | [] => skills
  | e :: rest =>
      if negb (e_is_dir e) then load_entries skills_dir rest skills
      else
        match e_skill_md e with
        | None => load_entries skills_dir rest skills
        | Some content =>
            match parse_skill_md (skills_dir +:+ "/" +:+ e_name e) content with
            | Some sk => load_entries skills_dir rest (dset (sk_name sk) sk skills)
            | None => load_entries skills_dir rest skills
            end
        end
  end.

(** [SkillLoader.__init__] and [load_skills]: [None] is a skills
    directory that does not exist. *)
Definition load_skills (skills_dir : string) (listing : option (list dir_entry))
  : list (string * skill) :=
  match listing with
  | None => []
  | Some entries => load_entries skills_dir entries []
  end.

(** [SkillLoader.get_descriptions] *)
Definition get_descriptions (skills : list (string * skill)) : string :=
  match skills with
  | [] => "(no skills available)"
  | _ => join nl (map (fun '(name, sk) => "- " +:+ name +:+ ": " +:+ sk_description sk)
                      skills)
  end.

(** [SkillLoader.list_skills] *)
Definition list_skills (skills : list (string * skill)) : list string := keys skills.

Section Resources.

(** [glob dir folder]: [None] when [dir/folder] does not exist, else the
    names of the entries that [folder_path.glob] yields for the pattern
    that matches everything. *)
Variable glob : string -> string -> option (list string).

Definition resource_line (dir : string) (fl : string * string) : list string :=
  match glob dir (fst fl) with
  | Some (f :: files) => [snd fl +:+ ": " +:+ join ", " (f :: files)]
  | _ => []
  end.

(** [SkillLoader.get_skill_content] *)
Definition get_skill_content (skills : list (string * skill)) (name : string)
  : option string :=
  match dget name skills with
  | None => None
  | Some sk =>
      let content := "# Skill: " +:+ sk_name sk +:+ nl +:+ nl +:+ sk_body sk in
      let resources :=
        concat (map (resource_line (sk_dir sk))
                    [("scripts", "Scripts"); ("references", "References");
                     ("assets", "Assets")]) in
      match resources with
      | [] => Some content
      | _ =>
          Some (content +:+ nl +:+ nl +:+ "**Available resources in "
                  +:+ sk_dir sk +:+ ":**" +:+ nl
                  +:+ join nl (map (fun r => "- " +:+ r) resources))
      end
  end.

(** [run_skill] *)
Definition run_skill (skills : list (string * skill)) (skill_name : string) : string :=
  match get_skill_content skills skill_name with
  | None =>
      let available :=
        match join ", " (list_skills skills) with
        | EmptyString => "none"
        | names => names
        end in
      "Error: Unknown skill '" +:+ skill_name +:+ "'. Available: " +:+ available
  | Some content =>
      "<skill-loaded name=" +:+ dq +:+ skill_name +:+ dq +:+ ">" +:+ nl
        +:+ content +:+ nl
        +:+ "</skill-loaded>" +:+ nl +:+ nl
        +:+ "Follow the instructions in the skill above to complete the user's task."
  end.

End Resources.

End Skills.

(** ** The agent loops (v1_basic.py, v4_skills.py) *)

Module Agent.
Import PyStr PyDict Json Adapter Tools.

(** [type(v).__name__] *)
Definition type_name (v : pyval) : string :=
  match v with
  | PNone => "NoneType"
  | PBool _ => "bool"
  | PInt _ => "int"
  | PFloat _ => "float"
  | PStr _ => "str"
  | PList _ => "list"
  | PDict _ => "dict"
  end.

(** The elements of [l] from index [i] on, as strings; the [TypeError]
    of [str.join] at the first element that is not a [str]. *)
Fixpoint str_items (i : nat) (l : list pyval) : outcome (list string) :=
  match l with
  | [] => Ret []
  | PStr s :: r => obind (str_items (S i) r) (fun ss => Ret (s :: ss))
  | v :: _ =>
      Raise ("sequence item " +:+ of_nat i +:+ ": expected str instance, "
               +:+ type_name v +:+ " found")
  end.

(** [sep.join(l)] for a list of Python values. *)
Definition join_values (sep : string) (l : list pyval) : outcome string :=
  obind (str_items 0 l) (fun ss => Ret (join sep ss)).

(** A [tool_use] block: its [name] and [input]. *)
Record tool_call : Type := ToolCall { tc_name : pyval; tc_input : pyval }.

(** The loop over [response.content] that fills [assistant_text] and
    [tool_calls]. *)
Fixpoint assistant_text (blocks : list block) : list pyval :=
  match blocks with
  | [] => []
  | TextBlock t :: r => t :: assistant_text r
  | ToolUseBlock _ _ _ :: r => assistant_text r
  end.

Fixpoint tool_calls (blocks : list block) : list tool_call :=
  match blocks with
  | [] => []
  | TextBlock _ :: r => tool_calls r
  | ToolUseBlock _ name input :: r => ToolCall name input :: tool_calls r
  end.

(** [any(msg.get("role") == "system" for msg in history)] and the
    insertion of the system prompt at the front. *)
Definition has_system (history : list message) : bool :=
  existsb (fun msg => String.eqb (role msg) "system") history.

Definition with_system (SYSTEM : string) (history : list message) : list message :=
  if has_system history then history else Message "system" SYSTEM :: history.

Section Loop.

Context {interp : Interpreter}.

(** The world outside the agent: the model backend, the file system,
    the processes the tools start. *)
Variable W : Type.

(** [self.llm.invoke(langchain_messages, tools=...)] followed by the
    output plug-ins of [chat] (util.llm_plugin is not among these
    sources): the reply, or the exception raised. *)
Variable llm_invoke : list lc_message -> list string -> W -> outcome string * W.

(** [execute_tool(name, args)]: the dispatcher of the running agent. *)
Variable execute_tool : pyval -> pyval -> W -> outcome string * W.

(** [str(v)], as the f-strings apply it to a block's name and input. *)
Variable py_str : pyval -> string.

(** The module-level [client]. *)
Variable client : LLMChatAdapter.

(** [LLMChatAdapter.chat], called with [messages]. *)
Definition chat (prompt : string) (messages : list message) (tools : list string)
           (w : W) : (bool * string) * W :=
  let langchain_messages := _build_langchain_messages client messages prompt in
  match llm_invoke langchain_messages tools w with
  | (Ret response, w') => ((true, response), w')
  | (Raise e, w') => ((false, "LLM调用出错: " +:+ e), w')
  end.

(** [LLMChatAdapter.chat_with_tools] (without [system]). *)
Definition chat_with_tools (prompt : string) (messages : list message)
           (tools : list string) (w : W) : Response * W :=
  let '((success, content), w') := chat prompt messages tools w in
  (normalize success content, w').

(** What one iteration of a loop leads to. *)
Inductive turn : Type :=
| Done (history : list message)
| Continue (history : list message) (w : W)
| Failed (msg : string) (history : list message) (w : W).

(** *** v1_basic.py *)

(** The [for tc in tool_calls] loop of v1. *)
Fixpoint run_tools_v1 (calls : list tool_call) (results : list string) (w : W)
  : outcome (list string) * W :=
  match calls with
  | [] => (Ret results, w)
  | tc :: rest =>
      match execute_tool (tc_name tc) (tc_input tc) w with
      | (Raise e, w') => (Raise e, w')
      | (Ret output, w') =>
          run_tools_v1 rest
            (results ++ ["工具 " +:+ py_str (tc_name tc) +:+ ", 输入: "
                           +:+ py_str (tc_input tc) +:+ ", 返回: " +:+ output]) w'
      end
  end.

Definition results_message (results : list string) : message :=
  Message "user" ("执行结果：" +:+ nl +:+ join nl results +:+ nl +:+ nl +:+ "请继续处理").

(** The body of the [while] loop of v1 after the model call. *)
Definition process_turn_v1 (response : Response) (history : list message) (w : W)
  : turn :=
  match join_values nl (assistant_text (resp_content response)) with
  | Raise e => Failed e history w
  | Ret full_text =>
      match tool_calls (resp_content response) with
      | [] => Done (history ++ [Message "assistant" full_text])
      | calls =>
          match run_tools_v1 calls [] w with
          | (Raise e, w') => Failed e history w'
          | (Ret results, w') =>
              Continue (history ++ [Message "assistant" full_text;
                                    results_message results]) w'
          end
      end
  end.

(** What the caller of a loop observes: the value returned
    ([Ret (Some h)] for [return history], [Ret None] when the function
    ends without [return]) or the exception, the caller's history list
    afterwards (it is modified in place), and the final value of the
    local [step]. *)
Record loop_exit : Type := LoopExit {
  lx_result : outcome (option (list message));
  lx_history : list message;
  lx_step : nat;
  lx_world : W
}.

(** [while step < max_steps], with [remaining = max_steps - step]. *)
Fixpoint loop_v1 (remaining step : nat) (prompt : string)
         (history : list message) (w : W) : loop_exit :=
  match remaining with
  | 0 => LoopExit (Ret None) history step w
  | S k =>
      let step := step + 1 in
      let '(response, w1) := chat_with_tools prompt history BASIC_TOOLS w in
      match process_turn_v1 response history w1 with
      | Done h => LoopExit (Ret (Some h)) h step w1
      | Continue h w2 => loop_v1 k step prompt h w2
      | Failed e h w2 => LoopExit (Raise e) h step w2
      end
  end.

(** [agent_loop] of v1_basic.py. *)
Definition agent_loop_v1 (SYSTEM : string) (prompt : string)
           (history : list message) (max_steps : nat) (w : W) : loop_exit :=
  loop_v1 max_steps 0 prompt (with_system SYSTEM history) w.

(** *** v0_bash.py *)

(** [run_bash(cmd)] of utils.py, applied to the value found under
    [command]: the output, or the exception raised on a value that is
    not a string. *)
Variable run_bash : pyval -> W -> outcome string * W.

(** The [for tc in tool_calls] loop of [chat]: only [bash] calls with a
    truthy command are run. *)
Fixpoint run_tools_v0 (calls : list tool_call) (all_outputs : list string) (w : W)
  : outcome (list string) * W :=
  match calls with
  | [] => (Ret all_outputs, w)
  | tc :: rest =>
      if is_str "bash" (tc_name tc) then
        match py_get (tc_input tc) "command" PNone with
        | Raise e => (Raise e, w)
        | Ret cmd =>
            if truthy cmd then
              match run_bash cmd w with
              | (Raise e, w') => (Raise e, w')
              | (Ret output, w') =>
                  run_tools_v0 rest
                    (all_outputs ++ ["$ " +:+ py_str cmd +:+ nl +:+ output]) w'
              end
            else run_tools_v0 rest all_outputs w
        end
      else run_tools_v0 rest all_outputs w
  end.

Definition step_limit_message : string := "达到最大执行步数限制，停止执行。".

(** What the caller of [chat] observes: the string returned or the
    exception, the history list afterwards, the final [step]. *)
Record chat_exit : Type := ChatExit {
  cx_result : outcome string;
  cx_history : list message;
  cx_step : nat;
  cx_world : W
}.

(** The [while] loop of [chat], with [remaining = max_steps - step]. *)
Fixpoint loop_v0 (remaining step : nat) (prompt : string)
         (history : list message) (w : W) : chat_exit :=
  match remaining with
  | 0 => ChatExit (Ret step_limit_message) history step w
  | S k =>
      let step := step + 1 in
      let '(response, w1) := chat_with_tools prompt history BASH_TOOLS w in
      let prompt := if step =? 1 then "继续" else prompt in
      match join_values nl (assistant_text (resp_content response)) with
      | Raise e => ChatExit (Raise e) history step w1
      | Ret full_text =>
          let calls := tool_calls (resp_content response) in
          let history :=
            if negb (String.eqb full_text EmptyString)
            then history ++ [Message "assistant" full_text]
            else match calls with
                 | [] => history
                 | _ => history ++ [Message "assistant" "(Executing tools...)"]
                 end in
          match calls with
          | [] =>
              if String.eqb (stop_reason response) "end_turn"
              then ChatExit (Ret full_text) history step w1
              else ChatExit
                     (Ret (if String.eqb full_text EmptyString
                           then "(No response)" else full_text))
                     history step w1
          | _ =>
              match run_tools_v0 calls [] w1 with
              | (Raise e, w2) => ChatExit (Raise e) history step w2
              | (Ret all_outputs, w2) =>
                  let reply :=
                    match all_outputs with
                    | [] => Message "user" "Error: Tool call failed or produced no output."
                    | _ => Message "user" ("执行结果：" +:+ nl +:+ join nl all_outputs
                                            +:+ nl +:+ nl +:+ "请继续处理。")
                    end in
                  loop_v0 k step prompt (history ++ [reply]) w2
              end
          end
      end
  end.

(** [chat] of v0_bash.py. *)
Definition chat_v0 (SYSTEM : string) (prompt : string) (history : list message)
           (max_steps : nat) (w : W) : chat_exit :=
  loop_v0 max_steps 0 prompt
          (with_system SYSTEM history ++ [Message "user" prompt]) w.

(** *** v4_skills.py *)

Definition ALL_TOOLS : list string := SUBAGENT_ALL_TOOLS ++ ["Skill"].

(** The [tc.input.get(...)] of the log line written before a [Task] or
    a [Skill] call: it raises when the input is not an object. *)
Definition log_call_v4 (tc : tool_call) : outcome unit :=
  if is_str "Task" (tc_name tc) || is_str "Skill" (tc_name tc) then
    match tc_input tc with
    | PDict _ => Ret tt
    | v => Raise ("'" +:+ type_name v +:+ "' object has no attribute 'get'")
    end
  else Ret tt.

(** The [for tc in tool_calls] loop of [agent_loop] in v4. *)
Fixpoint run_tools_v4 (calls : list tool_call) (results : list string) (w : W)
  : outcome (list string) * W :=
  match calls with
  | [] => (Ret results, w)
  | tc :: rest =>
      match log_call_v4 tc with
      | Raise e => (Raise e, w)
      | Ret _ =>
          match execute_tool (tc_name tc) (tc_input tc) w with
          | (Raise e, w') => (Raise e, w')
          | (Ret output, w') =>
              run_tools_v4 rest
                (results ++ ["工具 " +:+ py_str (tc_name tc) +:+ ", 输入: "
                               +:+ py_str (tc_input tc) +:+ ", 返回: " +:+ output]) w'
          end
      end
  end.

(** The body of the [while] loop of v4 after the model call. *)
Definition process_turn_v4 (response : Response) (history : list message) (w : W)
  : turn :=
  match join_values nl (assistant_text (resp_content response)) with
  | Raise e => Failed e history w
  | Ret full_text =>
      match tool_calls (resp_content response) with
      | [] => Done (history ++ [Message "assistant" full_text])
      | calls =>
          match run_tools_v4 calls [] w with
          | (Raise e, w') => Failed e history w'
          | (Ret results, w') =>
              Continue (history ++ [Message "assistant" full_text;
                                    results_message results]) w'
          end
      end
  end.

Fixpoint loop_v4 (remaining step : nat) (prompt : string)
         (history : list message) (w : W) : loop_exit :=
  match remaining with
  | 0 => LoopExit (Ret None) history step w
  | S k =>
      let step := step + 1 in
      let '(response, w1) := chat_with_tools prompt history ALL_TOOLS w in
      match process_turn_v4 response history w1 with
      | Done h => LoopExit (Ret (Some h)) h step w1
      | Continue h w2 => loop_v4 k step prompt h w2
      | Failed e h w2 => LoopExit (Raise e) h step w2
      end
  end.

(** [agent_loop] of v4_skills.py. *)
Definition agent_loop_v4 (SYSTEM : string) (prompt : string)
           (history : list message) (max_steps : nat) (w : W) : loop_exit :=
  loop_v4 max_steps 0 prompt (with_system SYSTEM history) w.

(** *** The subagent of v4_skills.py ([run_task] of v3_subagent.py is
    the same function with another default for [max_steps]) *)

(** [str(WORKDIR)] and [sys.platform]. *)
Variable WORKDIR : string.
Variable platform : string.

Definition max_steps : nat := 50.

(** The f-string [sub_system]. *)
Definition sub_system (agent_type : string) (config : agent_config) : string :=
  "你是一个位于 " +:+ WORKDIR +:+ " 的 " +:+ agent_type +:+ " 子代理，系统为 "
    +:+ platform +:+ "。" +:+ nl +:+ nl
    +:+ ac_prompt config +:+ nl +:+ nl
    +:+ "完成任务并返回清晰、简洁的总结。".

Definition sub_results_message (results : list string) : message :=
  Message "user" ("子代理执行结果：" +:+ nl +:+ join nl results +:+ nl +:+ nl +:+ "请继续处理").

(** The [for tc in tool_calls] loop of the subagent. *)
Fixpoint run_tools_sub (agent_type : string) (calls : list tool_call)
         (results : list string) (w : W) : outcome (list string) * W :=
  match calls with
  | [] => (Ret results, w)
  | tc :: rest =>
      match execute_tool (tc_name tc) (tc_input tc) w with
      | (Raise e, w') => (Raise e, w')
      | (Ret output, w') =>
          run_tools_sub agent_type rest
            (results ++ ["      [子代理][" +:+ agent_type +:+ "] 工具 "
                           +:+ py_str (tc_name tc) +:+ ", 输入: "
                           +:+ py_str (tc_input tc) +:+ ", 返回: " +:+ output]) w'
      end
  end.

(** The [while] loop of the subagent.  [last] holds the locals
    [response] and [full_text], which are unbound before the first
    iteration; the result is [sub_messages] and [last] when the loop
    ends. *)
Fixpoint sub_loop (remaining : nat) (agent_type : string) (sub_tools : list string)
         (sub_messages : list message) (last : option (Response * string)) (w : W)
  : outcome (list message * option (Response * string)) * W :=
  match remaining with
  | 0 => (Ret (sub_messages, last), w)
  | S k =>
      let '(response, w1) := chat_with_tools EmptyString sub_messages sub_tools w in
      match join_values nl (assistant_text (resp_content response)) with
      | Raise e => (Raise e, w1)
      | Ret full_text =>
          match tool_calls (resp_content response) with
          | [] => (Ret (sub_messages, Some (response, full_text)), w1)
          | calls =>
              match run_tools_sub agent_type calls [] w1 with
              | (Raise e, w2) => (Raise e, w2)
              | (Ret results, w2) =>
                  sub_loop k agent_type sub_tools
                    (sub_messages ++ [Message "assistant" full_text;
                                      sub_results_message results])
                    (Some (response, full_text)) w2
              end
          end
      end
  end.

Definition has_text (blocks : list block) : bool :=
  existsb (fun b => match b with TextBlock _ => true | _ => false end) blocks.

(** The message list a subagent starts from. *)
Definition sub_messages_init (agent_type : string) (config : agent_config)
           (prompt : string) : list message :=
  [Message "system" (sub_system agent_type config); Message "user" prompt].

(** [run_subagent_task]; [description] only appears in the progress
    lines written to the terminal. *)
Definition run_subagent_task (description prompt agent_type : string)
           (max_steps : nat) (w : W) : outcome string * W :=
  match dget agent_type AGENT_TYPES with
  | None => (Ret ("Error: Unknown agent type '" +:+ agent_type +:+ "'"), w)
  | Some config =>
      let sub_tools := get_tools_for_agent agent_type in
      let sub_messages := sub_messages_init agent_type config prompt in
      match sub_loop max_steps agent_type sub_tools sub_messages None w with
      | (Raise e, w') => (Raise e, w')
      | (Ret (_, None), w') =>
          (Raise "cannot access local variable 'response' where it is not associated with a value", w')
      | (Ret (_, Some (response, full_text)), w') =>
          (Ret (if has_text (resp_content response) then full_text
                else "(subagent returned no text)"), w')
      end
  end.

(** The [Task] branch of [execute_tool] in v4, for the string arguments
    the tool schema requires: the value handed back to the parent loop. *)
Definition task_tool (description prompt agent_type : string) (w : W) : string * W :=
  match run_subagent_task description prompt agent_type max_steps w with
  | (Ret s, w') => (s, w')
  | (Raise e, w') => ("Error: " +:+ e, w')
  end.

End Loop.

End Agent.

(** ** utils.py: [run_bash] *)

Module Shell.
Import PyStr PyDict Json Adapter.

(** How [subprocess.run(cmd, shell=True, cwd=WORKDIR,
    capture_output=True, text=True, timeout=120)] ends: with the two
    captured streams, with [TimeoutExpired], or with another exception
    (whose text is [msg]). *)
Inductive proc_result : Type :=
| Completed (stdout stderr : string)
| TimeoutExpired
| ProcError (msg : string).

Definition dangerous : list string := ["rm -rf /"; "sudo"; "shutdown"; "reboot"].

(** [any(d in cmd for d in ds)] *)
Fixpoint any_in (ds : list string) (cmd : pyval) : outcome bool :=
  match ds with
  | [] => Ret false
  | d :: rest =>
      obind (py_in d cmd) (fun found => if found then Ret true else any_in rest cmd)
  end.

Section RunBash.

(** The machine the command runs on, and the library call. *)
Variable W : Type.
Variable subprocess_run : pyval -> W -> proc_result * W.

(** [run_bash] *)
#[warnings="-abstract-large-number"] Definition run_bash (cmd : pyval) (w : W) : outcome string * W :=
  match any_in dangerous cmd with
  | Raise e => (Raise e, w)
  | Ret true => (Ret "Error: Dangerous command blocked", w)
  | Ret false =>
      match subprocess_run cmd w with
      | (Completed stdout stderr, w') =>
          let output := strip (stdout +:+ stderr) in
          (Ret (if String.eqb output EmptyString then "(no output)"
                else py_take 50000 output), w')
      | (TimeoutExpired, w') => (Ret "Error: Timeout", w')
      | (ProcError e, w') => (Ret ("Error: " +:+ e), w')
      end
  end.

End RunBash.

End Shell.

(** ** utils.py, v1_basic.py and v4_skills.py: the dispatchers *)

Module Dispatch.
Import PyStr PyDict Json Adapter Tools Skills Agent Shell Todo.

(** [v[k]] for a string literal [k], with the text of the exception
    (as CPython 3.11 and later word it). *)
Definition subscript (v : pyval) (k : string) : outcome pyval :=
  match v with
  | PDict kvs =>
      match dget k kvs with
      | Some x => Ret x
      | None => Raise (sq +:+ k +:+ sq)
      end
  | PStr _ => Raise "string indices must be integers, not 'str'"
  | PList _ => Raise "list indices must be integers or slices, not str"
  | _ => Raise (sq +:+ type_name v +:+ sq +:+ " object is not subscriptable")
  end.

(** [for item in v]: the elements iterated over. *)
Definition iter_values (v : pyval) : outcome (list pyval) :=
  match v with
  | PList l => Ret l
  | PStr s => Ret (map PStr (chars s))
  | PDict kvs => Ret (map PStr (keys kvs))
  | _ => Raise (sq +:+ type_name v +:+ sq +:+ " object is not iterable")
  end.

Section TodoValues.

(** [str(v)] *)
Variable py_str : pyval -> string.

(** [str(item.get(k, dflt))] *)
Definition field (item : pyval) (k dflt : string) : outcome string :=
  match item with
  | PDict kvs => Ret (match dget k kvs with Some v => py_str v | None => dflt end)
  | v => Raise (sq +:+ type_name v +:+ sq +:+ " object has no attribute 'get'")
  end.

(** The loop of [TodoManager.update] over the elements of a Python
    value. *)
Fixpoint validate_values (i : nat) (l : list pyval)
         (validated : list item) (in_progress_count : nat)
  : outcome (list item * nat) :=
  match l with
  | [] => Ret (validated, in_progress_count)
  | it :: rest =>
      obind (field it "content" EmptyString) (fun c =>
      let content := strip c in
      obind (field it "status" "pending") (fun s =>
      let status := lower s in
      obind (field it "activeForm" EmptyString) (fun a =>
      let active_form := strip a in
      if String.eqb content EmptyString
      then Raise ("Item " +:+ of_nat i +:+ ": content required")
      else if negb (status_ok status)
      then Raise ("Item " +:+ of_nat i +:+ ": invalid status '" +:+ status +:+ "'")
      else if String.eqb active_form EmptyString
      then Raise ("Item " +:+ of_nat i +:+ ": activeForm required")
      else
        let in_progress_count :=
          if String.eqb status "in_progress"
          then in_progress_count + 1 else in_progress_count in
        validate_values (S i) rest
                        (validated ++ [Item content status active_form])
                        in_progress_count)))
  end.

(** [TodoManager.update] applied to a Python value. *)
Definition update_value (self : TodoManager) (items : pyval)
  : outcome string * TodoManager :=
  match iter_values items with
  | Raise m => (Raise m, self)
  | Ret l =>
      match validate_values 0 l [] 0 with
      | Raise m => (Raise m, self)
      | Ret (validated, in_progress_count) =>
          if 20 <? length validated
          then (Raise "Max 20 todos allowed", self)
          else if 1 <? in_progress_count
          then (Raise "Only one task can be in_progress at a time", self)
          else
            let self' := {| items := validated |} in
            (Ret (render self'), self')
      end
  end.

End TodoValues.

(** [isinstance(v, int)] *)
Definition is_int (v : pyval) : bool :=
  match v with PInt _ | PBool _ => true | _ => false end.

Section Dispatchers.

(** The machine: its file system with the library operations of the
    file tools, and the processes [run_bash] starts, which act on the
    same file system. *)
Variable FS : Type.
Variable resolve : FS -> path -> path.
Variable read_text : FS -> path -> outcome string.
Variable mkdir : path -> FS -> outcome unit * FS.
Variable write_text : path -> string -> FS -> outcome unit * FS.
Variable subprocess_run : pyval -> FS -> proc_result * FS.
Variable WORKDIR : path.

(** [type(WORKDIR).__name__]: the path class of the platform. *)
Variable path_class : string.

Variable py_str : pyval -> string.

(** A process changes the file system; the trace keeps the operations
    of the file tools only. *)
Definition run_process (cmd : pyval) (w : world FS) : proc_result * world FS :=
  let '(r, fs') := subprocess_run cmd (fs FS w) in (r, World FS fs' (ops FS w)).

(** The [TypeError] of [WORKDIR / p] for a [p] that is not a string. *)
Definition path_type_error (p : pyval) : string :=
  "unsupported operand type(s) for /: '" +:+ path_class +:+ "' and '"
    +:+ type_name p +:+ "'".

(** [run_read(path, limit)] for the values the dispatcher passes: the
    limit is [None], an [int] or a [bool]. *)
Definition read_value (p limit : pyval) (w : world FS) : string * world FS :=
  match p with
  | PStr p =>
      run_read FS resolve read_text WORKDIR p
        (match limit with
         | PInt z => Some z
         | PBool b => Some (if b then 1%Z else 0%Z)
         | _ => None
         end) w
  | v => ("Error: " +:+ path_type_error v, w)
  end.

(** [run_write(path, content)]: [write_text] refuses data that is not a
    string, after the parent folder was made. *)
Definition write_value (p content : pyval) (w : world FS) : string * world FS :=
  match p with
  | PStr p =>
      match content with
      | PStr c => run_write FS resolve mkdir write_text WORKDIR p c w
      | v =>
          match safe_path FS resolve WORKDIR w p with
          | Raise e => ("Error: " +:+ e, w)
          | Ret fp =>
              match do_mkdir FS mkdir (parent fp) w with
              | (Raise e, w1) => ("Error: " +:+ e, w1)
              | (Ret _, w1) => ("Error: data must be str, not " +:+ type_name v, w1)
              end
          end
      end
  | v => ("Error: " +:+ path_type_error v, w)
  end.

(** [run_edit(path, old_text, new_text)]: the membership test refuses
    an old text that is not a string, [str.replace] a new text that is
    not one; both after the file was read. *)
Definition edit_value (p old_text new_text : pyval) (w : world FS)
  : string * world FS :=
  match p with
  | PStr p =>
      match old_text, new_text with
      | PStr o, PStr n => run_edit FS resolve read_text write_text WORKDIR p o n w
      | _, _ =>
          match safe_path FS resolve WORKDIR w p with
          | Raise e => ("Error: " +:+ e, w)
          | Ret fp =>
              match do_read FS read_text fp w with
              | (Raise e, w1) => ("Error: " +:+ e, w1)
              | (Ret content, w1) =>
                  match old_text with
                  | PStr o =>
                      if negb (contains o content)
                      then ("Error: Text not found in " +:+ p, w1)
                      else ("Error: replace() argument 2 must be str, not "
                              +:+ type_name new_text, w1)
                  | v =>
                      ("Error: 'in <string>' requires string as left operand, not "
                         +:+ type_name v, w1)
                  end
              end
          end
      end
  | v => ("Error: " +:+ path_type_error v, w)
  end.

(** [execute_base_tools(name, args, todo_manager)]: the value returned
    ([None] when the tool is not a base tool) or the exception, the
    machine and the manager afterwards. *)
Definition execute_base_tools (name args : pyval)
           (todo_manager : option TodoManager) (w : world FS)
  : outcome (option string) * world FS * option TodoManager :=
  if is_str "bash" name then
    match py_in "command" args with
    | Raise e => (Raise e, w, todo_manager)
    | Ret false => (Ret (Some "Error: bash command required"), w, todo_manager)
    | Ret true =>
        match py_item args "command" with
        | Raise e => (Raise e, w, todo_manager)
        | Ret cmd =>
            match run_bash (world FS) run_process cmd w with
            | (Raise e, w') => (Raise e, w', todo_manager)
            | (Ret out, w') => (Ret (Some out), w', todo_manager)
            end
        end
    end
  else if is_str "read_file" name then
    match py_in "path" args with
    | Raise e => (Raise e, w, todo_manager)
    | Ret false => (Ret (Some "Error: read_file path required"), w, todo_manager)
    | Ret true =>
        match obind (py_in "limit" args) (fun has_limit =>
              if has_limit
              then obind (py_item args "limit") (fun l => Ret (negb (is_int l)))
              else Ret false) with
        | Raise e => (Raise e, w, todo_manager)
        | Ret true => (Ret (Some "Error: limit must be an integer"), w, todo_manager)
        | Ret false =>
            match py_item args "path" with
            | Raise e => (Raise e, w, todo_manager)
            | Ret p =>
                match py_get args "limit" PNone with
                | Raise e => (Raise e, w, todo_manager)
                | Ret limit =>
                    let '(out, w') := read_value p limit w in
                    (Ret (Some out), w', todo_manager)
                end
            end
        end
    end
  else if is_str "write_file" name then
    match py_in "path" args with
    | Raise e => (Raise e, w, todo_manager)
    | Ret false => (Ret (Some "Error: write_file path required"), w, todo_manager)
    | Ret true =>
        match py_in "content" args with
        | Raise e => (Raise e, w, todo_manager)
        | Ret false => (Ret (Some "Error: write_file content required"), w, todo_manager)
        | Ret true =>
            match obind (py_item args "path") (fun p =>
                  obind (py_item args "content") (fun c => Ret (p, c))) with
            | Raise e => (Raise e, w, todo_manager)
            | Ret (p, c) =>
                let '(out, w') := write_value p c w in
                (Ret (Some out), w', todo_manager)
            end
        end
    end
  else if is_str "edit_file" name then
    match py_in "path" args with
    | Raise e => (Raise e, w, todo_manager)
    | Ret false => (Ret (Some "Error: edit_file path required"), w, todo_manager)
    | Ret true =>
        match py_in "old_text" args with
        | Raise e => (Raise e, w, todo_manager)
        | Ret false => (Ret (Some "Error: edit_file old_text required"), w, todo_manager)
        | Ret true =>
            match py_in "new_text" args with
            | Raise e => (Raise e, w, todo_manager)
            | Ret false =>
                (Ret (Some "Error: edit_file new_text required"), w, todo_manager)
            | Ret true =>
                match obind (py_item args "path") (fun p =>
                      obind (py_item args "old_text") (fun o =>
                      obind (py_item args "new_text") (fun n => Ret (p, o, n)))) with
                | Raise e => (Raise e, w, todo_manager)
                | Ret (p, o, n) =>
                    let '(out, w') := edit_value p o n w in
                    (Ret (Some out), w', todo_manager)
                end
            end
        end
    end
  else
    match todo_manager with
    | Some manager =>
        if is_str "TodoWrite" name then
          match py_in "items" args with
          | Raise e => (Raise e, w, todo_manager)
          | Ret false => (Ret (Some "Error: TodoWrite items required"), w, todo_manager)
          | Ret true =>
              match py_item args "items" with
              | Raise e => (Raise e, w, todo_manager)
              | Ret items =>
                  match update_value py_str manager items with
                  | (Raise e, manager') => (Raise e, w, Some manager')
                  | (Ret out, manager') => (Ret (Some out), w, Some manager')
                  end
              end
          end
        else (Ret None, w, todo_manager)
    | None => (Ret None, w, todo_manager)
    end.

(** [execute_tool] of v1_basic.py *)
Definition execute_tool_v1 (name args : pyval) (w : world FS)
  : outcome string * world FS :=
  match execute_base_tools name args None w with
  | (Raise e, w', _) => (Raise e, w')
  | (Ret (Some result), w', _) => (Ret result, w')
  | (Ret None, w', _) => (Ret ("Unknown tool: " +:+ py_str name), w')
  end.

(** The state of v4_skills.py: the machine and the module-level
    [TODO]. *)
Definition state : Type := world FS * TodoManager.

(** The module-level [SKILLS] (the table loaded at start-up) and the
    directory listings its resource hints read. *)
Variable SKILLS : list (string * skill).
Variable glob : string -> string -> option (list string).

(** [run_skill(v)]: a list or an object cannot be looked up in the
    table (they are unhashable); any other value that is not a string is
    not a name of the table. *)
Definition skill_value (v : pyval) : outcome string :=
  match v with
  | PStr name => Ret (run_skill glob SKILLS name)
  | PList _ | PDict _ => Raise ("unhashable type: '" +:+ type_name v +:+ "'")
  | _ =>
      Ret ("Error: Unknown skill '" +:+ py_str v +:+ "'. Available: "
             +:+ match join ", " (list_skills SKILLS) with
                 | EmptyString => "none"
                 | names => names
                 end)
  end.

(** [execute_tool] of v4_skills.py.  [run_task] stands for
    [run_subagent_task], whose loop calls [execute_tool] again. *)
Definition execute_tool_v4
           (run_task : pyval -> pyval -> pyval -> state -> outcome string * state)
           (name args : pyval) (st : state) : outcome string * state :=
  match execute_base_tools name args None (fst st) with
  | (Raise e, w', _) => (Raise e, (w', snd st))
  | (Ret (Some result), w', _) => (Ret result, (w', snd st))
  | (Ret None, w', _) =>
      if is_str "TodoWrite" name then
        match subscript args "items" with
        | Raise e => (Ret ("Error: " +:+ e), (w', snd st))
        | Ret items =>
            match update_value py_str (snd st) items with
            | (Raise e, _) => (Ret ("Error: " +:+ e), (w', snd st))
            | (Ret out, manager') => (Ret out, (w', manager'))
            end
        end
      else if is_str "Task" name then
        match obind (subscript args "description") (fun d =>
              obind (subscript args "prompt") (fun p =>
              obind (subscript args "agent_type") (fun a => Ret (d, p, a)))) with
        | Raise e => (Ret ("Error: " +:+ e), (w', snd st))
        | Ret (d, p, a) =>
            match run_task d p a (w', snd st) with
            | (Raise e, st') => (Ret ("Error: " +:+ e), st')
            | (Ret out, st') => (Ret out, st')
            end
        end
      else if is_str "Skill" name then
        match obind (subscript args "skill") skill_value with
        | Raise e => (Ret ("Error: " +:+ e), (w', snd st))
        | Ret out => (Ret out, (w', snd st))
        end
      else (Ret ("Unknown tool: " +:+ py_str name), (w', snd st))
  end.

(** [execute_tool] of v2_todo.py: [args["items"]] is evaluated before
    [run_todo] is entered, outside its [try]. *)
Definition execute_tool_v2 (name args : pyval) (st : state) : outcome string * state :=
  match execute_base_tools name args None (fst st) with
  | (Raise e, w', _) => (Raise e, (w', snd st))
  | (Ret (Some result), w', _) => (Ret result, (w', snd st))
  | (Ret None, w', _) =>
      if is_str "TodoWrite" name then
        match subscript args "items" with
        | Raise e => (Raise e, (w', snd st))
        | Ret items =>
            match update_value py_str (snd st) items with
            | (Raise e, _) => (Ret ("Error: " +:+ e), (w', snd st))
            | (Ret out, manager') => (Ret out, (w', manager'))
            end
        end
      else (Ret ("Unknown tool: " +:+ py_str name), (w', snd st))
  end.

(** [execute_tool] of v3_subagent.py: the [Task] branch has no [try];
    [run_task] stands for [run_task] of that file. *)
Definition execute_tool_v3
           (run_task : pyval -> pyval -> pyval -> state -> outcome string * state)
           (name args : pyval) (st : state) : outcome string * state :=
  match execute_base_tools name args None (fst st) with
  | (Raise e, w', _) => (Raise e, (w', snd st))
  | (Ret (Some result), w', _) => (Ret result, (w', snd st))
  | (Ret None, w', _) =>
      if is_str "TodoWrite" name then
        match subscript args "items" with
        | Raise e => (Ret ("Error: " +:+ e), (w', snd st))
        | Ret items =>
            match update_value py_str (snd st) items with
            | (Raise e, _) => (Ret ("Error: " +:+ e), (w', snd st))
            | (Ret out, manager') => (Ret out, (w', manager'))
            end
        end
      else if is_str "Task" name then
        match obind (subscript args "description") (fun d =>
              obind (subscript args "prompt") (fun p =>
              obind (subscript args "agent_type") (fun a => Ret (d, p, a)))) with
        | Raise e => (Raise e, (w', snd st))
        | Ret (d, p, a) => run_task d p a (w', snd st)
        end
      else (Ret ("Unknown tool: " +:+ py_str name), (w', snd st))
  end.

End Dispatchers.

End Dispatch.

(** ** v2_todo.py: the loop with the reminder counter *)

Module AgentV2.
Import PyStr PyDict Json Adapter Tools Agent.

Definition INITIAL_REMINDER : string :=
  "<reminder>使用 TodoWrite 处理多步骤任务。</reminder>".

Definition NAG_REMINDER : string :=
  "<reminder>超过 10 轮未更新任务列表。请更新任务列表。</reminder>".

(** The module-level [max_steps]. *)
Definition max_steps : nat := 20.

(** The content of the user message that [main] appends for an input
    line. *)
Definition user_content (first_message : bool) (rounds_without_todo : nat)
           (user_input : string) : string :=
  let content :=
    if first_message then [INITIAL_REMINDER]
    else if max_steps <? rounds_without_todo then [NAG_REMINDER]
    else [] in
  join nl (content ++ ["输入：" +:+ user_input]).

Section LoopV2.

Context {interp : Interpreter}.

Variable W : Type.
Variable llm_invoke : list lc_message -> list string -> W -> outcome string * W.
Variable execute_tool : pyval -> pyval -> W -> outcome string * W.
Variable py_str : pyval -> string.
Variable client : LLMChatAdapter.

(** The [for tc in tool_calls] loop, with the flag [used_todo]. *)
Fixpoint run_tools_v2 (calls : list tool_call) (results : list string)
         (used_todo : bool) (w : W) : outcome (list string * bool) * W :=
  match calls with
  | [] => (Ret (results, used_todo), w)
  | tc :: rest =>
      match execute_tool (tc_name tc) (tc_input tc) w with
      | (Raise e, w') => (Raise e, w')
      | (Ret output, w') =>
          run_tools_v2 rest
            (results ++ ["工具 " +:+ py_str (tc_name tc) +:+ ", 输入: "
                           +:+ py_str (tc_input tc) +:+ ", 返回: " +:+ output])
            (if is_str "TodoWrite" (tc_name tc) then true else used_todo) w'
      end
  end.

(** What the caller observes: as for the other loops, and the global
    [rounds_without_todo] afterwards. *)
Record exit_v2 : Type := ExitV2 {
  x2_result : outcome (option (list message));
  x2_history : list message;
  x2_step : nat;
  x2_rounds : nat;
  x2_world : W
}.

(** [while step < max_steps], with [remaining = max_steps - step]. *)
Fixpoint loop_v2 (remaining step : nat) (prompt : string) (history : list message)
         (rounds_without_todo : nat) (w : W) : exit_v2 :=
  match remaining with
  | 0 => ExitV2 (Ret None) history step rounds_without_todo w
  | S k =>
      let step := step + 1 in
      let '(response, w1) :=
        chat_with_tools W llm_invoke client prompt history BASE_TOOLS w in
      match join_values nl (assistant_text (resp_content response)) with
      | Raise e => ExitV2 (Raise e) history step rounds_without_todo w1
      | Ret full_text =>
          match tool_calls (resp_content response) with
          | [] =>
              ExitV2 (Ret (Some (history ++ [Message "assistant" full_text])))
                     (history ++ [Message "assistant" full_text])
                     step rounds_without_todo w1
          | calls =>
              match run_tools_v2 calls [] false w1 with
              | (Raise e, w2) => ExitV2 (Raise e) history step rounds_without_todo w2
              | (Ret (results, used_todo), w2) =>
                  loop_v2 k step prompt
                    (history ++ [Message "assistant" full_text;
                                 results_message results])
                    (if used_todo then 0 else rounds_without_todo + 1) w2
              end
          end
      end
  end.

(** [agent_loop] of v2_todo.py, called with a history. *)
Definition agent_loop_v2 (SYSTEM : string) (prompt : string) (history : list message)
           (max_steps : nat) (rounds_without_todo : nat) (w : W) : exit_v2 :=
  loop_v2 max_steps 0 prompt (with_system SYSTEM history) rounds_without_todo w.

End LoopV2.

End AgentV2.

(** ** llm_factory.py: the conversion of the tool definitions *)

Module ToolFormat.
Import PyStr PyDict Json Adapter.

(** The definition in function format built by the second and the third
    case of the loop. *)
Definition function_tool (name description parameters : pyval) : pyval :=
  PDict [("type", PStr "function");
         ("function", PDict [("name", name);
                             ("description", description);
                             ("parameters", parameters)])].

(** The body of [for t in tools]: the entry appended for [t], if any, or
    the [KeyError] raised. *)
Definition convert_tool (t : pyval) : outcome (option pyval) :=
  match t with
  | PDict kvs =>
      if dhas "type" kvs && is_str "function" (default PNone (dget "type" kvs))
      then Ret (Some t)
      else if dhas "input_schema" kvs then
        obind (py_item t "name") (fun name =>
        obind (py_item t "description") (fun description =>
        Ret (Some (function_tool name description
                     (default (PDict []) (dget "input_schema" kvs))))))
      else
        obind (py_item t "name") (fun name =>
        Ret (Some (function_tool name
                     (default (PStr EmptyString) (dget "description" kvs))
                     (default (PDict []) (dget "parameters" kvs)))))
  | _ => Ret None
  end.

(** The loop that fills [converted_tools]; the exception of an entry
    leaves [chat_with_tools] (the loop is outside its [try]). *)
Fixpoint convert_tools (tools : list pyval) (converted_tools : list pyval)
  : outcome (list pyval) :=
  match tools with
  | [] => Ret converted_tools
  | t :: rest =>
      match convert_tool t with
      | Raise e => Raise e
      | Ret None => convert_tools rest converted_tools
      | Ret (Some c) => convert_tools rest (converted_tools ++ [c])
      end
  end.

End ToolFormat.

(** ** llm_factory.py: [LLMFactory.create] *)

Module Factory.
Import PyStr PyDict.

(** A number passed as [temperature] or [top_p]: a finite value, given
    as a fraction of two integers (every finite float is one), or a
    value that is not finite (an infinity or a NaN). *)
Inductive number : Type :=
| Finite (num : Z) (den : positive)
| Infinite (positive_sign : bool)
| NaN.

(** [0 <= x <= hi] for an integer bound [hi]. *)
Definition in_range (x : number) (hi : Z) : bool :=
  match x with
  | Finite num den => ((0 <=? num) && (num <=? hi * Z.pos den))%Z
  | Infinite _ | NaN => false
  end.

Section Create.

(** The instances, and the world their constructors act on. *)
Variable LLM : Type.
Variable W : Type.

(** A model class, called with [model_name], [temperature], [top_p] and
    [max_tokens] ([kwargs] is empty). *)
Definition model_class : Type :=
  option string -> option number -> option number -> option Z -> W -> outcome LLM * W.

(** [SUPPORTED_MODELS] (the module get_model_list is not among these
    sources) and the text of [list(SUPPORTED_MODELS.keys())]. *)
Variable SUPPORTED_MODELS : list (string * model_class).
Variable supported_text : string.

(** [cls._instances]: a dictionary keyed by pairs. *)
Definition instances : Type := list ((string * string) * LLM).

Definition key_eqb (k1 k2 : string * string) : bool :=
  String.eqb (fst k1) (fst k2) && String.eqb (snd k1) (snd k2).

Fixpoint lookup (key : string * string) (d : instances) : option LLM :=
  match d with
  | [] => None
  | (k, v) :: rest => if key_eqb key k then Some v else lookup key rest
  end.

Fixpoint store (key : string * string) (v : LLM) (d : instances) : instances :=
  match d with
  | [] => [(key, v)]
  | (k, v') :: rest =>
      if key_eqb key k then (key, v) :: rest else (k, v') :: store key v rest
  end.

(** The normalised cache key. *)
Definition cache_key (model_type : string) (model_name : option string)
  : string * string :=
  (strip (lower model_type),
   strip (lower (default EmptyString model_name))).

(** [LLMFactory.create]: the instance returned or the exception, the
    cache and the world afterwards. *)
Definition create (cache : instances) (model_type : string)
           (model_name : option string) (temperature top_p : option number)
           (max_tokens : option Z) (w : W) : outcome LLM * instances * W :=
  if match temperature with Some t => negb (in_range t 2) | None => false end
  then (Raise "temperature 必须在 0 到 2 之间", cache, w)
  else if match top_p with Some p => negb (in_range p 1) | None => false end
  then (Raise "top_p 必须在 0 到 1 之间", cache, w)
  else if match max_tokens with Some m => (m <=? 0)%Z | None => false end
  then (Raise "max_tokens 必须大于 0", cache, w)
  else
    let key := cache_key model_type model_name in
    match lookup key cache with
    | Some instance => (Ret instance, cache, w)
    | None =>
        match dget model_type SUPPORTED_MODELS with
        | None =>
            (Raise ("不支持的模型类型: " +:+ model_type +:+ "，支持的类型: "
                      +:+ supported_text), cache, w)
        | Some cls =>
            match cls model_name temperature top_p max_tokens w with
            | (Raise e, w') => (Raise e, cache, w')
            | (Ret instance, w') => (Ret instance, store key instance cache, w')
            end
        end
    end.

End Create.

End Factory.

(** ** [json.dumps] *)

Module JsonEncode.
Import PyStr PyDict Json.

(** A hexadecimal digit, in lower case. *)
Definition hex_digit (n : nat) : ascii :=
  ascii_of_nat (if n <? 10 then 48 + n else 87 + n).

(** What the encoder writes for one character of a string (with
    [ensure_ascii=False]): the quote, the backslash and the control
    characters are escaped, everything else is copied. *)
Definition escape_char (c : ascii) : string :=
  let n := nat_of_ascii c in
  if n =? 34 then "\" +:+ dq
  else if n =? 92 then "\\"
  else if n =? 10 then "\n"
  else if n =? 13 then "\r"
  else if n =? 9 then "\t"
  else if n =? 12 then "\f"
  else if n =? 8 then "\b"
  else if n <? 32
       then "\u00" +:+ String (hex_digit (n / 16)) (String (hex_digit (n mod 16)) EmptyString)
       else String c EmptyString.

Fixpoint escape (s : string) : string :=
  match s with
  | EmptyString => EmptyString
  | String c r => escape_char c +:+ escape r
  end.

Definition encode_string (s : string) : string := dq +:+ escape s +:+ dq.

Section Dumps.

(** [float.__repr__] of the float read from a lexeme (for the values
    that are not finite: NaN, Infinity, -Infinity). *)
Variable float_repr : string -> string.

(** [json.dumps(v, ensure_ascii=False)] with the default separators.
    (The interpreter's limit on the number of digits of an integer is
    not modelled.) *)
Fixpoint json_dumps (v : pyval) : string :=
  match v with
  | PNone => "null"
  | PBool true => "true"
  | PBool false => "false"
  | PInt z => of_Z z
  | PFloat lexeme => float_repr lexeme
  | PStr s => encode_string s
  | PList l =>
      match l with
      | [] => "[]"
      | _ => "[" +:+ join ", " (map json_dumps l) +:+ "]"
      end
  | PDict kvs =>
      match kvs with
      | [] => "{}"
      | _ =>
          "{" +:+ join ", " (map (fun kv => encode_string (fst kv) +:+ ": "
                                              +:+ json_dumps (snd kv)) kvs)
              +:+ "}"
      end
  end.

End Dumps.

End JsonEncode.

(** ** util/llm_utils.py: [process_llm_response] *)

Module LlmUtils.
Import PyStr PyDict Json Adapter Agent Dispatch JsonEncode.

(** [k in v] for a string literal [k], with the text of the exception
    (as CPython 3.11 and 3.12 word it). *)
Definition contains_key (k : string) (v : pyval) : outcome bool :=
  match v with
  | PDict kvs => Ret (dhas k kvs)
  | PStr s => Ret (contains k s)
  | PList l => Ret (existsb (is_str k) l)
  | _ => Raise ("argument of type '" +:+ type_name v +:+ "' is not iterable")
  end.

(** [v[0]] *)
Definition first_item (v : pyval) : outcome pyval :=
  match v with
  | PList (x :: _) => Ret x
  | PList [] => Raise "list index out of range"
  | PStr s =>
      match chars s with
      | ch :: _ => Ret (PStr ch)
      | [] => Raise "string index out of range"
      end
  | PDict _ => Raise "0"
  | _ => Raise (sq +:+ type_name v +:+ sq +:+ " object is not subscriptable")
  end.

Section Process.

Variable py_str : pyval -> string.
Variable float_repr : string -> string.

(** [process_llm_response]: the value returned (a string, or the
    [content] member as it is) or the exception raised. *)
Definition process_llm_response (response : pyval) : outcome pyval :=
  obind (contains_key "error" response) (fun has_error =>
  if has_error then
    obind (subscript response "error") (fun err =>
    Raise ("API调用错误: " +:+ py_str err))
  else
    obind (contains_key "choices" response) (fun has_choices =>
    if negb has_choices then Raise "API响应格式错误"
    else
      obind (subscript response "choices") (fun choices =>
      obind (first_item choices) (fun choice =>
      obind (subscript choice "message") (fun message =>
      match message with
      | PDict m =>
          let content := default PNone (dget "content" m) in
          if dhas "tool_calls" m && truthy (default PNone (dget "tool_calls" m))
          then
            Ret (PStr (json_dumps float_repr
                         (PDict [("content",
                                  if truthy content then content else PStr EmptyString);
                                 ("tool_calls", default PNone (dget "tool_calls" m))])))
          else if negb (truthy content) && dhas "tool_calls" m
          then Ret (PStr (json_dumps float_repr (default PNone (dget "tool_calls" m))))
          else if negb (truthy content) && dhas "function_call" m
          then Ret (PStr (json_dumps float_repr (default PNone (dget "function_call" m))))
          else
            Ret (match content with PNone => PStr EmptyString | _ => content end)
      | v => Raise (sq +:+ type_name v +:+ sq +:+ " object has no attribute 'get'")
      end))))).

End Process.

End LlmUtils.

(** * Vocabulary of the statements *)

(** ** The interpreter of the examples

    The default limit on the digits of an integer, and room for 900
    nested arrays and objects. *)

Definition example_interpreter : Interpreter :=
  {| int_max_str_digits := 4300; json_nesting := 900 |}.

(** ** The todo manager *)

Module TodoSpec.
Import PyStr Todo.

(** [c in s] for a character [c]. *)
Fixpoint has_char (c : ascii) (s : string) : bool :=
  match s with
  | EmptyString => false
  | String d r => Ascii.eqb d c || has_char c r
  end.

(** A text without a line feed. *)
Definition single_line (s : string) : bool := negb (has_char "010" s).

(** The lines of a text, [s.split(nl)]. *)
Definition lines (s : string) : list string := Tools.split_on "010" EmptyString s.

(** The summary line of a rendering. *)
Definition summary_line (l : list item) : string :=
  "(" +:+ of_nat (completed_count l) +:+ "/" +:+ of_nat (length l) +:+ " completed)".

(** The fields of an entry as [update] reads them. *)
Definition norm_content (it : raw_item) : string :=
  strip (default EmptyString (raw_content it)).
Definition norm_status (it : raw_item) : string :=
  lower (default "pending" (raw_status it)).
Definition norm_activeForm (it : raw_item) : string :=
  strip (default EmptyString (raw_activeForm it)).

Definition normalized (it : raw_item) : item :=
  Item (norm_content it) (norm_status it) (norm_activeForm it).

(** An entry that [update] refuses. *)
Definition rejected (it : raw_item) : bool :=
  String.eqb (norm_content it) EmptyString
  || negb (status_ok (norm_status it))
  || String.eqb (norm_activeForm it) EmptyString.

Definition in_progress_total (l : list raw_item) : nat :=
  length (filter (fun it => String.eqb (norm_status it) "in_progress" = true) l).

(** The failure condition in the words of the specification, on the
    fields as given: an empty (or missing) [content] or [activeForm], a
    status outside the three names, more than one [in_progress], more
    than 20 entries. *)
Definition spec_item_invalid (it : raw_item) : bool :=
  String.eqb (default EmptyString (raw_content it)) EmptyString
  || String.eqb (default EmptyString (raw_activeForm it)) EmptyString
  || negb (bool_decide (raw_status it ∈
             [Some "pending"; Some "in_progress"; Some "completed"])).

Definition spec_replace_fails (l : list raw_item) : bool :=
  existsb spec_item_invalid l
  || (1 <? length (filter (fun it => raw_status it = Some "in_progress") l))
  || (20 <? length l).

End TodoSpec.

(** ** The request built by the adapter *)

Module RequestSpec.
Import PyStr Adapter.

(** The message the adapter puts first when its own [system_info] is
    set. *)
Definition system_part (self : LLMChatAdapter) : list lc_message :=
  if negb (String.eqb (system_info self) EmptyString)
  then [SystemMessage (system_info self)] else [].

(** A user message holding a number, for examples. *)
Definition numbered (n : nat) : message := Message "user" (of_nat n).

End RequestSpec.

(** ** The normalisation of a reply *)

Module NormalizeSpec.
Import PyStr PyDict Json Adapter.

(** The [arguments] of a call as the block holds them: decoded when
    they are a string that decodes, else unchanged. *)
Definition parsed_arguments `{Interpreter} (args : pyval) : pyval :=
  match args with
  | PStr a => default args (json_loads a)
  | _ => args
  end.

(** An entry of [tool_calls] that the conversion handles without an
    exception: an object which either has no [function] member, or whose
    [function] member is an object with [name] and [arguments]. *)
Definition call_entry_ok (tc : pyval) : bool :=
  match tc with
  | PDict kvs =>
      match dget "function" kvs with
      | None => true
      | Some (PDict fd) => dhas "name" fd && dhas "arguments" fd
      | Some _ => false
      end
  | _ => false
  end.

Definition has_function (tc : pyval) : bool :=
  match tc with PDict kvs => dhas "function" kvs | _ => false end.

(** The block of an entry with a [function] member. *)
Definition tool_use_of `{Interpreter} (tc : pyval) : option block :=
  match tc with
  | PDict kvs =>
      match dget "function" kvs with
      | Some (PDict fd) =>
          match dget "name" fd, dget "arguments" fd with
          | Some name, Some args =>
              Some (ToolUseBlock (default (PStr "call_1") (dget "id" kvs)) name
                                 (parsed_arguments args))
          | _, _ => None
          end
      | _ => None
      end
  | _ => None
  end.

(** The leading text block: the [content] member when it is truthy. *)
Definition leading_text (kvs : list (string * pyval)) : list block :=
  match dget "content" kvs with
  | Some c => if truthy c then [TextBlock c] else []
  | None => []
  end.

Definition is_text (b : block) : bool :=
  match b with TextBlock _ => true | ToolUseBlock _ _ _ => false end.

(** [c * n]: a character repeated [n] times. *)
Fixpoint repeated (c : ascii) (n : nat) : string :=
  match n with
  | 0 => EmptyString
  | S k => String c (repeated c k)
  end.

(** A reply whose content is a number too small for a double: Python
    reads it as 0.0. *)
Definition underflow_reply : string :=
  "{" +:+ dq +:+ "content" +:+ dq +:+ ":1e-400," +:+ dq +:+ "tool_calls" +:+ dq
    +:+ ":[]}".

(** Every text block is before every tool_use block. *)
Definition texts_precede_tools (blocks : list block) : Prop :=
  forall i j bi bj,
    blocks !! i = Some bi -> blocks !! j = Some bj ->
    is_text bi = true -> is_text bj = false -> i < j.

(** The reply of the example: an object whose [tool_calls] list has one
    call of [bash], with the arguments as a serialized string. *)
Definition example_reply : string :=
  "{" +:+ dq +:+ "tool_calls" +:+ dq +:+ ":[{" +:+ dq +:+ "id" +:+ dq +:+ ":"
    +:+ dq +:+ "1" +:+ dq +:+ "," +:+ dq +:+ "function" +:+ dq +:+ ":{"
    +:+ dq +:+ "name" +:+ dq +:+ ":" +:+ dq +:+ "bash" +:+ dq +:+ ","
    +:+ dq +:+ "arguments" +:+ dq +:+ ":" +:+ dq
    +:+ "{\" +:+ dq +:+ "command\" +:+ dq +:+ ":\" +:+ dq +:+ "ls\" +:+ dq +:+ "}"
    +:+ dq +:+ "}}]}".

(** A reply whose only call has no [function] member. *)
Definition reply_without_function : string :=
  "{" +:+ dq +:+ "tool_calls" +:+ dq +:+ ":[{" +:+ dq +:+ "id" +:+ dq +:+ ":"
    +:+ dq +:+ "1" +:+ dq +:+ "," +:+ dq +:+ "type" +:+ dq +:+ ":"
    +:+ dq +:+ "function" +:+ dq +:+ "}]}".

(** A reply whose only call has a [function] member without
    [arguments]. *)
Definition reply_without_arguments : string :=
  "{" +:+ dq +:+ "tool_calls" +:+ dq +:+ ":[{" +:+ dq +:+ "function" +:+ dq +:+ ":{"
    +:+ dq +:+ "name" +:+ dq +:+ ":" +:+ dq +:+ "bash" +:+ dq +:+ "}}]}".

(** A reply with a text, a complete call and then a call without
    [arguments]. *)
Definition reply_half_converted : string :=
  "{" +:+ dq +:+ "content" +:+ dq +:+ ":" +:+ dq +:+ "listing" +:+ dq +:+ ","
    +:+ dq +:+ "tool_calls" +:+ dq +:+ ":[{" +:+ dq +:+ "function" +:+ dq +:+ ":{"
    +:+ dq +:+ "name" +:+ dq +:+ ":" +:+ dq +:+ "bash" +:+ dq +:+ ","
    +:+ dq +:+ "arguments" +:+ dq +:+ ":{}}},{" +:+ dq +:+ "function" +:+ dq +:+ ":{"
    +:+ dq +:+ "name" +:+ dq +:+ ":" +:+ dq +:+ "bash" +:+ dq +:+ "}}]}".

End NormalizeSpec.

(** ** The file tools *)

Module FileSpec.
Import PyStr Tools.

(** A workspace at /home/user/project holding one file, and a secret
    outside it. *)
Definition example_root : path := ["home"; "user"; "project"].

Definition example_world : world MemFS.t :=
  World MemFS.t
    (<["/home/user/project/notes.txt" := "remember"]>
       (<["/etc/passwd" := "root:x:0:0"]> ∅))
    [].

End FileSpec.

(** ** The skill repository *)

Module SkillSpec.
Import PyStr Skills.

(** The manifest of the example: the header with [name] and
    [description], then the body. *)
Definition pdf_manifest : string :=
  "---" +:+ nl +:+ "name: pdf" +:+ nl +:+ "description: handle pdfs" +:+ nl
    +:+ "---" +:+ nl +:+ nl +:+ "Use pdftotext." +:+ nl.

Definition pdf_entry : dir_entry :=
  {| e_name := "pdf"; e_is_dir := true; e_skill_md := Some pdf_manifest |}.

End SkillSpec.

(** ** The agent loops and the subagent *)

Module AgentSpec.
Import PyStr PyDict Json Adapter Tools Agent.

(** A scripted backend for examples: the world is the list of replies
    still to come; a call takes the first one and raises when none is
    left. *)
Definition scripted_llm (_ : list lc_message) (_ : list string) (w : list string)
  : outcome string * list string :=
  match w with
  | reply :: rest => (Ret reply, rest)
  | [] => (Raise "no reply left", [])
  end.

(** A backend that gives the same reply for ever; the world counts the
    calls. *)
Definition constant_llm (reply : string) (_ : list lc_message) (_ : list string)
           (w : nat) : outcome string * nat :=
  (Ret reply, S w).

(** A dispatcher that answers every call with the same output. *)
Definition constant_tool {W : Type} (output : string) (_ _ : pyval) (w : W)
  : outcome string * W :=
  (Ret output, w).

(** A stand-in for [str] in examples: a string is itself. *)
Definition show_value (v : pyval) : string :=
  match v with PStr s => s | _ => "<" +:+ type_name v +:+ ">" end.

(** A reply that asks for [bash] with the command [echo hi]. *)
Definition bash_call_reply : string :=
  "{" +:+ dq +:+ "tool_calls" +:+ dq +:+ ":[{" +:+ dq +:+ "id" +:+ dq +:+ ":"
    +:+ dq +:+ "1" +:+ dq +:+ "," +:+ dq +:+ "function" +:+ dq +:+ ":{"
    +:+ dq +:+ "name" +:+ dq +:+ ":" +:+ dq +:+ "bash" +:+ dq +:+ ","
    +:+ dq +:+ "arguments" +:+ dq +:+ ":{" +:+ dq +:+ "command" +:+ dq +:+ ":"
    +:+ dq +:+ "echo hi" +:+ dq +:+ "}}}]}".

(** A reply whose content is a number, not a text, and that asks for no
    tool. *)
Definition number_reply : string :=
  "{" +:+ dq +:+ "content" +:+ dq +:+ ":5," +:+ dq +:+ "tool_calls" +:+ dq +:+ ":[]}".

Definition example_history : list message :=
  [Message "system" "You are a coding agent."; Message "user" "say hi"].

(** One call of the backend: the request, the tools offered and the
    reply (or the exception raised). *)
Record exchange : Type := Exchange {
  ex_request : list lc_message;
  ex_tools : list string;
  ex_reply : outcome string
}.

(** A message a subagent appends to its own list: an assistant text or
    the results of its tools. *)
Definition own_message (m : message) : Prop :=
  (exists text, m = Message "assistant" text)
  \/ (exists results, m = sub_results_message results).

Section Conditions.

Context {interp : Interpreter}.

Variable W : Type.
Variable llm_invoke : list lc_message -> list string -> W -> outcome string * W.
Variable execute_tool : pyval -> pyval -> W -> outcome string * W.
Variable client : LLMChatAdapter.

(** The model asks for tools at every call, with text blocks that are
    strings and, where the loops read the input before the call ([Task]
    and [Skill] in v4, [bash] in v0), an object as input. *)
Definition keeps_calling : Prop :=
  forall prompt messages tools w,
    let blocks :=
      resp_content (fst (chat_with_tools W llm_invoke client prompt messages tools w)) in
    tool_calls blocks <> []
    /\ is_raise (join_values nl (assistant_text blocks)) = false
    /\ Forall (fun tc => is_raise (log_call_v4 tc) = false) (tool_calls blocks)
    /\ Forall (fun tc => is_raise (py_get (tc_input tc) "command" PNone) = false)
              (tool_calls blocks).

Definition tools_never_raise : Prop :=
  forall name input w, is_raise (fst (execute_tool name input w)) = false.

(** Dispatching the calls of a turn, in the words of the specification:
    each call in order, on the machine the call before it left; the
    outputs are collected with their calls, and the first exception
    ends the turn. *)
Fixpoint dispatch_all (call : tool_call -> W -> outcome string * W)
         (calls : list tool_call) (w : W) : outcome (list (tool_call * string)) * W :=
  match calls with
  | [] => (Ret [], w)
  | tc :: rest =>
      match call tc w with
      | (Raise e, w') => (Raise e, w')
      | (Ret output, w') =>
          match dispatch_all call rest w' with
          | (Ret outputs, w'') => (Ret ((tc, output) :: outputs), w'')
          | (Raise e, w'') => (Raise e, w'')
          end
      end
  end.

(** A call handed to the dispatcher as it is (v1), and after the log
    line of v4, which reads the input of a [Task] or [Skill] call as an
    object. *)
Definition call_v1 (tc : tool_call) (w : W) : outcome string * W :=
  execute_tool (tc_name tc) (tc_input tc) w.

Definition call_v4 (tc : tool_call) (w : W) : outcome string * W :=
  match log_call_v4 tc with
  | Raise e => (Raise e, w)
  | Ret _ => execute_tool (tc_name tc) (tc_input tc) w
  end.

(** The line of the results message for a call and its output. *)
Definition result_line (py_str : pyval -> string) (r : tool_call * string) : string :=
  "工具 " +:+ py_str (tc_name (fst r)) +:+ ", 输入: " +:+ py_str (tc_input (fst r))
    +:+ ", 返回: " +:+ snd r.


Definition bash_never_raises (run_bash : pyval -> W -> outcome string * W) : Prop :=
  forall cmd w, is_raise (fst (run_bash cmd w)) = false.

(** The backend with a record of its calls: the machine is paired with
    the list of the exchanges so far, and every call adds its own at the
    end.  The dispatcher acts on the machine and leaves the record
    alone. *)
Definition recording (request : list lc_message) (tools : list string)
           (st : W * list exchange) : outcome string * (W * list exchange) :=
  (fst (llm_invoke request tools (fst st)),
   (snd (llm_invoke request tools (fst st)),
    snd st ++ [Exchange request tools (fst (llm_invoke request tools (fst st)))])).

Definition unrecorded (name input : pyval) (st : W * list exchange)
  : outcome string * (W * list exchange) :=
  (fst (execute_tool name input (fst st)),
   (snd (execute_tool name input (fst st)), snd st)).

(** The response [chat_with_tools] makes of what the backend gave. *)
Definition response_of (reply : outcome string) : Response :=
  match reply with
  | Ret content => normalize true content
  | Raise e => normalize false ("LLM调用出错: " +:+ e)
  end.

(** What a run of the subagent loop, started with the list
    [sub_messages] and the local [last], adds to the record: requests
    that offer the tools of the subagent and are built from that list
    followed by messages of the subagent's own; and the result goes
    back to the last exchange recorded. *)
Definition loop_record (py_str : pyval -> string) (sub_tools : list string)
           (agent_type : string) (sub_messages : list message)
           (last : option (Response * string))
           (result : outcome (list message * option (Response * string)))
           (new : list exchange) : Prop :=
  Forall (fun ex =>
            ex_tools ex = sub_tools
            /\ exists extra,
                 ex_request ex
                 = _build_langchain_messages client (sub_messages ++ extra) EmptyString
                 /\ Forall own_message extra) new
  /\ match result with
     | Ret (_, last') =>
         (new = [] /\ last' = last)
         \/ exists final full_text,
              list.last new = Some final
              /\ last' = Some (response_of (ex_reply final), full_text)
              /\ join_values nl (assistant_text
                                   (resp_content (response_of (ex_reply final))))
                 = Ret full_text
     | Raise e =>
         exists final,
           list.last new = Some final
           /\ (join_values nl (assistant_text
                                 (resp_content (response_of (ex_reply final))))
               = Raise e
               \/ exists w0,
                    fst (run_tools_sub W execute_tool py_str agent_type
                           (tool_calls (resp_content (response_of (ex_reply final))))
                           [] w0)
                    = Raise e)
     end.

(** The final text of a response: its text blocks joined by line feeds,
    or the fixed text when it has no text block. *)
Definition final_text (response : Response) : outcome string :=
  obind (join_values nl (assistant_text (resp_content response))) (fun full_text =>
  Ret (if has_text (resp_content response) then full_text
       else "(subagent returned no text)")).

End Conditions.

End AgentSpec.

(** ** What the loops append *)

Module LoopSpec.
Import PyStr Adapter Agent.

(** A message with one of the two roles the loops write. *)
Definition loop_message (m : message) : Prop :=
  role m = "assistant" \/ role m = "user".

(** [h] is [history] followed by at most [n] such messages. *)
Definition adds_at_most (n : nat) (history h : list message) : Prop :=
  exists added, h = history ++ added /\ Forall loop_message added /\ length added <= n.

(** The number of system messages of a history. *)
Definition system_count (history : list message) : nat :=
  length (filter (fun m => String.eqb (role m) "system" = true) history).

(** A reply that asks for [read_file] on [notes.txt]. *)
Definition read_call_reply : string :=
  "{" +:+ dq +:+ "tool_calls" +:+ dq +:+ ":[{" +:+ dq +:+ "id" +:+ dq +:+ ":"
    +:+ dq +:+ "1" +:+ dq +:+ "," +:+ dq +:+ "function" +:+ dq +:+ ":{"
    +:+ dq +:+ "name" +:+ dq +:+ ":" +:+ dq +:+ "read_file" +:+ dq +:+ ","
    +:+ dq +:+ "arguments" +:+ dq +:+ ":{" +:+ dq +:+ "path" +:+ dq +:+ ":"
    +:+ dq +:+ "notes.txt" +:+ dq +:+ "}}}]}".

(** A reply that asks for [TodoWrite] with an entry that has no active
    form. *)
Definition todo_call_reply : string :=
  "{" +:+ dq +:+ "tool_calls" +:+ dq +:+ ":[{" +:+ dq +:+ "id" +:+ dq +:+ ":"
    +:+ dq +:+ "1" +:+ dq +:+ "," +:+ dq +:+ "function" +:+ dq +:+ ":{"
    +:+ dq +:+ "name" +:+ dq +:+ ":" +:+ dq +:+ "TodoWrite" +:+ dq +:+ ","
    +:+ dq +:+ "arguments" +:+ dq +:+ ":{" +:+ dq +:+ "items" +:+ dq +:+ ":[{"
    +:+ dq +:+ "content" +:+ dq +:+ ":" +:+ dq +:+ "write tests" +:+ dq
    +:+ "}]}}}]}".

(** A backend whose every call raises [e]. *)
Definition failing_llm {W : Type} (e : string) (_ : list lc_message) (_ : list string)
           (w : W) : outcome string * W :=
  (Raise e, w).

End LoopSpec.

(** ** The states of the todo manager *)

Module TodoState.
Import PyStr Todo.

Definition in_progress_count (l : list item) : nat :=
  length (filter (fun t => String.eqb (status t) "in_progress" = true) l).

(** The constraints on the stored list. *)
Definition well_formed (self : TodoManager) : Prop :=
  length (items self) <= 20
  /\ in_progress_count (items self) <= 1
  /\ Forall (fun it => content it <> EmptyString
                       /\ activeForm it <> EmptyString
                       /\ status_ok (status it) = true) (items self).

(** A stored entry written back as an element of [items]. *)
Definition raw_of_item (it : item) : raw_item :=
  RawItem (Some (content it)) (Some (status it)) (Some (activeForm it)).

(** The manager after a sequence of [update] calls; a call that raises
    is followed by the next one, as in a session. *)
Definition run_updates (self : TodoManager) (calls : list (list raw_item))
  : TodoManager :=
  foldl (fun s l => snd (update s l)) self calls.

End TodoState.

(** ** Code points *)

Module CodePointSpec.
Import PyStr.

(** The bytes of [t] all continue a code point. *)
Fixpoint continuation (t : string) : bool :=
  match t with
  | EmptyString => true
  | String c r => negb (is_lead c) && continuation r
  end.

Definition chunk_ok (ch : string) : bool :=
  match ch with
  | EmptyString => false
  | String _ t => continuation t
  end.

Definition later_ok (ch : string) : bool :=
  match ch with
  | EmptyString => false
  | String c t => is_lead c && continuation t
  end.

(** The shape of the list [chars] returns. *)
Definition chunks_ok (l : list string) : Prop :=
  match l with
  | [] => True
  | ch :: rest => chunk_ok ch = true /\ Forall (fun c => later_ok c = true) rest
  end.

Definition starts_lead (u : string) : bool :=
  match u with
  | EmptyString => true
  | String d _ => is_lead d
  end.

End CodePointSpec.

(** ** The dispatchers *)

Module DispatchSpec.
Import PyStr PyDict Json Adapter.

(** The arguments a base tool asks for, in the order it checks them. *)
Definition required_keys (name : string) : list string :=
  if String.eqb name "bash" then ["command"]
  else if String.eqb name "read_file" then ["path"]
  else if String.eqb name "write_file" then ["path"; "content"]
  else if String.eqb name "edit_file" then ["path"; "old_text"; "new_text"]
  else [].

Definition is_base_tool (name : string) : bool :=
  String.eqb name "bash" || String.eqb name "read_file"
  || String.eqb name "write_file" || String.eqb name "edit_file".

(** A value that is neither a string nor a container. *)
Definition scalar (v : pyval) : bool :=
  match v with
  | PNone | PBool _ | PInt _ | PFloat _ => true
  | PStr _ | PList _ | PDict _ => false
  end.

(** The element of [items] that an object with string members stands
    for; [None] when a member is not a string. *)
Definition str_member (k : string) (kvs : list (string * pyval)) : option (option string) :=
  match dget k kvs with
  | None => Some None
  | Some (PStr s) => Some (Some s)
  | Some _ => None
  end.

Definition raw_of (v : pyval) : option Todo.raw_item :=
  match v with
  | PDict kvs =>
      match str_member "content" kvs, str_member "status" kvs,
            str_member "activeForm" kvs with
      | Some c, Some s, Some a => Some (Todo.RawItem c s a)
      | _, _, _ => None
      end
  | _ => None
  end.

(** The elements of a list of such objects. *)
Fixpoint raws_of (l : list pyval) : option (list Todo.raw_item) :=
  match l with
  | [] => Some []
  | v :: rest =>
      match raw_of v, raws_of rest with
      | Some r, Some rs => Some (r :: rs)
      | _, _ => None
      end
  end.

End DispatchSpec.

(** ** The factory *)

Module FactorySpec.
Import PyStr PyDict Factory.

(** The parameters [create] accepts. *)
Definition valid_params (temperature top_p : option number) (max_tokens : option Z)
  : bool :=
  match temperature with Some t => in_range t 2 | None => true end
  && match top_p with Some p => in_range p 1 | None => true end
  && match max_tokens with Some m => (0 <? m)%Z | None => true end.

(** A registry with one model class, whose instances are strings; the
    world counts the instances made. *)
Definition example_models : list (string * model_class string nat) :=
  [("openai",
    fun model_name _ _ _ w => (Ret ("openai/" +:+ default EmptyString model_name), S w))].

End FactorySpec.

(** ** Tool definitions *)

Module ToolFormatSpec.
Import PyStr PyDict Json Adapter.

(** An entry in function format. *)
Definition is_function_tool (t : pyval) : bool :=
  match t with
  | PDict kvs => is_str "function" (default PNone (dget "type" kvs))
  | _ => false
  end.

Definition is_dict (t : pyval) : bool :=
  match t with PDict _ => true | _ => false end.

(** The definition of [read_file] as utils.py gives it, without the
    properties of its schema. *)
Definition read_file_tool : pyval :=
  PDict [("name", PStr "read_file");
         ("description", PStr "Read file contents.");
         ("input_schema", PDict [("type", PStr "object")])].

End ToolFormatSpec.

(** ** JSON documents *)

Module JsonSpec.
Import PyStr PyDict Json.

(** A value without floats, whose objects have pairwise distinct
    keys. *)
Fixpoint plain (v : pyval) : bool :=
  match v with
  | PFloat _ => false
  | PList l => forallb plain l
  | PDict kvs =>
      forallb (fun kv => plain (snd kv)) kvs && bool_decide (NoDup (map fst kvs))
  | _ => true
  end.

(** The digits [json.dumps] writes for an integer, without the sign. *)
Definition int_digits (z : Z) : nat := String.length (of_Z (Z.abs z)).

(** A value the decoder can read back when [depth] arrays and objects
    can still be entered: its integers are within the limit on digits
    and its arrays and objects are nested at most [depth] deep. *)
Fixpoint readable {interp : Interpreter} (depth : nat) (v : pyval) {struct v} : bool :=
  match v with
  | PInt z => negb (exceeds_int_limit (int_digits z))
  | PList l =>
      match depth with
      | 0 => false
      | S d => forallb (readable d) l
      end
  | PDict kvs =>
      match depth with
      | 0 => false
      | S d => forallb (fun kv => readable d (snd kv)) kvs
      end
  | _ => true
  end.

(** A value within the limits of the interpreter. *)
Definition within_limits {interp : Interpreter} (v : pyval) : bool :=
  readable json_nesting v.

(** The number of values in a value. *)
Fixpoint size (v : pyval) : nat :=
  match v with
  | PList l => S (list_sum (map (fun x => S (size x)) l))
  | PDict kvs => S (list_sum (map (fun kv => S (size (snd kv))) kvs))
  | _ => 1
  end.

(** What may follow a value inside a document. *)
Definition terminator (rest : string) : bool :=
  match rest with
  | EmptyString => true
  | String c _ => Ascii.eqb c "," || Ascii.eqb c "]" || Ascii.eqb c "}"
  end.

(** The first character of an encoded value. *)
Definition value_start (c : ascii) : bool :=
  is_digit c || Ascii.eqb c "-" || Ascii.eqb c "034" || Ascii.eqb c "[" || Ascii.eqb c "{"
  || Ascii.eqb c "n" || Ascii.eqb c "t" || Ascii.eqb c "f".

(** The unit the scanner reads back for an escaped character. *)
Definition unit_of (c : ascii) : sunit :=
  let n := nat_of_ascii c in
  if (n <? 32) && negb ((8 <=? n) && (n <=? 10) || (n =? 12) || (n =? 13))
  then UEsc (N.of_nat n) else UByte c.

End JsonSpec.

(** ** Provider replies *)

Module ReplySpec.
Import PyStr PyDict Json Adapter.

(** The [message] of the first choice of a reply without an [error]
    member. *)
Definition message_of (response : pyval) : option pyval :=
  match response with
  | PDict r =>
      if dhas "error" r then None
      else match dget "choices" r with
           | Some (PList (PDict choice :: _)) => dget "message" choice
           | _ => None
           end
  | _ => None
  end.

(** A reply with one choice whose message is [message]. *)
Definition reply_with (message : pyval) : pyval :=
  PDict [("id", PStr "r1"); ("choices", PList [PDict [("index", PInt 0);
                                                       ("message", message)]])].

(** A call of [bash] in the format of the providers: the arguments are
    a serialized object. *)
Definition bash_call : pyval :=
  PDict [("id", PStr "call_7"); ("type", PStr "function");
         ("function",
          PDict [("name", PStr "bash");
                 ("arguments",
                  PStr ("{" +:+ dq +:+ "command" +:+ dq +:+ ": " +:+ dq +:+ "ls"
                            +:+ dq +:+ "}"))])].

End ReplySpec.

(** * Properties *)

(** ** Facts about strings *)

Lemma append_cons (c : ascii) (s t : string) : String c s +:+ t = String c (s +:+ t).
Proof. reflexivity. Qed.

Lemma append_nil_r (s : string) : s +:+ EmptyString = s.
Proof. induction s as [|c s IH]; [done|]. by rewrite append_cons, IH. Qed.

Lemma append_assoc (s1 s2 s3 : string) : (s1 +:+ s2) +:+ s3 = s1 +:+ (s2 +:+ s3).
Proof. induction s1 as [|c s1 IH]; [done|]. by rewrite !append_cons, IH. Qed.

(** ** The todo manager *)

Section TodoProofs.
Import PyStr Todo TodoSpec.

Lemma validate_accepts (l : list raw_item) :
  forall i acc c,
    existsb rejected l = false ->
    validate i l acc c = Ret (acc ++ map normalized l, c + in_progress_total l).
Proof.
  induction l as [|it l IH]; intros i acc c Hok; simpl.
  - by rewrite app_nil_r, Nat.add_0_r.
  - simpl in Hok. apply orb_false_iff in Hok as [Hit Hl].
    unfold rejected in Hit.
    apply orb_false_iff in Hit as [Hit Ha].
    apply orb_false_iff in Hit as [Hc Hs].
    fold (norm_content it) (norm_status it) (norm_activeForm it).
    rewrite Hc, Hs, Ha. rewrite IH by done.
    rewrite <- app_assoc. simpl. f_equal. f_equal.
    unfold in_progress_total. rewrite filter_cons.
    destruct (String.eqb (norm_status it) "in_progress") eqn:E.
    + rewrite decide_True by done. simpl. lia.
    + rewrite decide_False by (by intros ?). lia.
Qed.

Lemma validate_rejects (l : list raw_item) :
  forall i acc c,
    existsb rejected l = true ->
    exists m, validate i l acc c = Raise m.
Proof.
  induction l as [|it l IH]; intros i acc c Hbad; simpl in *; [done|].
  fold (norm_content it) (norm_status it) (norm_activeForm it).
  destruct (String.eqb (norm_content it) EmptyString) eqn:Hc; [eauto|].
  destruct (status_ok (norm_status it)) eqn:Hs; simpl; [|eauto].
  destruct (String.eqb (norm_activeForm it) EmptyString) eqn:Ha; [eauto|].
  apply IH. unfold rejected in Hbad. by rewrite Hc, Hs, Ha in Hbad.
Qed.

(** [update] in closed form. *)
Lemma update_accepts (self : TodoManager) (l : list raw_item) :
  existsb rejected l = false ->
  length l <= 20 ->
  in_progress_total l <= 1 ->
  update self l =
    (Ret (render {| items := map normalized l |}), {| items := map normalized l |}).
Proof.
  intros Hok Hlen Hip. unfold update.
  rewrite validate_accepts by done. simpl.
  rewrite length_map.
  destruct (20 <? length l) eqn:E1; [apply Nat.ltb_lt in E1; lia|].
  destruct (1 <? in_progress_total l) eqn:E2; [apply Nat.ltb_lt in E2; lia|].
  done.
Qed.

Lemma update_fails_iff (self : TodoManager) (l : list raw_item) :
  is_raise (fst (update self l)) = true <->
  existsb rejected l = true \/ 20 < length l \/ 1 < in_progress_total l.
Proof.
  unfold update.
  destruct (existsb rejected l) eqn:Hbad.
  - destruct (validate_rejects l 0 [] 0 Hbad) as [m ->]. simpl. tauto.
  - rewrite validate_accepts by done. simpl. rewrite length_map.
    destruct (20 <? length l) eqn:E1; simpl.
    + apply Nat.ltb_lt in E1. tauto.
    + apply Nat.ltb_ge in E1.
      destruct (1 <? in_progress_total l) eqn:E2; simpl.
      * apply Nat.ltb_lt in E2. tauto.
      * apply Nat.ltb_ge in E2. split; [done|]. intros [?|[?|?]]; [done|lia|lia].
Qed.

Lemma update_failure_keeps_state (self : TodoManager) (l : list raw_item) :
  is_raise (fst (update self l)) = true -> snd (update self l) = self.
Proof.
  unfold update.
  destruct (validate 0 l [] 0) as [[v c]|m]; [|done].
  destruct (20 <? length v); [done|].
  destruct (1 <? c); [done|]. simpl. done.
Qed.

End TodoProofs.

Section TodoClaims.
Import PyStr Todo TodoSpec.

Lemma rejected_iff (it : raw_item) :
  rejected it = true <->
  norm_content it = EmptyString \/ norm_activeForm it = EmptyString
  \/ norm_status it ∉ ["pending"; "in_progress"; "completed"].
Proof.
  unfold rejected, status_ok.
  destruct (String.eqb_spec (norm_content it) EmptyString) as [Hc|Hc];
    [simpl; tauto|].
  destruct (String.eqb_spec (norm_activeForm it) EmptyString) as [Ha|Ha];
    [rewrite orb_true_r; tauto|].
  destruct (String.eqb_spec (norm_status it) "pending") as [->|H1];
    [simpl; split; [done|]; intros [?|[?|Hn]]; [done|done|];
     exfalso; apply Hn; repeat constructor|].
  destruct (String.eqb_spec (norm_status it) "in_progress") as [->|H2];
    [simpl; split; [done|]; intros [?|[?|Hn]]; [done|done|];
     exfalso; apply Hn; repeat constructor|].
  destruct (String.eqb_spec (norm_status it) "completed") as [->|H3];
    [simpl; split; [done|]; intros [?|[?|Hn]]; [done|done|];
     exfalso; apply Hn; repeat constructor|].
  simpl. split; [|done]. intros _. right. right.
  repeat (apply not_elem_of_cons; split; [done|]). apply not_elem_of_nil.
Qed.

Lemma exists_rejected_iff (l : list raw_item) :
  existsb rejected l = true <->
  exists it, it ∈ l /\
    (norm_content it = EmptyString \/ norm_activeForm it = EmptyString
     \/ norm_status it ∉ ["pending"; "in_progress"; "completed"]).
Proof.
  rewrite existsb_exists. split.
  - intros (it & Hin & Hr). exists it. split; [by apply list_elem_of_In|by apply rejected_iff].
  - intros (it & Hin & Hr). exists it. split; [by apply list_elem_of_In|by apply rejected_iff].
Qed.

(** C3 (as amended).  [update] raises exactly when, on the fields as it
    reads them (content and activeForm stripped of surrounding blanks,
    status lower-cased, a missing status read as pending), some entry has
    an empty content, an empty activeForm or a status outside pending,
    in_progress, completed, or more than one entry is in_progress, or
    there are more than 20 entries; and when it raises the stored list is
    the one from before the call (otherwise it is the list of the
    entries as read). *)
Theorem C3_update_fails_iff (self : TodoManager) (l : list raw_item) :
  (is_raise (fst (update self l)) = true <->
     (exists it, it ∈ l /\
        (norm_content it = EmptyString \/ norm_activeForm it = EmptyString
         \/ norm_status it ∉ ["pending"; "in_progress"; "completed"]))
     \/ 1 < in_progress_total l
     \/ 20 < length l)
  /\ snd (update self l) =
       (if is_raise (fst (update self l)) then self
        else {| items := map normalized l |}).
Proof.
  split.
  - rewrite update_fails_iff, exists_rejected_iff. tauto.
  - destruct (is_raise (fst (update self l))) eqn:E.
    + by apply update_failure_keeps_state.
    + destruct (existsb rejected l) eqn:Hbad.
      { assert (is_raise (fst (update self l)) = true) by (apply update_fails_iff; tauto).
        congruence. }
      destruct (Nat.le_gt_cases (length l) 20) as [Hl|Hl];
        [|assert (is_raise (fst (update self l)) = true) by (apply update_fails_iff; tauto);
          congruence].
      destruct (Nat.le_gt_cases (in_progress_total l) 1) as [Hp|Hp];
        [|assert (is_raise (fst (update self l)) = true) by (apply update_fails_iff; tauto);
          congruence].
      by rewrite update_accepts.
Qed.

(** C3, as stated, fails in both directions: an entry whose status is
    written Completed is outside the three status names, yet [update]
    accepts it; an entry whose content is one space has no empty field,
    yet [update] raises. *)
Lemma C3_counterexample :
  (spec_replace_fails [RawItem (Some "write tests") (Some "Completed") (Some "writing tests")] = true
   /\ update init [RawItem (Some "write tests") (Some "Completed") (Some "writing tests")]
      = (Ret ("[x] write tests" +:+ nl +:+ nl +:+ "(1/1 completed)"),
         {| items := [Item "write tests" "completed" "writing tests"] |}))
  /\ (spec_replace_fails [RawItem (Some " ") (Some "pending") (Some "waiting")] = false
      /\ update init [RawItem (Some " ") (Some "pending") (Some "waiting")]
         = (Raise "Item 0: content required", init)).
Proof. repeat split; vm_compute; reflexivity. Qed.

Lemma join_snoc (sep : string) (xs : list string) (x : string) :
  xs <> [] -> join sep (xs ++ [x]) = join sep xs +:+ sep +:+ x.
Proof.
  induction xs as [|a xs IH]; [done|]. intros _.
  destruct xs as [|b xs]; [done|].
  change (join sep ((a :: b :: xs) ++ [x]))
    with (a +:+ sep +:+ join sep ((b :: xs) ++ [x])).
  rewrite IH by done.
  change (join sep (a :: b :: xs)) with (a +:+ sep +:+ join sep (b :: xs)).
  by rewrite !append_assoc.
Qed.

Lemma render_nonempty (l : list item) :
  l <> [] ->
  render {| items := l |} =
    join nl (map render_item l) +:+ nl +:+ nl +:+ "("
      +:+ of_nat (completed_count l) +:+ "/" +:+ of_nat (length l) +:+ " completed)".
Proof.
  intros Hne. unfold render. simpl. destruct l as [|a l]; [done|].
  by rewrite join_snoc.
Qed.

Lemma render_item_glyph (it : item) :
  status_ok (status it) = true ->
  (status it = "completed" /\ render_item it = "[x] " +:+ content it)
  \/ (status it = "in_progress"
      /\ render_item it = "[>] " +:+ content it +:+ " <- " +:+ activeForm it)
  \/ (status it = "pending" /\ render_item it = "[ ] " +:+ content it).
Proof.
  unfold status_ok, render_item. rewrite !orb_true_iff, !String.eqb_eq.
  intros [[H|H]|H]; rewrite H; simpl; auto.
Qed.

Lemma split_on_line (cur a : string) :
  single_line a = true -> Tools.split_on "010" cur a = [cur +:+ a].
Proof.
  revert cur. induction a as [|c a IH]; intros cur; [by rewrite append_nil_r|].
  unfold single_line. cbn [has_char Tools.split_on].
  intros [Hc Ha]%negb_true_iff%orb_false_iff. rewrite Hc.
  rewrite IH by (unfold single_line; by rewrite Ha).
  by rewrite append_assoc.
Qed.

Lemma split_on_first_line (cur a rest : string) :
  single_line a = true ->
  Tools.split_on "010" cur (a +:+ nl +:+ rest)
  = (cur +:+ a) :: Tools.split_on "010" EmptyString rest.
Proof.
  revert cur. induction a as [|c a IH]; intros cur.
  - intros _. by rewrite append_nil_r.
  - unfold single_line. cbn [has_char]. rewrite append_cons. cbn [Tools.split_on].
    intros [Hc Ha]%negb_true_iff%orb_false_iff. rewrite Hc.
    rewrite IH by (unfold single_line; by rewrite Ha).
    by rewrite append_assoc.
Qed.

(** Joining single lines by line feeds and splitting again gives the
    lines back. *)
Lemma lines_join (ls : list string) :
  ls <> [] -> Forall (fun a => single_line a = true) ls -> lines (join nl ls) = ls.
Proof.
  unfold lines. induction ls as [|a ls IH]; [done|]. intros _ Hall.
  apply Forall_cons in Hall as [Ha Hls].
  destruct ls as [|b ls].
  - cbn [join]. by rewrite split_on_line.
  - change (join nl (a :: b :: ls)) with (a +:+ nl +:+ join nl (b :: ls)).
    rewrite split_on_first_line by done. by rewrite IH.
Qed.

Lemma single_line_append (a b : string) :
  single_line (a +:+ b) = single_line a && single_line b.
Proof.
  unfold single_line. induction a as [|c a IH]; [done|].
  rewrite append_cons. cbn [has_char]. rewrite !negb_orb, IH.
  by rewrite andb_assoc.
Qed.

Lemma single_line_digits (d : Decimal.uint) :
  single_line (NilEmpty.string_of_uint d) = true.
Proof.
  unfold single_line. induction d; cbn [NilEmpty.string_of_uint has_char]; try done;
    apply negb_true_iff in IHd; by rewrite IHd.
Qed.

Lemma single_line_of_nat (n : nat) : single_line (of_nat n) = true.
Proof.
  unfold of_nat, NilZero.string_of_uint.
  destruct (Nat.to_uint n); [done|..]; apply single_line_digits.
Qed.

Lemma single_line_render_item (it : item) :
  single_line (content it) = true -> single_line (activeForm it) = true ->
  single_line (render_item it) = true.
Proof.
  intros Hc Ha. unfold render_item.
  destruct (String.eqb (status it) "completed");
    [|destruct (String.eqb (status it) "in_progress")];
    rewrite !single_line_append, ?Hc, ?Ha; reflexivity.
Qed.

Lemma render_as_lines (l : list item) :
  l <> [] ->
  render {| items := l |}
  = join nl (map render_item l ++ [EmptyString; summary_line l]).
Proof.
  intros Hne. rewrite render_nonempty by done.
  assert (map render_item l <> []) as Hm by (by destruct l).
  change [EmptyString; summary_line l] with ([EmptyString] ++ [summary_line l]).
  rewrite app_assoc, join_snoc by (by destruct (map render_item l)).
  rewrite join_snoc by done.
  unfold summary_line. by rewrite !append_assoc, ?append_nil_r.
Qed.

(** C8 (as amended).  When [update] succeeds, the stored list is the
    list of the given entries (as read), whatever was stored before; the
    text returned is the rendering of that list: for a non-empty list
    one text per entry, in order, each starting with the glyph of its
    status ([x] completed, [>] in_progress, [ ] pending), joined by line
    feeds, then an empty line and the summary (k/n completed) with k the
    number of completed entries and n the length of the list; for the
    empty list the text is No todos.  When no content and no active form
    (as read) holds a line feed, the lines of the text returned are
    exactly one line per entry, the empty line and the summary line. *)
Theorem C8_update_renders (self : TodoManager) (l : list raw_item)
        (out : string) (self' : TodoManager) :
  update self l = (Ret out, self') ->
  items self' = map normalized l
  /\ length (items self') = length l
  /\ out = render self'
  /\ (l = [] -> out = "No todos.")
  /\ (l <> [] ->
      out = join nl (map render_item (items self')) +:+ nl +:+ nl +:+ "("
              +:+ of_nat (completed_count (items self')) +:+ "/"
              +:+ of_nat (length l) +:+ " completed)")
  /\ length (map render_item (items self')) = length l
  /\ Forall (fun it =>
       (status it = "completed" /\ render_item it = "[x] " +:+ content it)
       \/ (status it = "in_progress"
           /\ render_item it = "[>] " +:+ content it +:+ " <- " +:+ activeForm it)
       \/ (status it = "pending" /\ render_item it = "[ ] " +:+ content it))
     (items self')
  /\ (l <> [] ->
      Forall (fun it => single_line (content it) = true
                        /\ single_line (activeForm it) = true) (items self') ->
      lines out
      = map render_item (items self') ++ [EmptyString; summary_line (items self')]
      /\ length (lines out) = length l + 2).
Proof.
  intros Hup.
  assert (Hnr : is_raise (fst (update self l)) = false) by (by rewrite Hup).
  destruct (existsb rejected l) eqn:Hbad.
  { assert (is_raise (fst (update self l)) = true) by (apply update_fails_iff; tauto).
    congruence. }
  destruct (Nat.le_gt_cases (length l) 20) as [Hl|Hl];
    [|assert (is_raise (fst (update self l)) = true) by (apply update_fails_iff; tauto);
      congruence].
  destruct (Nat.le_gt_cases (in_progress_total l) 1) as [Hp|Hp];
    [|assert (is_raise (fst (update self l)) = true) by (apply update_fails_iff; tauto);
      congruence].
  rewrite update_accepts in Hup by done.
  injection Hup as <- <-. simpl.
  split; [done|]. split; [by rewrite length_map|]. split; [done|].
  split; [by intros ->|].
  split.
  { intros Hne. rewrite render_nonempty by (by destruct l).
    by rewrite length_map. }
  split; [by rewrite !length_map|].
  split.
  { apply Forall_forall. intros it Hin.
    apply render_item_glyph.
    apply list_elem_of_fmap in Hin as (r & -> & Hr).
    destruct (status_ok (status (normalized r))) eqn:E; [done|].
    assert (existsb rejected l = true); [|congruence].
    apply existsb_exists. exists r. split; [by apply list_elem_of_In|].
    unfold rejected. simpl in E. rewrite E. simpl. by rewrite orb_true_r. }
  intros Hne Hlines.
  assert (lines (render {| items := map normalized l |})
          = map render_item (map normalized l)
              ++ [EmptyString; summary_line (map normalized l)]) as Hl'.
  { rewrite render_as_lines by (by destruct l).
    apply lines_join; [by destruct l|].
    apply Forall_app_2.
    - apply Forall_fmap. eapply Forall_impl; [exact Hlines|].
      intros it [Hc Ha]. by apply single_line_render_item.
    - constructor; [done|]. constructor; [|constructor].
      unfold summary_line. by rewrite !single_line_append, !single_line_of_nat. }
  split; [exact Hl'|]. rewrite Hl', length_app, !length_map. simpl. lia.
Qed.

Lemma C8_update_renders_witness :
  update {| items := [Item "old" "pending" "doing old"] |}
    [RawItem (Some "plan") (Some "completed") (Some "planning");
     RawItem (Some "code") (Some "in_progress") (Some "coding");
     RawItem (Some "test") None (Some "testing")]
  = (Ret ("[x] plan" +:+ nl +:+ "[>] code <- coding" +:+ nl +:+ "[ ] test"
             +:+ nl +:+ nl +:+ "(1/3 completed)"),
     {| items := [Item "plan" "completed" "planning";
                  Item "code" "in_progress" "coding";
                  Item "test" "pending" "testing"] |})
  /\ lines ("[x] plan" +:+ nl +:+ "[>] code <- coding" +:+ nl +:+ "[ ] test"
              +:+ nl +:+ nl +:+ "(1/3 completed)")
     = ["[x] plan"; "[>] code <- coding"; "[ ] test"; EmptyString; "(1/3 completed)"].
Proof.
  split; [vm_compute; reflexivity|].
  destruct (C8_update_renders {| items := [Item "old" "pending" "doing old"] |}
              [RawItem (Some "plan") (Some "completed") (Some "planning");
               RawItem (Some "code") (Some "in_progress") (Some "coding");
               RawItem (Some "test") None (Some "testing")]
              ("[x] plan" +:+ nl +:+ "[>] code <- coding" +:+ nl +:+ "[ ] test"
                 +:+ nl +:+ nl +:+ "(1/3 completed)")
              {| items := [Item "plan" "completed" "planning";
                           Item "code" "in_progress" "coding";
                           Item "test" "pending" "testing"] |})
    as (_ & _ & _ & _ & _ & _ & _ & Hlines); [vm_compute; reflexivity|].
  destruct Hlines as [Hlines _]; [discriminate|repeat constructor|].
  exact Hlines.
Defined.

(** C8, as stated, fails: a content may hold a line feed, and then the
    entry takes two lines of the rendering; here one entry gives four
    lines where one line for the entry, the empty line and the summary
    line make three. *)
Lemma C8_counterexample :
  update init [RawItem (Some ("a" +:+ nl +:+ "b")) (Some "pending") (Some "x")]
  = (Ret ("[ ] a" +:+ nl +:+ "b" +:+ nl +:+ nl +:+ "(0/1 completed)"),
     {| items := [Item ("a" +:+ nl +:+ "b") "pending" "x"] |})
  /\ lines ("[ ] a" +:+ nl +:+ "b" +:+ nl +:+ nl +:+ "(0/1 completed)")
     = ["[ ] a"; "b"; EmptyString; "(0/1 completed)"]
  /\ length (lines ("[ ] a" +:+ nl +:+ "b" +:+ nl +:+ nl +:+ "(0/1 completed)"))
     <> length [RawItem (Some ("a" +:+ nl +:+ "b")) (Some "pending") (Some "x")] + 2.
Proof. repeat split; vm_compute; (reflexivity || discriminate). Qed.

End TodoClaims.

(** ** The request built by the adapter *)

Section RequestWindow.
Import PyStr Adapter RequestSpec.

Lemma slice_from_last {A} (k : Z) (l : list A) :
  (0 < k)%Z -> (k < Z.of_nat (length l))%Z ->
  slice_from (- k) l = drop (length l - Z.to_nat k) l.
Proof.
  intros Hpos Hlt. unfold slice_from.
  destruct (- k <? 0)%Z eqn:E; [|apply Z.ltb_ge in E; lia].
  f_equal. lia.
Qed.

Lemma build_window (self : LLMChatAdapter) (history : list message) (prompt : string) :
  keep_messages_count self = 20%Z ->
  history <> [] ->
  _build_langchain_messages self history prompt =
    system_part self ++ map to_langchain (drop (length history - 20) history).
Proof.
  intros Hk Hne. unfold _build_langchain_messages. fold (system_part self).
  destruct history as [|m0 rest]; [done|]. rewrite Hk.
  destruct (20 <? Z.of_nat (length (m0 :: rest)))%Z eqn:E.
  - apply Z.ltb_lt in E.
    by rewrite slice_from_last by lia.
  - apply Z.ltb_ge in E.
    replace (length (m0 :: rest) - 20) with 0 by lia. done.
Qed.

(** C10.  With [keep_messages_count = 20], the request built from a
    non-empty history is the adapter's own system message (if set)
    followed by the conversion of the last 20 history entries only: at
    most 20 entries, a suffix of the history; when the history is
    longer than 20, exactly 20 entries are sent, the entry at position 0
    is not among them (the entries sent are a suffix of the rest of the
    list), and no entry before position [length history - 20] is sent.
    The history list itself is only read. *)
Theorem C10_request_keeps_last_20 (self : LLMChatAdapter)
        (history : list message) (prompt : string) :
  keep_messages_count self = 20%Z ->
  history <> [] ->
  let recent := drop (length history - 20) history in
  _build_langchain_messages self history prompt
    = system_part self ++ map to_langchain recent
  /\ length recent <= 20
  /\ take (length history - 20) history ++ recent = history
  /\ (20 < length history ->
      length recent = 20
      /\ forall m0 rest, history = m0 :: rest ->
           recent = drop (length rest - 20) rest).
Proof.
  intros Hk Hne recent. subst recent.
  split; [by apply build_window|].
  split; [rewrite length_drop; lia|].
  split; [apply take_drop|].
  intros Hlen. split; [rewrite length_drop; lia|].
  intros m0 rest ->. cbn [length] in *.
  replace (S (length rest) - 20) with (S (length rest - 20)) by lia.
  reflexivity.
Qed.

Lemma C10_request_keeps_last_20_witness :
  _build_langchain_messages new_adapter
    (Message "system" "be brief" :: map numbered (seq 1 20)) "next"
  = map to_langchain (map numbered (seq 1 20)).
Proof.
  pose proof (C10_request_keeps_last_20 new_adapter
                (Message "system" "be brief" :: map numbered (seq 1 20)) "next"
                eq_refl ltac:(discriminate)) as H.
  exact (proj1 H).
Defined.

End RequestWindow.

(** ** The normalisation of a reply *)

Section NormalizeProofs.
Import PyStr PyDict Json Adapter NormalizeSpec.

Context {interp : Interpreter}.

Lemma convert_call_ok (tc : pyval) :
  call_entry_ok tc = true -> convert_call tc = Ret (tool_use_of tc).
Proof.
  destruct tc as [| | | | |l|kvs]; try done.
  unfold call_entry_ok, convert_call, tool_use_of, py_in, py_item, py_get, dhas.
  cbn [obind].
  destruct (dget "function" kvs) as [fd|] eqn:Hf; [|done].
  destruct fd as [| | | | |l|fd]; try done. cbn [obind].
  destruct (dget "name" fd) as [name|] eqn:Hn; [|done].
  destruct (dget "arguments" fd) as [args|] eqn:Ha; [|done].
  intros _. cbn [obind]. unfold parsed_arguments.
  destruct args as [| | | |a| |]; try done.
Qed.

Lemma convert_calls_ok (calls : list pyval) :
  forall blocks,
    forallb call_entry_ok calls = true ->
    convert_calls calls blocks = (blocks ++ omap tool_use_of calls, false).
Proof.
  induction calls as [|tc calls IH]; intros blocks Hok; simpl in *.
  - by rewrite app_nil_r.
  - apply andb_true_iff in Hok as [Htc Hcalls].
    rewrite (convert_call_ok tc Htc).
    destruct (tool_use_of tc) as [b|]; rewrite IH by done; [|done].
    by rewrite <- app_assoc.
Qed.

Lemma tool_use_of_is_tool (tc : pyval) (b : block) :
  tool_use_of tc = Some b -> is_text b = false.
Proof.
  unfold tool_use_of. intros H.
  repeat (match type of H with
          | match ?x with _ => _ end = _ => destruct x; try done
          end).
  by injection H as <-.
Qed.

Lemma tool_use_of_has_function (tc : pyval) :
  call_entry_ok tc = true -> has_function tc = true -> is_Some (tool_use_of tc).
Proof.
  destruct tc as [| | | | |l|kvs]; try done.
  unfold call_entry_ok, has_function, tool_use_of, dhas.
  destruct (dget "function" kvs) as [fd|]; [|done].
  destruct fd as [| | | | |l|fd]; try done.
  destruct (dget "name" fd), (dget "arguments" fd); simpl; try done; eauto.
Qed.

Lemma omap_tools_all (calls : list pyval) :
  forallb call_entry_ok calls = true ->
  forallb has_function calls = true ->
  length (omap tool_use_of calls) = length calls.
Proof.
  induction calls as [|tc calls IH]; [done|].
  cbn [forallb]. intros [H1 H2]%andb_true_iff [H3 H4]%andb_true_iff.
  destruct (tool_use_of_has_function tc H1 H3) as [b Hb].
  change (omap tool_use_of (tc :: calls))
    with (match tool_use_of tc with
          | Some y => y :: omap tool_use_of calls
          | None => omap tool_use_of calls
          end).
  rewrite Hb. cbn [length]. by rewrite IH.
Qed.

Lemma leading_then_tools (kvs : list (string * pyval)) (calls : list pyval) :
  texts_precede_tools (leading_text kvs ++ omap tool_use_of calls).
Proof.
  intros i j bi bj Hi Hj Hti Htj.
  assert (Hlead : Forall (fun b => is_text b = true) (leading_text kvs)).
  { unfold leading_text. destruct (dget "content" kvs) as [c|]; [|done].
    destruct (truthy c); repeat constructor. }
  assert (Htools : Forall (fun b => is_text b = false) (omap tool_use_of calls)).
  { apply Forall_forall. intros b Hb.
    apply list_elem_of_omap in Hb as (tc & _ & Htc).
    by eapply tool_use_of_is_tool. }
  destruct (decide (i < length (leading_text kvs))) as [Hil|Hil].
  - destruct (decide (j < length (leading_text kvs))) as [Hjl|Hjl]; [|lia].
    rewrite lookup_app_l in Hj by done.
    rewrite Forall_lookup in Hlead. specialize (Hlead _ _ Hj). congruence.
  - rewrite lookup_app_r in Hi by lia.
    rewrite Forall_lookup in Htools. specialize (Htools _ _ Hi). congruence.
Qed.

Lemma normalize_tool_calls (content : string) (kvs : list (string * pyval))
      (calls : list pyval) :
  json_loads content = Some (PDict kvs) ->
  dget "tool_calls" kvs = Some (PList calls) ->
  forallb call_entry_ok calls = true ->
  normalize true content =
    {| resp_content := leading_text kvs ++ omap tool_use_of calls;
       stop_reason := "tool_use" |}.
Proof.
  intros Hj Ht Hok. unfold normalize, interpret. rewrite Hj, Ht.
  rewrite convert_calls_ok by done.
  unfold leading_text. destruct (dget "content" kvs) as [c|]; simpl; [done|done].
Qed.

(** A reply that is not JSON becomes one text block holding the reply,
    with [end_turn]. *)
Lemma normalize_not_json (content : string) :
  json_loads content = None ->
  normalize true content =
    {| resp_content := [TextBlock (PStr content)]; stop_reason := "end_turn" |}.
Proof. intros H. unfold normalize. by rewrite H. Qed.

Lemma convert_calls_extends (calls : list pyval) :
  forall blocks, exists more, fst (convert_calls calls blocks) = blocks ++ more.
Proof.
  induction calls as [|tc calls IH]; intros blocks; simpl.
  - exists []. by rewrite app_nil_r.
  - destruct (convert_call tc) as [[b|]|e].
    + destruct (IH (blocks ++ [b])) as [more ->].
      exists (b :: more). by rewrite <- app_assoc.
    + apply IH.
    + exists []. by rewrite app_nil_r.
Qed.

Lemma normalize_tool_calls_shape (content : string) (kvs : list (string * pyval))
      (calls : list pyval) :
  json_loads content = Some (PDict kvs) ->
  dget "tool_calls" kvs = Some (PList calls) ->
  stop_reason (normalize true content) = "tool_use"
  /\ exists more, resp_content (normalize true content) = leading_text kvs ++ more.
Proof.
  intros Hj Ht. unfold normalize, interpret. rewrite Hj, Ht.
  assert (Hlead : (if truthy (default PNone (dget "content" kvs))
                   then [TextBlock (default PNone (dget "content" kvs))] else [])
                  = leading_text kvs).
  { unfold leading_text. by destruct (dget "content" kvs). }
  rewrite Hlead.
  destruct (convert_calls_extends calls (leading_text kvs)) as [more Hmore].
  destruct (convert_calls calls (leading_text kvs)) as [blocks raised].
  simpl in Hmore. subst blocks. simpl. split; [done|].
  destruct raised; [|by exists more].
  exists (more ++ [TextBlock (PStr content)]). by rewrite app_assoc.
Qed.

(** C4 (as amended).  If the reply decodes to an object with a
    [tool_calls] list, the response has stop reason tool_use and, when
    the [content] member is truthy (in particular a non-empty string),
    its first block is a text block holding it.  If moreover each entry
    of the list is an object that has no [function] member or whose
    [function] member is an object with [name] and [arguments], the
    blocks are that text block (if any) followed by one tool_use block
    for each entry that has a [function] member, in order (entries
    without one are skipped), with the arguments decoded when they are a
    string that decodes and kept as they are otherwise; every text block
    is then before every tool_use block; and when every entry has a
    [function] member there is exactly one tool_use block per entry.  The
    reply of the example gives exactly one tool_use block, named bash,
    with input {command: ls} (its four levels of brackets have to be
    within the nesting the interpreter allows). *)
Theorem C4_normalize_tool_calls (content : string) (kvs : list (string * pyval))
        (calls : list pyval) :
  json_loads content = Some (PDict kvs) ->
  dget "tool_calls" kvs = Some (PList calls) ->
  stop_reason (normalize true content) = "tool_use"
  /\ (forall c, dget "content" kvs = Some c -> truthy c = true ->
        head (resp_content (normalize true content)) = Some (TextBlock c))
  /\ (forallb call_entry_ok calls = true ->
      resp_content (normalize true content)
      = leading_text kvs ++ omap tool_use_of calls
      /\ (forallb has_function calls = true ->
          length (omap tool_use_of calls) = length calls)
      /\ texts_precede_tools (resp_content (normalize true content)))
  /\ (4 <= json_nesting ->
      normalize true example_reply
      = {| resp_content :=
             [ToolUseBlock (PStr "1") (PStr "bash") (PDict [("command", PStr "ls")])];
           stop_reason := "tool_use" |}).
Proof.
  intros Hj Ht.
  destruct (normalize_tool_calls_shape content kvs calls Hj Ht) as (Hstop & more & Hmore).
  split; [done|].
  split. { intros c Hc Htr. rewrite Hmore. unfold leading_text. by rewrite Hc, Htr. }
  split.
  { intros Hok. rewrite (normalize_tool_calls content kvs calls Hj Ht Hok). simpl.
    split; [done|]. split; [by apply omap_tools_all|apply leading_then_tools]. }
  destruct interp as [digits nesting]. cbn [json_nesting]. intros Hn.
  do 4 (destruct nesting as [|nesting]; [lia|]). vm_compute. reflexivity.
Qed.

End NormalizeProofs.

Section NormalizeExamples.
Import PyStr PyDict Json Adapter NormalizeSpec.

#[local] Existing Instance example_interpreter.

Lemma C4_normalize_tool_calls_witness :
  json_loads example_reply
  = Some (PDict [("tool_calls",
                  PList [PDict [("id", PStr "1");
                                ("function",
                                 PDict [("name", PStr "bash");
                                        ("arguments",
                                         PStr ("{" +:+ dq +:+ "command" +:+ dq +:+ ":"
                                                 +:+ dq +:+ "ls" +:+ dq +:+ "}"))])]])])
  /\ stop_reason (normalize true example_reply) = "tool_use".
Proof.
  split; [vm_compute; reflexivity|].
  refine (proj1 (C4_normalize_tool_calls example_reply _ _ _ _));
    vm_compute; reflexivity.
Defined.

(** The zero test of floats follows the double that Python reads: a
    value at most half the smallest positive double is zero, the next
    decimal above it is not. *)
Lemma float_is_zero_rounding :
  float_is_zero "0.0" = true /\ float_is_zero "-0e7" = true
  /\ float_is_zero "1e-400" = true
  /\ float_is_zero "2.4703282292062327e-324" = true
  /\ float_is_zero "2.4703282292062328e-324" = false
  /\ float_is_zero "5e-324" = false /\ float_is_zero "1E400" = false
  /\ float_is_zero "NaN" = false /\ float_is_zero "-Infinity" = false.
Proof. repeat split; vm_compute; reflexivity. Qed.

(** The limits of the decoder in the interpreter of the examples: an
    integer of 4300 digits is read and one of 4301 digits is not; 900
    brackets can be entered and 901 cannot; such replies, and a reply
    whose content is a float that reads as zero, are normalised as the
    real decoder has it: the raw text with stop reason end_turn, and no
    leading text block. *)
Lemma decoder_limits :
  is_Some (json_loads (repeated "1" 4300))
  /\ json_loads (repeated "1" 4301) = None
  /\ is_Some (json_loads (repeated "[" 900 +:+ repeated "]" 900))
  /\ json_loads (repeated "[" 901 +:+ repeated "]" 901) = None
  /\ stop_reason (normalize true (repeated "[" 901 +:+ repeated "]" 901)) = "end_turn"
  /\ normalize true underflow_reply
     = {| resp_content := []; stop_reason := "tool_use" |}.
Proof.
  repeat split; try (vm_compute; reflexivity); vm_compute; by eexists.
Qed.

(** C4, as stated, fails: this reply decodes to an object whose
    [tool_calls] list has one entry, and the response has no tool_use
    block at all (the entry has no [function] member and is skipped). *)
Lemma C4_counterexample :
  json_loads reply_without_function
  = Some (PDict [("tool_calls",
                  PList [PDict [("id", PStr "1"); ("type", PStr "function")]])])
  /\ normalize true reply_without_function
     = {| resp_content := []; stop_reason := "tool_use" |}.
Proof. split; vm_compute; reflexivity. Qed.

(** C5 at the failing input.  The reply decodes, its one call has no
    [arguments], the conversion raises inside the [try] and the handler
    appends the text block; but [stop_reason] was already set, so the
    response is a text block with stop reason tool_use instead of
    end_turn.  When blocks were appended before the exception they stay,
    and the text block with the raw reply comes after a tool_use block. *)
Theorem C5_fallback_keeps_tool_use :
  normalize true reply_without_arguments
  = {| resp_content := [TextBlock (PStr reply_without_arguments)];
       stop_reason := "tool_use" |}
  /\ normalize true reply_half_converted
     = {| resp_content :=
            [TextBlock (PStr "listing");
             ToolUseBlock (PStr "call_1") (PStr "bash") (PDict []);
             TextBlock (PStr reply_half_converted)];
          stop_reason := "tool_use" |}.
Proof. split; vm_compute; reflexivity. Qed.

End NormalizeExamples.

(** ** Path containment of the file tools *)

Section FileToolProofs.
Import PyStr Tools.

Context {FS : Type}.
Variable resolve : FS -> path -> path.
Variable read_text : FS -> path -> outcome string.
Variable mkdir : path -> FS -> outcome unit * FS.
Variable write_text : path -> string -> FS -> outcome unit * FS.
Variable WORKDIR : path.

Abbreviation safe_path := (safe_path FS resolve WORKDIR).
Abbreviation run_read := (run_read FS resolve read_text WORKDIR).
Abbreviation run_write := (run_write FS resolve mkdir write_text WORKDIR).
Abbreviation run_edit := (run_edit FS resolve read_text write_text WORKDIR).

Lemma safe_path_escape (w : world FS) (p : string) :
  is_relative_to (resolve (fs FS w) (joinpath WORKDIR p)) WORKDIR = false ->
  safe_path w p = Raise ("Path escapes workspace: " +:+ p).
Proof. intros H. unfold Tools.safe_path. by rewrite H. Qed.

Lemma safe_path_inside (w : world FS) (p : string) :
  is_relative_to (resolve (fs FS w) (joinpath WORKDIR p)) WORKDIR = true ->
  safe_path w p = Ret (resolve (fs FS w) (joinpath WORKDIR p)).
Proof. intros H. unfold Tools.safe_path. by rewrite H. Qed.

Lemma run_read_ops (w : world FS) (p : string) (limit : option Z) (pa : path) :
  safe_path w p = Ret pa ->
  ops FS (snd (run_read p limit w)) = ops FS w ++ [OpRead pa].
Proof.
  intros H. unfold Tools.run_read. rewrite H. unfold do_read.
  by destruct (read_text (fs FS w) pa).
Qed.

Lemma run_write_ops (w : world FS) (p content : string) (pa : path) :
  safe_path w p = Ret pa ->
  ops FS (snd (run_write p content w)) = ops FS w ++ [OpMkdir (parent pa)]
  \/ ops FS (snd (run_write p content w))
     = ops FS w ++ [OpMkdir (parent pa); OpWrite pa content].
Proof.
  intros H. unfold Tools.run_write. rewrite H. unfold do_mkdir, do_write.
  destruct (mkdir (parent pa) (fs FS w)) as [[[]|e] fs1]; simpl; [|by left].
  destruct (write_text pa content fs1) as [[[]|e] fs2]; simpl;
    right; by rewrite <- app_assoc.
Qed.

Lemma run_edit_ops (w : world FS) (p old_text new_text : string) (pa : path) :
  safe_path w p = Ret pa ->
  ops FS (snd (run_edit p old_text new_text w)) = ops FS w ++ [OpRead pa]
  \/ exists data,
       ops FS (snd (run_edit p old_text new_text w))
       = ops FS w ++ [OpRead pa; OpWrite pa data].
Proof.
  intros H. unfold Tools.run_edit. rewrite H. unfold do_read, do_write.
  destruct (read_text (fs FS w) pa) as [content|e]; simpl; [|by left].
  destruct (contains old_text content); simpl; [|by left].
  right. exists (replace_first old_text new_text content).
  destruct (write_text pa (replace_first old_text new_text content) (fs FS w))
    as [[[]|e] fs2]; simpl; by rewrite <- app_assoc.
Qed.

(** C6.  Let [pa] be the resolution of the path argument against the
    workspace root.  If [pa] is outside the root, each of [run_read],
    [run_write] and [run_edit] returns the error text and leaves the
    file system and the trace of file operations as they were: nothing
    is read, created or written.  If [pa] is inside the root, [safe_path]
    accepts it and the tools operate on [pa] (and, for [run_write], on
    its parent directory) only. *)
Theorem C6_path_containment (w : world FS) (p : string) :
  let pa := resolve (fs FS w) (joinpath WORKDIR p) in
  (is_relative_to pa WORKDIR = false ->
   (forall limit,
      run_read p limit w = ("Error: Path escapes workspace: " +:+ p, w))
   /\ (forall content,
         run_write p content w = ("Error: Path escapes workspace: " +:+ p, w))
   /\ (forall old_text new_text,
         run_edit p old_text new_text w
         = ("Error: Path escapes workspace: " +:+ p, w)))
  /\ (is_relative_to pa WORKDIR = true ->
      safe_path w p = Ret pa
      /\ (forall limit,
            ops FS (snd (run_read p limit w)) = ops FS w ++ [OpRead pa])
      /\ (forall content,
            ops FS (snd (run_write p content w)) = ops FS w ++ [OpMkdir (parent pa)]
            \/ ops FS (snd (run_write p content w))
               = ops FS w ++ [OpMkdir (parent pa); OpWrite pa content])
      /\ (forall old_text new_text,
            ops FS (snd (run_edit p old_text new_text w)) = ops FS w ++ [OpRead pa]
            \/ exists data,
                 ops FS (snd (run_edit p old_text new_text w))
                 = ops FS w ++ [OpRead pa; OpWrite pa data])).
Proof.
  intros pa. split.
  - intros Hout. pose proof (safe_path_escape w p Hout) as Hsp.
    repeat split; intros.
    + unfold Tools.run_read. by rewrite Hsp.
    + unfold Tools.run_write. by rewrite Hsp.
    + unfold Tools.run_edit. by rewrite Hsp.
  - intros Hin. pose proof (safe_path_inside w p Hin) as Hsp.
    split; [done|]. split; [|split]; intros.
    + by apply run_read_ops.
    + by apply run_write_ops.
    + by apply run_edit_ops.
Qed.

End FileToolProofs.

Section FileToolExample.
Import PyStr Tools FileSpec.

Lemma C6_path_containment_witness :
  is_relative_to
    (MemFS.resolve (fs _ example_world) (joinpath example_root "../../etc/passwd"))
    example_root = false
  /\ run_read MemFS.t MemFS.resolve MemFS.read_text example_root
       "../../etc/passwd" None example_world
     = ("Error: Path escapes workspace: ../../etc/passwd", example_world)
  /\ run_write MemFS.t MemFS.resolve MemFS.mkdir MemFS.write_text example_root
       "../../etc/passwd" "x" example_world
     = ("Error: Path escapes workspace: ../../etc/passwd", example_world)
  /\ run_edit MemFS.t MemFS.resolve MemFS.read_text MemFS.write_text example_root
       "../../etc/passwd" "root" "toor" example_world
     = ("Error: Path escapes workspace: ../../etc/passwd", example_world)
  /\ is_relative_to
       (MemFS.resolve (fs _ example_world) (joinpath example_root "docs/../notes.txt"))
       example_root = true
  /\ safe_path MemFS.t MemFS.resolve example_root example_world "docs/../notes.txt"
     = Ret ["home"; "user"; "project"; "notes.txt"].
Proof.
  pose proof (C6_path_containment MemFS.resolve MemFS.read_text MemFS.mkdir
                MemFS.write_text example_root example_world "../../etc/passwd") as Hout.
  pose proof (C6_path_containment MemFS.resolve MemFS.read_text MemFS.mkdir
                MemFS.write_text example_root example_world "docs/../notes.txt") as Hin.
  cbv zeta in Hout, Hin.
  destruct Hout as [Hout _]. destruct Hin as [_ Hin].
  assert (E1 : is_relative_to
                 (MemFS.resolve (fs _ example_world)
                    (joinpath example_root "../../etc/passwd"))
                 example_root = false) by (vm_compute; reflexivity).
  assert (E2 : is_relative_to
                 (MemFS.resolve (fs _ example_world)
                    (joinpath example_root "docs/../notes.txt"))
                 example_root = true) by (vm_compute; reflexivity).
  destruct (Hout E1) as (Hr & Hw & He). destruct (Hin E2) as (Hs & _).
  split; [exact E1|]. split; [apply Hr|]. split; [apply Hw|]. split; [apply He|].
  split; [exact E2|]. exact Hs.
Defined.

End FileToolExample.

(** ** The skill repository *)

Section SubstringFacts.
Import PyStr.

Lemma prefix_nil (s : string) : String.prefix EmptyString s = true.
Proof. by destruct s. Qed.

Lemma prefix_app (sub s t : string) :
  String.prefix sub s = true -> String.prefix sub (s +:+ t) = true.
Proof.
  revert s. induction sub as [|c sub IH]; intros s H; [apply prefix_nil|].
  destruct s as [|d s]; [done|]. rewrite append_cons. simpl in *.
  destruct (ascii_dec c d); [by apply IH|done].
Qed.

Lemma prefix_refl_app (s t : string) : String.prefix s (s +:+ t) = true.
Proof.
  induction s as [|c s IH]; [apply prefix_nil|].
  rewrite append_cons. simpl. by destruct (ascii_dec c c).
Qed.

Lemma contains_unfold (sub s : string) :
  contains sub s =
    String.prefix sub s
    || match s with EmptyString => false | String _ r => contains sub r end.
Proof. by destruct s. Qed.

Lemma contains_cons (sub : string) (c : ascii) (s : string) :
  contains sub s = true -> contains sub (String c s) = true.
Proof. intros H. simpl. rewrite H. apply orb_true_r. Qed.

Lemma contains_app_r (sub t s : string) :
  contains sub s = true -> contains sub (t +:+ s) = true.
Proof.
  intros H. induction t as [|c t IH]; [done|].
  rewrite append_cons. by apply contains_cons.
Qed.

Lemma contains_app_l (sub s t : string) :
  contains sub s = true -> contains sub (s +:+ t) = true.
Proof.
  induction s as [|c s IH]; intros H.
  - destruct sub; [|done]. by rewrite contains_unfold, prefix_nil.
  - rewrite append_cons.
    change (contains sub (String c s)) with
      (String.prefix sub (String c s) || contains sub s) in H.
    change (contains sub (String c (s +:+ t))) with
      (String.prefix sub (String c (s +:+ t)) || contains sub (s +:+ t)).
    apply orb_true_iff in H as [H|H].
    + rewrite <- append_cons. rewrite (prefix_app _ _ _ H). done.
    + rewrite (IH H). apply orb_true_r.
Qed.

Lemma contains_here (s t : string) : contains s (s +:+ t) = true.
Proof. by rewrite contains_unfold, prefix_refl_app. Qed.

Lemma prefix_refl (s : string) : String.prefix s s = true.
Proof. induction s as [|c s IH]; [done|]. simpl. by destruct (ascii_dec c c). Qed.

Lemma contains_refl (s : string) : contains s s = true.
Proof. by rewrite contains_unfold, prefix_refl. Qed.

Lemma contains_middle (sub a b : string) : contains sub (a +:+ sub +:+ b) = true.
Proof. apply contains_app_r, contains_here. Qed.

Lemma contains_join (sub sep : string) (l : list string) :
  Exists (fun x => contains sub x = true) l -> contains sub (join sep l) = true.
Proof.
  induction l as [|x l IH]; intros H; [by apply Exists_nil in H|].
  destruct l as [|y l].
  - apply Exists_cons in H as [H|H]; [done|by apply Exists_nil in H].
  - change (join sep (x :: y :: l)) with (x +:+ sep +:+ join sep (y :: l)).
    apply Exists_cons in H as [H|H].
    + by apply contains_app_l.
    + apply contains_app_r, contains_app_r. by apply IH.
Qed.

End SubstringFacts.

Section SkillProofs.
Import PyStr PyDict Skills SkillSpec.

Variable glob : string -> string -> option (list string).

Lemma dget_elem_of {V} (k : string) (v : V) (d : list (string * V)) :
  dget k d = Some v -> (k, v) ∈ d.
Proof.
  induction d as [|[k' v'] d IH]; simpl; [done|].
  destruct (String.eqb_spec k k') as [->|Hne].
  - intros [= ->]. left.
  - intros H. right. by apply IH.
Qed.

(** A loaded skill is listed with its description. *)
Lemma summaries_list_skill (skills : list (string * skill)) (name : string) (sk : skill) :
  dget name skills = Some sk ->
  contains (name +:+ ": " +:+ sk_description sk) (get_descriptions skills) = true.
Proof.
  intros Hget. unfold get_descriptions.
  destruct skills as [|e skills']; [done|].
  apply contains_join. apply Exists_exists.
  exists ("- " +:+ name +:+ ": " +:+ sk_description sk). split.
  - apply list_elem_of_fmap. exists (name, sk). split; [done|by apply dget_elem_of].
  - apply contains_app_r, contains_refl.
Qed.

(** The text returned for a loaded skill holds its body. *)
Lemma run_skill_holds_body (skills : list (string * skill)) (name : string) (sk : skill) :
  dget name skills = Some sk ->
  contains (sk_body sk) (run_skill glob skills name) = true.
Proof.
  intros Hget. unfold run_skill, get_skill_content. rewrite Hget.
  set (resources := concat _).
  destruct resources as [|r rs].
  - do 6 apply contains_app_r. apply contains_app_l.
    do 4 apply contains_app_r. apply contains_refl.
  - do 6 apply contains_app_r. apply contains_app_l, contains_app_l.
    do 4 apply contains_app_r. apply contains_refl.
Qed.

Lemma run_skill_unknown (skills : list (string * skill)) (name : string) :
  dget name skills = None ->
  run_skill glob skills name =
    "Error: Unknown skill '" +:+ name +:+ "'. Available: "
      +:+ match join ", " (list_skills skills) with
          | EmptyString => "none"
          | names => names
          end.
Proof. intros H. unfold run_skill, get_skill_content. by rewrite H. Qed.

End SkillProofs.

Section SkillClaims.
Import PyStr PyDict Skills SkillSpec.

(** C9.  Loading a skills directory that holds the package of the
    example (manifest with name pdf and description handle pdfs, body
    Use pdftotext.) registers the skill pdf; the summaries then hold the
    line for pdf, which contains pdf: handle pdfs, and loading pdf
    returns a text that contains the body, whatever resource folders the
    package has.  More generally every loaded skill is listed with its
    description and loads to a text holding its body; and a name that is
    not loaded gives the error text Unknown skill ... Available: ...
    (the loaded names, or none) as an ordinary result. *)
Theorem C9_skill_round_trip (glob : string -> string -> option (list string))
        (skills_dir : string) :
  let skills := load_skills skills_dir (Some [pdf_entry]) in
  parse_skill_md (skills_dir +:+ "/pdf") pdf_manifest
    = Some {| sk_name := "pdf"; sk_description := "handle pdfs";
              sk_body := "Use pdftotext.";
              sk_path := (skills_dir +:+ "/pdf") +:+ "/SKILL.md";
              sk_dir := skills_dir +:+ "/pdf" |}
  /\ get_descriptions skills = "- pdf: handle pdfs"
  /\ contains "pdf: handle pdfs" (get_descriptions skills) = true
  /\ contains "Use pdftotext." (run_skill glob skills "pdf") = true
  /\ run_skill glob skills "docx" = "Error: Unknown skill 'docx'. Available: pdf"
  /\ (forall (loaded : list (string * skill)) (name : string) (sk : skill),
        dget name loaded = Some sk ->
        contains (name +:+ ": " +:+ sk_description sk) (get_descriptions loaded) = true
        /\ contains (sk_body sk) (run_skill glob loaded name) = true)
  /\ (forall (loaded : list (string * skill)) (name : string),
        dget name loaded = None ->
        run_skill glob loaded name =
          "Error: Unknown skill '" +:+ name +:+ "'. Available: "
            +:+ match join ", " (list_skills loaded) with
                | EmptyString => "none"
                | names => names
                end).
Proof.
  intros skills.
  assert (Hparse : parse_skill_md (skills_dir +:+ "/pdf") pdf_manifest
    = Some {| sk_name := "pdf"; sk_description := "handle pdfs";
              sk_body := "Use pdftotext.";
              sk_path := (skills_dir +:+ "/pdf") +:+ "/SKILL.md";
              sk_dir := skills_dir +:+ "/pdf" |}).
  { generalize (skills_dir +:+ "/pdf"). intros d. vm_compute. reflexivity. }
  assert (Hload : skills
                  = [("pdf", {| sk_name := "pdf"; sk_description := "handle pdfs";
                                sk_body := "Use pdftotext.";
                                sk_path := (skills_dir +:+ "/pdf") +:+ "/SKILL.md";
                                sk_dir := skills_dir +:+ "/pdf" |})]).
  { subst skills. unfold load_skills, load_entries, pdf_entry.
    cbn [e_is_dir e_skill_md e_name negb].
    change (skills_dir +:+ "/" +:+ "pdf") with (skills_dir +:+ "/pdf").
    rewrite Hparse. reflexivity. }
  assert (Hget : dget "pdf" skills
                 = Some {| sk_name := "pdf"; sk_description := "handle pdfs";
                           sk_body := "Use pdftotext.";
                           sk_path := (skills_dir +:+ "/pdf") +:+ "/SKILL.md";
                           sk_dir := skills_dir +:+ "/pdf" |})
    by (by rewrite Hload).
  split; [exact Hparse|].
  split; [by rewrite Hload|].
  split; [exact (summaries_list_skill skills "pdf" _ Hget)|].
  split; [exact (run_skill_holds_body glob skills "pdf" _ Hget)|].
  split; [by rewrite run_skill_unknown; rewrite Hload|].
  split.
  - intros loaded name sk H. split.
    + by apply summaries_list_skill.
    + by apply run_skill_holds_body.
  - intros loaded name H. by apply run_skill_unknown.
Qed.

End SkillClaims.

(** ** The agent loops *)

Section AgentProofs.
Import PyStr PyDict Json Adapter Tools Agent AgentSpec.

Context {interp : Interpreter}.

Context {W : Type}.
Variable llm_invoke : list lc_message -> list string -> W -> outcome string * W.
Variable execute_tool : pyval -> pyval -> W -> outcome string * W.
Variable py_str : pyval -> string.
Variable client : LLMChatAdapter.
Variable run_bash : pyval -> W -> outcome string * W.

Abbreviation chat_with_tools := (chat_with_tools W llm_invoke client).
Abbreviation process_turn_v1 := (process_turn_v1 W execute_tool py_str).
Abbreviation process_turn_v4 := (process_turn_v4 W execute_tool py_str).
Abbreviation run_tools_v1 := (run_tools_v1 W execute_tool py_str).
Abbreviation run_tools_v4 := (run_tools_v4 W execute_tool py_str).
Abbreviation loop_v1 := (loop_v1 W llm_invoke execute_tool py_str client).
Abbreviation loop_v4 := (loop_v4 W llm_invoke execute_tool py_str client).
Abbreviation agent_loop_v1 := (agent_loop_v1 W llm_invoke execute_tool py_str client).
Abbreviation agent_loop_v4 := (agent_loop_v4 W llm_invoke execute_tool py_str client).
Abbreviation keeps_calling := (AgentSpec.keeps_calling W llm_invoke client).
Abbreviation dispatch_all := (AgentSpec.dispatch_all W).
Abbreviation call_v1 := (AgentSpec.call_v1 W execute_tool).
Abbreviation call_v4 := (AgentSpec.call_v4 W execute_tool).
Abbreviation tools_never_raise := (AgentSpec.tools_never_raise W execute_tool).
Abbreviation bash_never_raises := (AgentSpec.bash_never_raises W run_bash).
Abbreviation run_tools_v0 := (run_tools_v0 W py_str run_bash).
Abbreviation loop_v0 := (loop_v0 W llm_invoke py_str client run_bash).
Abbreviation chat_v0 := (chat_v0 W llm_invoke py_str client run_bash).

Lemma run_tools_v1_returns (calls : list tool_call) :
  tools_never_raise ->
  forall results w, exists results' w',
    run_tools_v1 calls results w = (Ret results', w').
Proof.
  intros Hex. induction calls as [|tc calls IH]; intros results w; simpl; [eauto|].
  specialize (Hex (tc_name tc) (tc_input tc) w).
  destruct (execute_tool (tc_name tc) (tc_input tc) w) as [[output|e] w']; [|done].
  apply IH.
Qed.

Lemma run_tools_v4_returns (calls : list tool_call) :
  tools_never_raise ->
  Forall (fun tc => is_raise (log_call_v4 tc) = false) calls ->
  forall results w, exists results' w',
    run_tools_v4 calls results w = (Ret results', w').
Proof.
  intros Hex Hlog. induction Hlog as [|tc calls Htc Hcalls IH];
    intros results w; simpl; [eauto|].
  destruct (log_call_v4 tc) as [[]|e]; [|done].
  specialize (Hex (tc_name tc) (tc_input tc) w).
  destruct (execute_tool (tc_name tc) (tc_input tc) w) as [[output|e] w']; [|done].
  apply IH.
Qed.

Lemma loop_v1_exhausts :
  keeps_calling -> tools_never_raise ->
  forall remaining step prompt history w,
    lx_result W (loop_v1 remaining step prompt history w) = Ret None
    /\ lx_step W (loop_v1 remaining step prompt history w) = step + remaining.
Proof.
  intros Hm Hex. induction remaining as [|k IH]; intros step prompt history w.
  - simpl. split; [done|lia].
  - cbn [Agent.loop_v1].
    destruct (Hm prompt history BASIC_TOOLS w) as (Hcalls & Htext & _).
    destruct (chat_with_tools prompt history BASIC_TOOLS w) as [response w1].
    cbn [fst] in *. unfold Agent.process_turn_v1.
    destruct (join_values nl (assistant_text (resp_content response)))
      as [full_text|e]; [|done].
    destruct (tool_calls (resp_content response)) as [|tc calls] eqn:E; [done|].
    destruct (run_tools_v1_returns (tc :: calls) Hex [] w1) as (results & w2 & ->).
    destruct (IH (step + 1) prompt
                 (history ++ [Message "assistant" full_text; results_message results]) w2)
      as [-> ->].
    split; [done|lia].
Qed.

Lemma loop_v4_exhausts :
  keeps_calling -> tools_never_raise ->
  forall remaining step prompt history w,
    lx_result W (loop_v4 remaining step prompt history w) = Ret None
    /\ lx_step W (loop_v4 remaining step prompt history w) = step + remaining.
Proof.
  intros Hm Hex. induction remaining as [|k IH]; intros step prompt history w.
  - simpl. split; [done|lia].
  - cbn [Agent.loop_v4].
    destruct (Hm prompt history ALL_TOOLS w) as (Hcalls & Htext & Hlog & _).
    destruct (chat_with_tools prompt history ALL_TOOLS w) as [response w1].
    cbn [fst] in *. unfold Agent.process_turn_v4.
    destruct (join_values nl (assistant_text (resp_content response)))
      as [full_text|e]; [|done].
    destruct (tool_calls (resp_content response)) as [|tc calls] eqn:E; [done|].
    destruct (run_tools_v4_returns (tc :: calls) Hex Hlog [] w1) as (results & w2 & ->).
    destruct (IH (step + 1) prompt
                 (history ++ [Message "assistant" full_text; results_message results]) w2)
      as [-> ->].
    split; [done|lia].
Qed.

Lemma run_tools_v0_returns (calls : list tool_call) :
  bash_never_raises ->
  Forall (fun tc => is_raise (py_get (tc_input tc) "command" PNone) = false) calls ->
  forall all_outputs w, exists all_outputs' w',
    run_tools_v0 calls all_outputs w = (Ret all_outputs', w').
Proof.
  intros Hb Hin. induction Hin as [|tc calls Htc Hcalls IH];
    intros all_outputs w; simpl; [eauto|].
  destruct (is_str "bash" (tc_name tc)); [|apply IH].
  destruct (py_get (tc_input tc) "command" PNone) as [cmd|e]; [|done].
  destruct (truthy cmd); [|apply IH].
  specialize (Hb cmd w).
  destruct (run_bash cmd w) as [[output|e] w']; [|done].
  apply IH.
Qed.

Lemma loop_v0_exhausts :
  keeps_calling -> bash_never_raises ->
  forall remaining step prompt history w,
    cx_result W (loop_v0 remaining step prompt history w) = Ret step_limit_message
    /\ cx_step W (loop_v0 remaining step prompt history w) = step + remaining.
Proof.
  intros Hm Hb. induction remaining as [|k IH]; intros step prompt history w.
  - simpl. split; [done|lia].
  - cbn [Agent.loop_v0].
    destruct (Hm prompt history BASH_TOOLS w) as (Hcalls & Htext & _ & Hin).
    destruct (chat_with_tools prompt history BASH_TOOLS w) as [response w1].
    cbn [fst] in *.
    destruct (join_values nl (assistant_text (resp_content response)))
      as [full_text|e]; [|done].
    destruct (tool_calls (resp_content response)) as [|tc calls] eqn:E; [done|].
    destruct (run_tools_v0_returns (tc :: calls) Hb Hin [] w1) as (outs & w2 & ->).
    match goal with
    | |- context [Agent.loop_v0 _ _ _ _ _ k ?st ?pr ?h ?w] =>
        destruct (IH st pr h w) as [-> ->]
    end.
    split; [done|lia].
Qed.

Lemma process_turn_v1_done (blocks : list block) (sr full_text : string)
      (history : list message) (w : W) :
  join_values nl (assistant_text blocks) = Ret full_text ->
  tool_calls blocks = [] ->
  process_turn_v1 {| resp_content := blocks; stop_reason := sr |} history w
  = Done W (history ++ [Message "assistant" full_text]).
Proof. intros Hj Hc. unfold Agent.process_turn_v1. simpl. by rewrite Hj, Hc. Qed.

Lemma process_turn_v4_done (blocks : list block) (sr full_text : string)
      (history : list message) (w : W) :
  join_values nl (assistant_text blocks) = Ret full_text ->
  tool_calls blocks = [] ->
  process_turn_v4 {| resp_content := blocks; stop_reason := sr |} history w
  = Done W (history ++ [Message "assistant" full_text]).
Proof. intros Hj Hc. unfold Agent.process_turn_v4. simpl. by rewrite Hj, Hc. Qed.

Lemma process_turn_v1_dispatch (blocks : list block) (sr full_text : string)
      (history : list message) (w : W) :
  join_values nl (assistant_text blocks) = Ret full_text ->
  tool_calls blocks <> [] ->
  process_turn_v1 {| resp_content := blocks; stop_reason := sr |} history w
  = match run_tools_v1 (tool_calls blocks) [] w with
    | (Ret results, w') =>
        Continue W (history ++ [Message "assistant" full_text; results_message results]) w'
    | (Raise e, w') => Failed W e history w'
    end.
Proof.
  intros Hj Hc. unfold Agent.process_turn_v1. simpl. rewrite Hj.
  by destruct (tool_calls blocks).
Qed.

Lemma process_turn_v4_dispatch (blocks : list block) (sr full_text : string)
      (history : list message) (w : W) :
  join_values nl (assistant_text blocks) = Ret full_text ->
  tool_calls blocks <> [] ->
  process_turn_v4 {| resp_content := blocks; stop_reason := sr |} history w
  = match run_tools_v4 (tool_calls blocks) [] w with
    | (Ret results, w') =>
        Continue W (history ++ [Message "assistant" full_text; results_message results]) w'
    | (Raise e, w') => Failed W e history w'
    end.
Proof.
  intros Hj Hc. unfold Agent.process_turn_v4. simpl. rewrite Hj.
  by destruct (tool_calls blocks).
Qed.

(** The loops act on the outcome of the iteration: [Done] returns the
    history at once, [Continue] goes to the next iteration. *)
Lemma loop_v1_step (remaining step : nat) (prompt : string)
      (history : list message) (w : W) :
  loop_v1 (S remaining) step prompt history w
  = match process_turn_v1 (fst (chat_with_tools prompt history BASIC_TOOLS w))
            history (snd (chat_with_tools prompt history BASIC_TOOLS w)) with
    | Done _ h =>
        LoopExit W (Ret (Some h)) h (step + 1)
                 (snd (chat_with_tools prompt history BASIC_TOOLS w))
    | Continue _ h w2 => loop_v1 remaining (step + 1) prompt h w2
    | Failed _ e h w2 => LoopExit W (Raise e) h (step + 1) w2
    end.
Proof.
  cbn [Agent.loop_v1].
  by destruct (chat_with_tools prompt history BASIC_TOOLS w) as [response w1].
Qed.

Lemma loop_v4_step (remaining step : nat) (prompt : string)
      (history : list message) (w : W) :
  loop_v4 (S remaining) step prompt history w
  = match process_turn_v4 (fst (chat_with_tools prompt history ALL_TOOLS w))
            history (snd (chat_with_tools prompt history ALL_TOOLS w)) with
    | Done _ h =>
        LoopExit W (Ret (Some h)) h (step + 1)
                 (snd (chat_with_tools prompt history ALL_TOOLS w))
    | Continue _ h w2 => loop_v4 remaining (step + 1) prompt h w2
    | Failed _ e h w2 => LoopExit W (Raise e) h (step + 1) w2
    end.
Proof.
  cbn [Agent.loop_v4].
  by destruct (chat_with_tools prompt history ALL_TOOLS w) as [response w1].
Qed.

(** The loops only append to the history: what was stored before a call
    is still there, in place, afterwards. *)
Lemma process_turn_v1_grows (response : Response) (history : list message) (w : W) :
  match process_turn_v1 response history w with
  | Done _ h | Continue _ h _ | Failed _ _ h _ => history `prefix_of` h
  end.
Proof.
  unfold Agent.process_turn_v1.
  destruct (join_values nl (assistant_text (resp_content response))); [|done].
  destruct (tool_calls (resp_content response)) as [|tc calls];
    [by apply prefix_app_r|].
  destruct (run_tools_v1 (tc :: calls) [] w) as [[results|e] w']; [|done].
  by apply prefix_app_r.
Qed.

Lemma process_turn_v4_grows (response : Response) (history : list message) (w : W) :
  match process_turn_v4 response history w with
  | Done _ h | Continue _ h _ | Failed _ _ h _ => history `prefix_of` h
  end.
Proof.
  unfold Agent.process_turn_v4.
  destruct (join_values nl (assistant_text (resp_content response))); [|done].
  destruct (tool_calls (resp_content response)) as [|tc calls];
    [by apply prefix_app_r|].
  destruct (run_tools_v4 (tc :: calls) [] w) as [[results|e] w']; [|done].
  by apply prefix_app_r.
Qed.

Lemma loop_v1_history_grows (remaining : nat) :
  forall step prompt history w,
    history `prefix_of` lx_history W (loop_v1 remaining step prompt history w).
Proof.
  induction remaining as [|k IH]; intros step prompt history w; [done|].
  rewrite loop_v1_step.
  pose proof (process_turn_v1_grows
                (fst (chat_with_tools prompt history BASIC_TOOLS w)) history
                (snd (chat_with_tools prompt history BASIC_TOOLS w))) as Hg.
  destruct (process_turn_v1 _ history _) as [h|h w2|e h w2]; [done| |done].
  etrans; [exact Hg|apply IH].
Qed.

Lemma loop_v4_history_grows (remaining : nat) :
  forall step prompt history w,
    history `prefix_of` lx_history W (loop_v4 remaining step prompt history w).
Proof.
  induction remaining as [|k IH]; intros step prompt history w; [done|].
  rewrite loop_v4_step.
  pose proof (process_turn_v4_grows
                (fst (chat_with_tools prompt history ALL_TOOLS w)) history
                (snd (chat_with_tools prompt history ALL_TOOLS w))) as Hg.
  destruct (process_turn_v4 _ history _) as [h|h w2|e h w2]; [done| |done].
  etrans; [exact Hg|apply IH].
Qed.

Lemma run_tools_v1_dispatch (calls : list tool_call) :
  forall results w,
    run_tools_v1 calls results w
    = match dispatch_all call_v1 calls w with
      | (Ret outputs, w') => (Ret (results ++ map (result_line py_str) outputs), w')
      | (Raise e, w') => (Raise e, w')
      end.
Proof.
  induction calls as [|tc calls IH]; intros results w;
    cbn [Agent.run_tools_v1 AgentSpec.dispatch_all]; [by rewrite app_nil_r|].
  unfold AgentSpec.call_v1 at 1.
  destruct (execute_tool (tc_name tc) (tc_input tc) w) as [[output|e] w']; [|done].
  rewrite IH.
  destruct (dispatch_all call_v1 calls w') as [[outputs|e] w'']; [|done].
  by rewrite <- app_assoc.
Qed.

Lemma run_tools_v4_dispatch (calls : list tool_call) :
  forall results w,
    run_tools_v4 calls results w
    = match dispatch_all call_v4 calls w with
      | (Ret outputs, w') => (Ret (results ++ map (result_line py_str) outputs), w')
      | (Raise e, w') => (Raise e, w')
      end.
Proof.
  induction calls as [|tc calls IH]; intros results w;
    cbn [Agent.run_tools_v4 AgentSpec.dispatch_all]; [by rewrite app_nil_r|].
  unfold AgentSpec.call_v4 at 1.
  destruct (log_call_v4 tc) as [[]|e]; [|done].
  destruct (execute_tool (tc_name tc) (tc_input tc) w) as [[output|e] w']; [|done].
  rewrite IH.
  destruct (dispatch_all call_v4 calls w') as [[outputs|e] w'']; [|done].
  by rewrite <- app_assoc.
Qed.


(** C7 on the code.  When the model asks for tools at every call and no
    tool raises, [agent_loop] (v1 and v4) makes exactly [max_steps]
    iterations and then ends without a [return]: the caller gets [None],
    not a message.  The loop of v0 ([chat]) makes exactly [max_steps]
    iterations too and does return the fixed step-limit message. *)
Theorem C7_step_limit_returns_none (SYSTEM prompt : string)
        (history : list message) (max_steps : nat) (w : W) :
  keeps_calling -> tools_never_raise -> bash_never_raises ->
  (lx_result W (agent_loop_v1 SYSTEM prompt history max_steps w) = Ret None
   /\ lx_step W (agent_loop_v1 SYSTEM prompt history max_steps w) = max_steps)
  /\ (lx_result W (agent_loop_v4 SYSTEM prompt history max_steps w) = Ret None
      /\ lx_step W (agent_loop_v4 SYSTEM prompt history max_steps w) = max_steps)
  /\ (cx_result W (chat_v0 SYSTEM prompt history max_steps w) = Ret step_limit_message
      /\ cx_step W (chat_v0 SYSTEM prompt history max_steps w) = max_steps).
Proof.
  intros Hm Hex Hb.
  unfold Agent.agent_loop_v1, Agent.agent_loop_v4, Agent.chat_v0.
  split; [|split].
  - apply (loop_v1_exhausts Hm Hex max_steps 0).
  - apply (loop_v4_exhausts Hm Hex max_steps 0).
  - apply (loop_v0_exhausts Hm Hb max_steps 0).
Qed.

End AgentProofs.

Section AgentExamples.
Import PyStr PyDict Json Adapter Tools Agent AgentSpec.

#[local] Existing Instance example_interpreter.

Lemma constant_llm_turn (reply : string) (client : LLMChatAdapter) (prompt : string)
      (messages : list message) (tools : list string) (w : nat) :
  chat_with_tools nat (constant_llm reply) client prompt messages tools w
  = (normalize true reply, S w).
Proof. reflexivity. Qed.

Lemma bash_call_turn :
  normalize true bash_call_reply
  = {| resp_content :=
         [ToolUseBlock (PStr "1") (PStr "bash") (PDict [("command", PStr "echo hi")])];
       stop_reason := "tool_use" |}.
Proof. vm_compute. reflexivity. Qed.

Lemma constant_llm_keeps_calling (client : LLMChatAdapter) :
  keeps_calling nat (constant_llm bash_call_reply) client.
Proof.
  intros prompt messages tools w. rewrite constant_llm_turn, bash_call_turn.
  cbn [fst resp_content]. split; [done|]. split; [done|].
  split; repeat constructor.
Qed.

Lemma constant_tool_never_raises {W : Type} (output : string) :
  tools_never_raise W (constant_tool output).
Proof. by intros name input w. Qed.



Lemma constant_bash_never_raises {W : Type} (output : string) :
  bash_never_raises W (fun _ w => (Ret output, w)).
Proof. by intros cmd w. Qed.

Lemma C7_step_limit_returns_none_witness :
  lx_result nat
    (agent_loop_v1 nat (constant_llm bash_call_reply) (constant_tool "hi") show_value
       new_adapter "You are a coding agent." EmptyString [Message "user" "say hi"] 3 0)
  = Ret None
  /\ lx_step nat
       (agent_loop_v1 nat (constant_llm bash_call_reply) (constant_tool "hi") show_value
          new_adapter "You are a coding agent." EmptyString [Message "user" "say hi"] 3 0)
     = 3.
Proof.
  exact (proj1 (C7_step_limit_returns_none (constant_llm bash_call_reply)
                  (constant_tool "hi") show_value new_adapter
                  (fun _ w => (Ret "hi", w))
                  "You are a coding agent." EmptyString [Message "user" "say hi"] 3 0
                  (constant_llm_keeps_calling new_adapter)
                  (constant_tool_never_raises "hi")
                  (constant_bash_never_raises "hi"))).
Defined.

(** The same stub under v0: after three iterations [chat] returns the
    step-limit message. *)
Example chat_v0_step_limit :
  cx_result nat
    (chat_v0 nat (constant_llm bash_call_reply) show_value new_adapter
       (fun _ w => (Ret "hi", w))
       "You are a CLI agent." "say hi" [] 3 0)
  = Ret "达到最大执行步数限制，停止执行。".
Proof. vm_compute. reflexivity. Qed.

(** The scenario of the specification: the model first asks for [bash]
    with [echo hi], then answers [done]; the loop makes exactly two model
    calls and returns the history ending with [done]. *)
Example agent_loop_two_calls :
  agent_loop_v1 (list string) scripted_llm (constant_tool "hi") show_value new_adapter
    "You are a coding agent." EmptyString [Message "user" "say hi"] 10
    [bash_call_reply; "done"]
  = LoopExit (list string)
      (Ret (Some (example_history ++
                  [Message "assistant" EmptyString;
                   results_message ["工具 bash, 输入: <dict>, 返回: hi"];
                   Message "assistant" "done"])))
      (example_history ++
       [Message "assistant" EmptyString;
        results_message ["工具 bash, 输入: <dict>, 返回: hi"];
        Message "assistant" "done"])
      2 [].
Proof. vm_compute. reflexivity. Qed.

End AgentExamples.

(** ** The subagent *)

Section SubagentProofs.
Import PyStr PyDict Json Adapter Tools Agent AgentSpec.

Context {interp : Interpreter}.

Context {W : Type}.
Variable llm_invoke : list lc_message -> list string -> W -> outcome string * W.
Variable execute_tool : pyval -> pyval -> W -> outcome string * W.
Variable py_str : pyval -> string.
Variable client : LLMChatAdapter.
Variable WORKDIR : string.
Variable platform : string.

Abbreviation recording := (AgentSpec.recording W llm_invoke).
Abbreviation unrecorded := (AgentSpec.unrecorded W execute_tool).
Abbreviation request_for :=
  (fun messages : list message => _build_langchain_messages client messages EmptyString).
Abbreviation sub_loop := (Agent.sub_loop W llm_invoke execute_tool py_str client).
Abbreviation recorded_loop :=
  (Agent.sub_loop (W * list exchange) recording unrecorded py_str client).
Abbreviation run_tools_sub := (Agent.run_tools_sub W execute_tool py_str).
Abbreviation sub_system := (Agent.sub_system WORKDIR platform).
Abbreviation run_subagent_task :=
  (Agent.run_subagent_task W llm_invoke execute_tool py_str client WORKDIR platform).
Abbreviation recorded_task :=
  (Agent.run_subagent_task (W * list exchange) recording unrecorded py_str client
                           WORKDIR platform).
Abbreviation task_tool :=
  (Agent.task_tool W llm_invoke execute_tool py_str client WORKDIR platform).
Abbreviation loop_record := (AgentSpec.loop_record W execute_tool client py_str).

(** A model call with and without the record. *)
Lemma chat_recorded (prompt : string) (messages : list message) (tools : list string)
      (w : W) (log : list exchange) :
  let request := _build_langchain_messages client messages prompt in
  let reply := fst (llm_invoke request tools w) in
  let w1 := snd (llm_invoke request tools w) in
  Agent.chat_with_tools (W * list exchange) recording client prompt messages tools (w, log)
  = (response_of reply, (w1, log ++ [Exchange request tools reply]))
  /\ Agent.chat_with_tools W llm_invoke client prompt messages tools w
     = (response_of reply, w1).
Proof.
  intros request reply w1. subst request reply w1.
  unfold Agent.chat_with_tools, Agent.chat, AgentSpec.recording. cbn [fst snd].
  by destruct (llm_invoke _ tools w) as [[content|e] w1].
Qed.

(** The tools of a turn with and without the record. *)
Lemma run_tools_sub_unrecorded (agent_type : string) (calls : list tool_call) :
  forall results w log,
    Agent.run_tools_sub (W * list exchange) unrecorded py_str agent_type calls results
                        (w, log)
    = (fst (run_tools_sub agent_type calls results w),
       (snd (run_tools_sub agent_type calls results w), log)).
Proof.
  induction calls as [|tc calls IH]; intros results w log; [done|].
  cbn [Agent.run_tools_sub]. unfold AgentSpec.unrecorded at 1. cbn [fst snd].
  destruct (execute_tool (tc_name tc) (tc_input tc) w) as [[output|e] w']; [|done].
  apply IH.
Qed.

Lemma sub_loop_recorded (agent_type : string) (sub_tools : list string) :
  forall remaining sub_messages last w log,
    let run := recorded_loop remaining agent_type sub_tools sub_messages last (w, log) in
    sub_loop remaining agent_type sub_tools sub_messages last w
    = (fst run, fst (snd run))
    /\ exists new,
         snd (snd run) = log ++ new
         /\ (0 < remaining ->
             exists first rest,
               new = first :: rest /\ ex_request first = request_for sub_messages)
         /\ loop_record sub_tools agent_type sub_messages last (fst run) new.
Proof.
  induction remaining as [|k IH]; intros sub_messages last w log run; subst run.
  { cbn. split; [done|]. exists []. rewrite app_nil_r. split; [done|].
    split; [lia|]. split; [constructor|by left]. }
  cbn [Agent.sub_loop].
  destruct (chat_recorded EmptyString sub_messages sub_tools w log) as [-> ->].
  set (reply := fst (llm_invoke (request_for sub_messages) sub_tools w)).
  set (w1 := snd (llm_invoke (request_for sub_messages) sub_tools w)).
  set (ex1 := Exchange (request_for sub_messages) sub_tools reply).
  assert (Hown1 : ex_tools ex1 = sub_tools
                  /\ exists extra,
                       ex_request ex1 = request_for (sub_messages ++ extra)
                       /\ Forall own_message extra).
  { split; [done|]. exists []. by rewrite app_nil_r. }
  destruct (join_values nl (assistant_text (resp_content (response_of reply))))
    as [full_text|e] eqn:Hjoin.
  2:{ cbn [fst snd]. split; [done|]. exists [ex1]. split; [done|].
      split; [by eexists _, _|]. split; [by constructor|].
      exists ex1. split; [done|]. by left. }
  destruct (tool_calls (resp_content (response_of reply))) as [|tc calls] eqn:Hcalls.
  { cbn [fst snd]. split; [done|]. exists [ex1]. split; [done|].
    split; [by eexists _, _|]. split; [by constructor|].
    right. by exists ex1, full_text. }
  rewrite run_tools_sub_unrecorded.
  destruct (run_tools_sub agent_type (tc :: calls) [] w1) as [[results|e] w2] eqn:Htools;
    cbn [fst snd].
  2:{ split; [done|]. exists [ex1]. split; [done|].
      split; [by eexists _, _|]. split; [by constructor|].
      exists ex1. split; [done|]. right. exists w1.
      change (ex_reply ex1) with reply. by rewrite Hcalls, Htools. }
  specialize (IH (sub_messages ++ [Message "assistant" full_text;
                                   sub_results_message results])
                 (Some (response_of reply, full_text)) w2 (log ++ [ex1])).
  cbv zeta in IH. destruct IH as (Herase & new & Hlog & _ & Hall & Hlast).
  split; [done|]. exists (ex1 :: new).
  split; [by rewrite Hlog, <- app_assoc|]. split; [by eexists _, _|].
  split.
  - constructor; [done|]. eapply Forall_impl; [exact Hall|].
    intros ex (Ht & extra & Hreq & Hextra). split; [done|].
    exists ([Message "assistant" full_text; sub_results_message results] ++ extra).
    split; [by rewrite app_assoc|].
    constructor; [left; by eexists|]. constructor; [right; by eexists|]. done.
  - destruct (fst (recorded_loop k agent_type sub_tools _ _ (w2, log ++ [ex1])))
      as [[sub_messages' last']|e].
    + right. destruct Hlast as [[-> ->]|(final & text & Hf & -> & Hj)].
      * by exists ex1, full_text.
      * exists final, text. split; [|done]. by rewrite last_cons, Hf.
    + destruct Hlast as (final & Hf & Hwhy). exists final.
      split; [|done]. by rewrite last_cons, Hf.
Qed.


End SubagentProofs.

Section SubagentExample.
Import PyStr PyDict Json Adapter Tools Agent AgentSpec.

#[local] Existing Instance example_interpreter.


(** The same task through the [Task] branch: the parent receives the
    answer only; an agent type that is not registered gives the error
    text and the backend is not called. *)
Example subagent_returns_final_text :
  task_tool (list string) scripted_llm (constant_tool "a.py b.py") show_value
    new_adapter "/work" "linux" "list files" "Which files are here?" "explore"
    [bash_call_reply; "Two Python files."]
  = ("Two Python files.", [])
  /\ task_tool (list string) scripted_llm (constant_tool "a.py b.py") show_value
       new_adapter "/work" "linux" "list files" "Which files are here?" "review"
       [bash_call_reply; "Two Python files."]
     = ("Error: Unknown agent type 'review'", [bash_call_reply; "Two Python files."]).
Proof. split; vm_compute; reflexivity. Qed.

End SubagentExample.

(** ** More on the normalisation of a reply *)

Section NormalizeShape.
Import PyStr PyDict Json Adapter Agent.

Context {interp : Interpreter}.

(** X1.  Whatever the backend returned, the response built by
    [chat_with_tools] has one of the two stop reasons; with [end_turn]
    its content is exactly one text block, holding the raw reply (or the
    error text when the call failed); and a response that holds a
    tool_use block always has the stop reason [tool_use]. *)
Theorem X1_normalize_shape (success : bool) (content : string) :
  let r := normalize success content in
  (stop_reason r = "end_turn" \/ stop_reason r = "tool_use")
  /\ (stop_reason r = "end_turn" ->
      resp_content r
      = [TextBlock (PStr (if success then content else "Error: " +:+ content))])
  /\ (tool_calls (resp_content r) <> [] -> stop_reason r = "tool_use").
Proof.
  unfold normalize. destruct success; [|simpl; tauto].
  destruct (json_loads content) as [data|]; [|simpl; tauto].
  unfold interpret, text_fallback.
  destruct data as [| | | | |l|kvs]; try (simpl; tauto).
  - destruct l as [|[| | | | | |kv0] rest]; try (simpl; tauto).
    destruct (dhas "function" kv0 || dhas "type" kv0); [|simpl; tauto].
    destruct (convert_calls _ []) as [blocks raised]. simpl.
    split; [tauto|]. split; [done|done].
  - destruct (dget "tool_calls" kvs) as [[| | | | |tool_list|]|]; try (simpl; tauto).
    destruct (convert_calls tool_list _) as [blocks raised]. simpl.
    split; [tauto|]. split; [done|done].
Qed.

End NormalizeShape.

(** ** More on the request built by the adapter *)

Section RequestEdges.
Import PyStr Adapter RequestSpec.

(** X2.  The request for every value of [keep_messages_count].  With an
    empty history the request is the prompt alone (after the adapter's
    system message); with a non-empty history the prompt is not sent at
    all.  A positive count [k] keeps the last [k] entries; the count 0
    keeps the whole history; a negative count [k] drops the first [-k]
    entries. *)
Theorem X2_request_for_every_count (self : LLMChatAdapter)
        (history : list message) (prompt : string) :
  let k := keep_messages_count self in
  let request := _build_langchain_messages self history prompt in
  (history = [] -> request = system_part self ++ [HumanMessage prompt])
  /\ (history <> [] -> (0 < k)%Z ->
      request = system_part self
                  ++ map to_langchain (drop (length history - Z.to_nat k) history))
  /\ (history <> [] -> k = 0%Z ->
      request = system_part self ++ map to_langchain history)
  /\ (history <> [] -> (k < 0)%Z ->
      request = system_part self ++ map to_langchain (drop (Z.to_nat (- k)) history)).
Proof.
  intros k request. subst k request.
  unfold _build_langchain_messages. fold (system_part self).
  destruct history as [|m0 rest]; [repeat split; done|].
  set (history := m0 :: rest).
  split; [done|]. split; [|split].
  - intros _ Hk.
    destruct (keep_messages_count self <? Z.of_nat (length history))%Z eqn:E.
    + apply Z.ltb_lt in E. by rewrite slice_from_last by lia.
    + apply Z.ltb_ge in E.
      replace (length history - Z.to_nat (keep_messages_count self)) with 0 by lia.
      done.
  - intros _ ->. by destruct (0 <? Z.of_nat (length history))%Z.
  - intros _ Hk.
    destruct (keep_messages_count self <? Z.of_nat (length history))%Z eqn:E;
      [|apply Z.ltb_ge in E; lia].
    unfold slice_from.
    destruct (- keep_messages_count self <? 0)%Z eqn:E2; [apply Z.ltb_lt in E2; lia|].
    do 2 f_equal.
    destruct (Z.le_ge_cases (- keep_messages_count self) (Z.of_nat (length history))).
    + by rewrite Z.min_l.
    + rewrite Z.min_r by done. rewrite Nat2Z.id.
      rewrite !drop_ge; [done|lia|lia].
Qed.

End RequestEdges.

(** ** More on the agent loops *)

Section LoopHistory.
Import PyStr PyDict Json Adapter Tools Agent LoopSpec.

Context {interp : Interpreter}.

Context {W : Type}.
Variable llm_invoke : list lc_message -> list string -> W -> outcome string * W.
Variable execute_tool : pyval -> pyval -> W -> outcome string * W.
Variable py_str : pyval -> string.
Variable client : LLMChatAdapter.
Variable run_bash : pyval -> W -> outcome string * W.

Abbreviation chat_with_tools := (chat_with_tools W llm_invoke client).
Abbreviation process_turn_v1 := (process_turn_v1 W execute_tool py_str).
Abbreviation process_turn_v4 := (process_turn_v4 W execute_tool py_str).
Abbreviation run_tools_v1 := (run_tools_v1 W execute_tool py_str).
Abbreviation run_tools_v4 := (run_tools_v4 W execute_tool py_str).
Abbreviation loop_v1 := (loop_v1 W llm_invoke execute_tool py_str client).
Abbreviation loop_v4 := (loop_v4 W llm_invoke execute_tool py_str client).
Abbreviation agent_loop_v1 := (agent_loop_v1 W llm_invoke execute_tool py_str client).
Abbreviation agent_loop_v4 := (agent_loop_v4 W llm_invoke execute_tool py_str client).
Abbreviation run_tools_v0 := (run_tools_v0 W py_str run_bash).
Abbreviation loop_v0 := (loop_v0 W llm_invoke py_str client run_bash).
Abbreviation chat_v0 := (chat_v0 W llm_invoke py_str client run_bash).

Lemma adds_nothing (history : list message) (n : nat) : adds_at_most n history history.
Proof. exists []. rewrite app_nil_r. repeat split; [constructor|simpl; lia]. Qed.

Lemma adds_trans (n m : nat) (h1 h2 h3 : list message) :
  adds_at_most n h1 h2 -> adds_at_most m h2 h3 -> adds_at_most (n + m) h1 h3.
Proof.
  intros (a1 & -> & F1 & L1) (a2 & -> & F2 & L2).
  exists (a1 ++ a2). rewrite app_assoc. split; [done|].
  split; [by apply Forall_app_2|]. rewrite length_app. lia.
Qed.

Lemma adds_weaken (n m : nat) (h1 h2 : list message) :
  n <= m -> adds_at_most n h1 h2 -> adds_at_most m h1 h2.
Proof. intros Hle (a & -> & F & L). exists a. repeat split; [done|lia]. Qed.

Lemma adds_one (history : list message) (m : message) :
  loop_message m -> adds_at_most 1 history (history ++ [m]).
Proof.
  intros Hm. exists [m]. split; [done|]. split; [|simpl; lia].
  constructor; [done|]. constructor.
Qed.

Lemma adds_two (history : list message) (m1 m2 : message) :
  loop_message m1 -> loop_message m2 -> adds_at_most 2 history (history ++ [m1; m2]).
Proof.
  intros H1 H2. exists [m1; m2]. split; [done|]. split; [|simpl; lia].
  constructor; [done|]. constructor; [done|]. constructor.
Qed.

Lemma process_turn_v1_appends (response : Response) (history : list message) (w : W) :
  match process_turn_v1 response history w with
  | Done _ h | Continue _ h _ | Failed _ _ h _ => adds_at_most 2 history h
  end.
Proof.
  unfold Agent.process_turn_v1.
  destruct (join_values nl (assistant_text (resp_content response)));
    [|apply adds_nothing].
  destruct (tool_calls (resp_content response)) as [|tc calls].
  - apply (adds_weaken 1); [lia|]. apply adds_one. by left.
  - destruct (run_tools_v1 (tc :: calls) [] w) as [[results|e] w'];
      [|apply adds_nothing].
    apply adds_two; [by left|by right].
Qed.

Lemma process_turn_v4_appends (response : Response) (history : list message) (w : W) :
  match process_turn_v4 response history w with
  | Done _ h | Continue _ h _ | Failed _ _ h _ => adds_at_most 2 history h
  end.
Proof.
  unfold Agent.process_turn_v4.
  destruct (join_values nl (assistant_text (resp_content response)));
    [|apply adds_nothing].
  destruct (tool_calls (resp_content response)) as [|tc calls].
  - apply (adds_weaken 1); [lia|]. apply adds_one. by left.
  - destruct (run_tools_v4 (tc :: calls) [] w) as [[results|e] w'];
      [|apply adds_nothing].
    apply adds_two; [by left|by right].
Qed.

Lemma loop_v1_appends (remaining : nat) :
  forall step prompt history w,
    let out := loop_v1 remaining step prompt history w in
    step <= lx_step W out <= step + remaining
    /\ adds_at_most (2 * (lx_step W out - step)) history (lx_history W out).
Proof.
  induction remaining as [|k IH]; intros step prompt history w out; subst out.
  - simpl. split; [lia|apply adds_nothing].
  - rewrite loop_v1_step.
    pose proof (process_turn_v1_appends
                  (fst (chat_with_tools prompt history BASIC_TOOLS w)) history
                  (snd (chat_with_tools prompt history BASIC_TOOLS w))) as Hg.
    destruct (Agent.process_turn_v1 _ _ _ _ history _) as [h|h w2|e h w2]; simpl.
    + split; [lia|]. eapply adds_weaken; [|exact Hg]. lia.
    + destruct (IH (step + 1) prompt h w2) as [Hs Ha]. split; [lia|].
      eapply adds_weaken; [|exact (adds_trans _ _ _ _ _ Hg Ha)]. lia.
    + split; [lia|]. eapply adds_weaken; [|exact Hg]. lia.
Qed.

Lemma loop_v4_appends (remaining : nat) :
  forall step prompt history w,
    let out := loop_v4 remaining step prompt history w in
    step <= lx_step W out <= step + remaining
    /\ adds_at_most (2 * (lx_step W out - step)) history (lx_history W out).
Proof.
  induction remaining as [|k IH]; intros step prompt history w out; subst out.
  - simpl. split; [lia|apply adds_nothing].
  - rewrite loop_v4_step.
    pose proof (process_turn_v4_appends
                  (fst (chat_with_tools prompt history ALL_TOOLS w)) history
                  (snd (chat_with_tools prompt history ALL_TOOLS w))) as Hg.
    destruct (Agent.process_turn_v4 _ _ _ _ history _) as [h|h w2|e h w2]; simpl.
    + split; [lia|]. eapply adds_weaken; [|exact Hg]. lia.
    + destruct (IH (step + 1) prompt h w2) as [Hs Ha]. split; [lia|].
      eapply adds_weaken; [|exact (adds_trans _ _ _ _ _ Hg Ha)]. lia.
    + split; [lia|]. eapply adds_weaken; [|exact Hg]. lia.
Qed.

Lemma loop_v0_appends (remaining : nat) :
  forall step prompt history w,
    let out := loop_v0 remaining step prompt history w in
    step <= cx_step W out <= step + remaining
    /\ adds_at_most (2 * (cx_step W out - step)) history (cx_history W out).
Proof.
  induction remaining as [|k IH]; intros step prompt history w out; subst out.
  - simpl. split; [lia|apply adds_nothing].
  - cbn [Agent.loop_v0].
    destruct (chat_with_tools prompt history BASH_TOOLS w) as [response w1].
    destruct (join_values nl (assistant_text (resp_content response)))
      as [full_text|e]; [|simpl; split; [lia|apply adds_nothing]].
    set (history1 :=
           if negb (String.eqb full_text EmptyString)
           then history ++ [Message "assistant" full_text]
           else match tool_calls (resp_content response) with
                | [] => history
                | _ => history ++ [Message "assistant" "(Executing tools...)"]
                end).
    assert (adds_at_most 1 history history1) as H1.
    { subst history1. destruct (negb (String.eqb full_text EmptyString)).
      - apply adds_one. by left.
      - destruct (tool_calls (resp_content response));
          [apply adds_nothing|apply adds_one; by left]. }
    destruct (tool_calls (resp_content response)) as [|tc calls] eqn:Ec.
    + destruct (String.eqb (stop_reason response) "end_turn"); simpl;
        (split; [lia|]; eapply adds_weaken; [|exact H1]; lia).
    + destruct (run_tools_v0 (tc :: calls) [] w1) as [[outs|e] w2]; simpl.
      * match goal with
        | |- context [Agent.loop_v0 _ _ _ _ _ k ?st ?pr ?h ?w] =>
            destruct (IH st pr h w) as [Hs Ha];
            assert (adds_at_most 1 history1 h) as H2
        end.
        { apply adds_one. destruct outs; by right. }
        split; [lia|].
        eapply adds_weaken; [|exact (adds_trans _ _ _ _ _ (adds_trans _ _ _ _ _ H1 H2) Ha)].
        lia.
      * split; [lia|]. eapply adds_weaken; [|exact H1]. lia.
Qed.

(** X3.  The loops only append.  Whatever the model and the tools do,
    the history a loop leaves behind is the history it started from (with
    the system prompt in front, and for v0 the user's prompt after it)
    followed by assistant and user messages, at most two per iteration,
    and the number of iterations (model calls) never exceeds
    [max_steps]. *)
Theorem X3_loops_only_append (SYSTEM prompt : string) (history : list message)
        (max_steps : nat) (w : W) :
  let out1 := agent_loop_v1 SYSTEM prompt history max_steps w in
  let out4 := agent_loop_v4 SYSTEM prompt history max_steps w in
  let out0 := chat_v0 SYSTEM prompt history max_steps w in
  (lx_step W out1 <= max_steps
   /\ exists added,
        lx_history W out1 = with_system SYSTEM history ++ added
        /\ Forall loop_message added /\ length added <= 2 * lx_step W out1)
  /\ (lx_step W out4 <= max_steps
      /\ exists added,
           lx_history W out4 = with_system SYSTEM history ++ added
           /\ Forall loop_message added /\ length added <= 2 * lx_step W out4)
  /\ (cx_step W out0 <= max_steps
      /\ exists added,
           cx_history W out0
           = with_system SYSTEM history ++ Message "user" prompt :: added
           /\ Forall loop_message added /\ length added <= 2 * cx_step W out0).
Proof.
  intros out1 out4 out0. subst out1 out4 out0.
  unfold Agent.agent_loop_v1, Agent.agent_loop_v4, Agent.chat_v0.
  split; [|split].
  - destruct (loop_v1_appends max_steps 0 prompt (with_system SYSTEM history) w)
      as [Hs (added & Ha & Hf & Hl)].
    split; [lia|]. exists added. repeat split; [done|done|lia].
  - destruct (loop_v4_appends max_steps 0 prompt (with_system SYSTEM history) w)
      as [Hs (added & Ha & Hf & Hl)].
    split; [lia|]. exists added. repeat split; [done|done|lia].
  - destruct (loop_v0_appends max_steps 0 prompt
                (with_system SYSTEM history ++ [Message "user" prompt]) w)
      as [Hs (added & Ha & Hf & Hl)].
    split; [lia|]. exists added. rewrite Ha, <- app_assoc.
    repeat split; [done|lia].
Qed.

Lemma system_count_app (h1 h2 : list message) :
  system_count (h1 ++ h2) = system_count h1 + system_count h2.
Proof. unfold system_count. by rewrite filter_app, length_app. Qed.

Lemma system_count_added (added : list message) :
  Forall loop_message added -> system_count added = 0.
Proof.
  unfold system_count. induction 1 as [|m l Hm Hl IH]; [done|].
  rewrite filter_cons. destruct (decide _) as [E|E]; [|done].
  exfalso. destruct Hm as [Hm|Hm]; rewrite Hm in E; done.
Qed.

Lemma has_system_count (history : list message) :
  has_system history = false -> system_count history = 0.
Proof.
  unfold system_count, has_system. induction history as [|m l IH]; [done|].
  simpl. intros H. apply orb_false_iff in H as [Hm Hl].
  rewrite filter_cons. destruct (decide _) as [E|E]; [congruence|by apply IH].
Qed.

Lemma has_system_app (h1 h2 : list message) :
  has_system h1 = true -> has_system (h1 ++ h2) = true.
Proof. unfold has_system. rewrite existsb_app. by intros ->. Qed.

Lemma has_system_with_system (SYSTEM : string) (history : list message) :
  has_system (with_system SYSTEM history) = true.
Proof. unfold with_system. by destruct (has_system history) eqn:E. Qed.

(** X4.  The system prompt is inserted once.  After [agent_loop] (v1 or
    v4) the history holds a system message, so a later call on the same
    history inserts nothing, whatever its prompt text; a history that
    already holds a system message anywhere is left as it is; and a
    history that held none holds exactly one afterwards, [SYSTEM] at
    position 0. *)
Theorem X4_system_prompt_once (SYSTEM SYSTEM' prompt : string)
        (history : list message) (max_steps : nat) (w : W) :
  let out1 := lx_history W (agent_loop_v1 SYSTEM prompt history max_steps w) in
  let out4 := lx_history W (agent_loop_v4 SYSTEM prompt history max_steps w) in
  (with_system SYSTEM' out1 = out1 /\ with_system SYSTEM' out4 = out4)
  /\ (has_system history = true -> with_system SYSTEM history = history)
  /\ (has_system history = false ->
      head out1 = Some (Message "system" SYSTEM) /\ system_count out1 = 1
      /\ head out4 = Some (Message "system" SYSTEM) /\ system_count out4 = 1).
Proof.
  intros out1 out4. subst out1 out4.
  unfold Agent.agent_loop_v1, Agent.agent_loop_v4.
  destruct (loop_v1_appends max_steps 0 prompt (with_system SYSTEM history) w)
    as [_ (a1 & -> & F1 & _)].
  destruct (loop_v4_appends max_steps 0 prompt (with_system SYSTEM history) w)
    as [_ (a4 & -> & F4 & _)].
  split; [|split].
  - split; unfold with_system at 1;
      by rewrite has_system_app by apply has_system_with_system.
  - unfold with_system. by intros ->.
  - intros Hn. unfold with_system. rewrite Hn.
    assert (system_count (Message "system" SYSTEM :: history) = 1) as Hc.
    { change (Message "system" SYSTEM :: history)
        with ([Message "system" SYSTEM] ++ history).
      rewrite system_count_app, (has_system_count history) by done. reflexivity. }
    rewrite !system_count_app, Hc, (system_count_added a1), (system_count_added a4)
      by done.
    done.
Qed.

(** X5.  A failure of the backend ends the run at once and is reported
    as assistant text.  When the model call of the first iteration
    raises [e], [agent_loop] (v1, v4) returns the history with one
    assistant message appended, the error text, after one iteration;
    [chat] of v0 returns that text.  No tool is run and no exception
    reaches the caller. *)
Theorem X5_backend_failure_ends_loop (SYSTEM prompt e : string)
        (history : list message) (max_steps : nat) (w w1 : W) :
  let start := with_system SYSTEM history in
  let report := Message "assistant" ("Error: LLM调用出错: " +:+ e) in
  (llm_invoke (_build_langchain_messages client start prompt) BASIC_TOOLS w
   = (Raise e, w1) ->
   agent_loop_v1 SYSTEM prompt history (S max_steps) w
   = LoopExit W (Ret (Some (start ++ [report]))) (start ++ [report]) 1 w1)
  /\ (llm_invoke (_build_langchain_messages client start prompt) ALL_TOOLS w
      = (Raise e, w1) ->
      agent_loop_v4 SYSTEM prompt history (S max_steps) w
      = LoopExit W (Ret (Some (start ++ [report]))) (start ++ [report]) 1 w1)
  /\ (llm_invoke (_build_langchain_messages client
                    (start ++ [Message "user" prompt]) prompt) BASH_TOOLS w
      = (Raise e, w1) ->
      chat_v0 SYSTEM prompt history (S max_steps) w
      = ChatExit W (Ret ("Error: LLM调用出错: " +:+ e))
                 (start ++ [Message "user" prompt; report]) 1 w1).
Proof.
  intros start report. subst start report.
  split; [|split]; intros H.
  - unfold Agent.agent_loop_v1. cbn [Agent.loop_v1].
    unfold Agent.chat_with_tools, Agent.chat. rewrite H. reflexivity.
  - unfold Agent.agent_loop_v4. cbn [Agent.loop_v4].
    unfold Agent.chat_with_tools, Agent.chat. rewrite H. reflexivity.
  - unfold Agent.chat_v0. cbn [Agent.loop_v0].
    unfold Agent.chat_with_tools, Agent.chat. rewrite H.
    cbn. rewrite <- app_assoc. reflexivity.
Qed.

End LoopHistory.

(** ** The tool sets of the subagents *)

Section ToolSets.
Import PyStr PyDict Tools.

(** X6.  The tools offered to a subagent.  For every agent type, known
    or not, the tools are base tools and neither [Task] nor [Skill] is
    among them; [explore] and [plan] get exactly [bash] and [read_file];
    every other type name, registered or not, gets all the base tools,
    [write_file] and [edit_file] included. *)
Theorem X6_subagent_tool_sets (agent_type : string) :
  let tools := get_tools_for_agent agent_type in
  tools ⊆ BASE_TOOLS
  /\ ("Task" ∉ tools) /\ ("Skill" ∉ tools)
  /\ (agent_type = "explore" \/ agent_type = "plan" -> tools = ["bash"; "read_file"])
  /\ (agent_type <> "explore" -> agent_type <> "plan" -> tools = BASE_TOOLS).
Proof.
  intros tools. subst tools. unfold get_tools_for_agent, AGENT_TYPES. simpl.
  assert (("Task" ∉ BASE_TOOLS) /\ ("Skill" ∉ BASE_TOOLS)) as [HT HS].
  { split; vm_compute; intros H;
      repeat (apply elem_of_cons in H as [H|H]; [discriminate H|]);
      by apply elem_of_nil in H. }
  assert (filter (fun t : string => t ∈ ["bash"; "read_file"]) BASE_TOOLS
          = ["bash"; "read_file"]) as Hf by reflexivity.
  assert (["bash"; "read_file"] ⊆ BASE_TOOLS) as Hsub.
  { rewrite <- Hf. intros x Hx. by apply list_elem_of_filter in Hx as [_ Hx]. }
  destruct (String.eqb_spec agent_type "explore") as [->|Hne]; simpl.
  { rewrite Hf. repeat split; try done.
    - intros H. apply HT. by apply Hsub.
    - intros H. apply HS. by apply Hsub. }
  destruct (String.eqb_spec agent_type "code") as [->|Hnc]; simpl.
  { repeat split; try done. by intros [?|?]. }
  destruct (String.eqb_spec agent_type "plan") as [->|Hnp]; simpl.
  { rewrite Hf. repeat split; try done.
    - intros H. apply HT. by apply Hsub.
    - intros H. apply HS. by apply Hsub. }
  repeat split; try done. by intros [?|?].
Qed.

End ToolSets.

(** ** The states of the todo manager *)

Section TodoInvariant.
Import PyStr Todo TodoSpec TodoState.

Lemma normalized_in_progress (l : list raw_item) :
  in_progress_count (map normalized l) = in_progress_total l.
Proof.
  unfold in_progress_count, in_progress_total.
  induction l as [|it l IH]; [done|]. simpl.
  rewrite !filter_cons. simpl.
  destruct (decide (String.eqb (norm_status it) "in_progress" = true)); simpl; lia.
Qed.

Lemma normalized_fields (l : list raw_item) :
  existsb rejected l = false ->
  Forall (fun it => content it <> EmptyString
                    /\ activeForm it <> EmptyString
                    /\ status_ok (status it) = true) (map normalized l).
Proof.
  induction l as [|it l IH]; simpl; [constructor|].
  intros H. apply orb_false_iff in H as [Hit Hl].
  constructor; [|by apply IH].
  unfold rejected in Hit.
  apply orb_false_iff in Hit as [Hit Ha].
  apply orb_false_iff in Hit as [Hc Hs].
  simpl. repeat split.
  - intros E. by rewrite E in Hc.
  - intros E. by rewrite E in Ha.
  - by destruct (status_ok (norm_status it)).
Qed.

Lemma update_preserves_well_formed (self : TodoManager) (l : list raw_item) :
  well_formed self -> well_formed (snd (update self l)).
Proof.
  intros Hwf.
  destruct (is_raise (fst (update self l))) eqn:E.
  - by rewrite update_failure_keeps_state.
  - assert (~ (existsb rejected l = true \/ 20 < length l \/ 1 < in_progress_total l))
      as Hok.
    { intros H. apply (update_fails_iff self) in H. congruence. }
    rewrite update_accepts;
      [|destruct (existsb rejected l); tauto|lia|lia].
    simpl. unfold well_formed. simpl.
    rewrite length_map, normalized_in_progress.
    split; [lia|]. split; [lia|].
    apply normalized_fields. destruct (existsb rejected l); tauto.
Qed.

(** X7.  The constraints hold in every state the manager can reach.
    Starting from the empty list, after any sequence of [update] calls
    (accepted or refused) the stored list has at most 20 entries, at most
    one of them in progress, and every entry has a non-empty content, a
    non-empty active form and one of the three status names. *)
Theorem X7_todo_constraints_always_hold (calls : list (list raw_item)) :
  well_formed (run_updates init calls).
Proof.
  unfold run_updates.
  assert (well_formed init) as H0.
  { unfold well_formed, init. simpl. repeat split; [lia|unfold in_progress_count; simpl; lia|constructor]. }
  revert H0. generalize init. induction calls as [|l calls IH]; intros self Hwf; [done|].
  simpl. apply IH. by apply update_preserves_well_formed.
Qed.

End TodoInvariant.

(** ** The loaded skills *)

Section SkillInvariant.
Import PyStr PyDict Tools Skills.

Lemma dset_elem_of {V} (k : string) (v : V) (d : list (string * V)) (kv : string * V) :
  kv ∈ dset k v d -> kv = (k, v) \/ kv ∈ d.
Proof.
  induction d as [|[k' v'] d IH]; simpl.
  - intros H. apply list_elem_of_singleton in H. by left.
  - destruct (String.eqb_spec k k') as [->|Hne]; intros H;
      apply elem_of_cons in H as [H|H].
    + by left.
    + right. by apply list_elem_of_further.
    + right. rewrite H. apply list_elem_of_here.
    + destruct (IH H) as [?|?]; [by left|right; by apply list_elem_of_further].
Qed.

Lemma dset_keys {V} (k : string) (v : V) (d : list (string * V)) :
  keys (dset k v d) = if dhas k d then keys d else keys d ++ [k].
Proof.
  unfold dhas, keys. induction d as [|[k' v'] d IH]; simpl; [done|].
  destruct (String.eqb_spec k k') as [->|Hne]; simpl; [done|].
  rewrite IH. by destruct (dget k d).
Qed.

Lemma dhas_false_not_key {V} (k : string) (d : list (string * V)) :
  dhas k d = false -> k ∉ keys d.
Proof.
  unfold dhas, keys. induction d as [|[k' v'] d IH]; simpl.
  - intros _. apply not_elem_of_nil.
  - destruct (String.eqb_spec k k') as [->|Hne]; [done|].
    intros H. apply not_elem_of_cons. split; [done|by apply IH].
Qed.

Lemma dset_keys_nodup {V} (k : string) (v : V) (d : list (string * V)) :
  NoDup (keys d) -> NoDup (keys (dset k v d)).
Proof.
  intros Hd. rewrite dset_keys. destruct (dhas k d) eqn:E; [done|].
  apply NoDup_app. split; [done|]. split.
  - intros x Hx Hk. apply list_elem_of_singleton in Hk as ->.
    by apply (dhas_false_not_key _ _ E).
  - apply NoDup_singleton.
Qed.

(** What [load_entries] keeps true of the table it fills. *)
Lemma load_entries_invariant (skills_dir : string) (entries : list dir_entry)
      (P : string -> skill -> Prop) :
  (forall e content sk,
      e ∈ entries -> e_is_dir e = true -> e_skill_md e = Some content ->
      parse_skill_md (skills_dir +:+ "/" +:+ e_name e) content = Some sk ->
      P (sk_name sk) sk) ->
  forall skills,
    NoDup (keys skills) ->
    (forall name sk, (name, sk) ∈ skills -> P name sk) ->
    NoDup (keys (load_entries skills_dir entries skills))
    /\ forall name sk,
         (name, sk) ∈ load_entries skills_dir entries skills -> P name sk.
Proof.
  induction entries as [|e rest IH]; intros HP skills Hnd Hin; simpl; [done|].
  assert (forall e' content sk,
             e' ∈ rest -> e_is_dir e' = true -> e_skill_md e' = Some content ->
             parse_skill_md (skills_dir +:+ "/" +:+ e_name e') content = Some sk ->
             P (sk_name sk) sk) as HP'.
  { intros e' content sk He'. apply HP. by apply list_elem_of_further. }
  destruct (e_is_dir e) eqn:Ed; simpl; [|by apply IH].
  destruct (e_skill_md e) as [content|] eqn:Em; [|by apply IH].
  destruct (parse_skill_md _ content) as [sk|] eqn:Ep; [|by apply IH].
  apply IH; [done|by apply dset_keys_nodup|].
  intros name sk' H. apply dset_elem_of in H as [H|H]; [|by apply Hin].
  injection H as -> ->. apply (HP e content); [apply list_elem_of_here|done..].
Qed.

(** X8.  The table of loaded skills.  Its names are pairwise distinct;
    every entry is filed under the name its own manifest declares; and
    every entry comes from a folder of the skills directory whose
    [SKILL.md] parses to it.  Plain files, folders without [SKILL.md]
    and manifests that do not parse contribute nothing. *)
Theorem X8_loaded_skills_table (skills_dir : string) (entries : list dir_entry) :
  let skills := load_skills skills_dir (Some entries) in
  NoDup (list_skills skills)
  /\ forall name sk,
       (name, sk) ∈ skills ->
       sk_name sk = name
       /\ exists e content,
            e ∈ entries /\ e_is_dir e = true /\ e_skill_md e = Some content
            /\ parse_skill_md (skills_dir +:+ "/" +:+ e_name e) content = Some sk.
Proof.
  intros skills. subst skills. unfold load_skills, list_skills.
  apply (load_entries_invariant skills_dir entries
           (fun name sk =>
              sk_name sk = name
              /\ exists e content,
                   e ∈ entries /\ e_is_dir e = true /\ e_skill_md e = Some content
                   /\ parse_skill_md (skills_dir +:+ "/" +:+ e_name e) content = Some sk)).
  - intros e content sk He Hd Hm Hp. split; [done|]. by exists e, content.
  - apply NoDup_nil_2.
  - intros name sk H. by apply elem_of_nil in H.
Qed.

End SkillInvariant.

(** ** More on the file tools *)

Section ReplaceFirst.
Import PyStr.

Lemma substring_all (m : nat) (t : string) :
  String.length t <= m -> String.substring 0 m t = t.
Proof.
  revert m. induction t as [|c t IH]; intros m Hm; simpl in *.
  - by destruct m.
  - destruct m as [|m]; [lia|]. rewrite IH by lia. done.
Qed.

Lemma length_append (s t : string) :
  String.length (s +:+ t) = String.length s + String.length t.
Proof. induction s as [|c s IH]; simpl; [done|]. by rewrite IH. Qed.

Lemma substring_skip (a t : string) (m : nat) :
  String.length t <= m ->
  String.substring (String.length a) m (a +:+ t) = t.
Proof.
  intros Hm. induction a as [|c a IH]; simpl; [by apply substring_all|].
  done.
Qed.

Lemma prefix_split (a s : string) :
  String.prefix a s = true -> exists t, s = a +:+ t.
Proof.
  revert s. induction a as [|c a IH]; intros s.
  - by exists s.
  - destruct s as [|d s]; simpl; [done|].
    destruct (ascii_dec c d) as [->|Hne]; [|done].
    intros H. destruct (IH s H) as [t ->]. by exists t.
Qed.

(** [replace_first] rewrites the leftmost occurrence and nothing else. *)
Lemma replace_first_leftmost (old new s : string) :
  contains old s = true ->
  exists pre post,
    s = pre +:+ old +:+ post
    /\ (forall pre' post', s = pre' +:+ old +:+ post' ->
          String.length pre <= String.length pre')
    /\ replace_first old new s = pre +:+ new +:+ post.
Proof.
  induction s as [|c r IH].
  - destruct old as [|c o]; simpl; [|done]. intros _.
    exists EmptyString, EmptyString. split; [done|]. split; [simpl; lia|done].
  - rewrite contains_unfold. cbn [replace_first].
    destruct (String.prefix old (String c r)) eqn:E.
    + intros _. destruct (prefix_split _ _ E) as [t Ht].
      exists EmptyString, t. split; [done|]. split; [simpl; lia|].
      change (EmptyString +:+ new +:+ t) with (new +:+ t). f_equal.
      rewrite Ht. rewrite substring_skip; [done|]. rewrite length_append. lia.
    + simpl. intros H. destruct (IH H) as (pre & post & Hs & Hmin & Hr).
      exists (String c pre), post. split; [by rewrite Hs at 1|].
      split; [|by rewrite Hr].
      intros pre' post' Hs'. destruct pre' as [|c' pre'].
      * exfalso. change (String c r = old +:+ post') in Hs'. rewrite Hs' in E.
        by rewrite prefix_refl_app in E.
      * rewrite append_cons in Hs'. injection Hs' as -> Hr'. simpl.
        specialize (Hmin pre' post' Hr'). lia.
Qed.

End ReplaceFirst.

Section EditTool.
Import PyStr Tools.

Context {FS : Type}.
Variable resolve : FS -> path -> path.
Variable read_text : FS -> path -> outcome string.
Variable write_text : path -> string -> FS -> outcome unit * FS.
Variable WORKDIR : path.

Abbreviation safe_path := (safe_path FS resolve WORKDIR).
Abbreviation run_edit := (run_edit FS resolve read_text write_text WORKDIR).

(** X9.  [run_edit] on a file it can read.  When the old text does not
    occur in the file, the tool reports it and writes nothing: the file
    system is as before and the only operation is the read.  When it
    occurs, exactly one write follows the read, and the data written is
    the content with the leftmost occurrence of the old text replaced by
    the new text, everything before and after it unchanged. *)
Theorem X9_edit_replaces_first_occurrence (w : world FS)
        (p old_text new_text : string) (fp : path) (content : string) :
  safe_path w p = Ret fp ->
  read_text (fs FS w) fp = Ret content ->
  (contains old_text content = false ->
   run_edit p old_text new_text w
   = ("Error: Text not found in " +:+ p, World FS (fs FS w) (ops FS w ++ [OpRead fp])))
  /\ (contains old_text content = true ->
      exists pre post,
        content = pre +:+ old_text +:+ post
        /\ (forall pre' post', content = pre' +:+ old_text +:+ post' ->
              String.length pre <= String.length pre')
        /\ ops FS (snd (run_edit p old_text new_text w))
           = ops FS w ++ [OpRead fp; OpWrite fp (pre +:+ new_text +:+ post)]).
Proof.
  intros Hsp Hrd. unfold Tools.run_edit. rewrite Hsp. unfold do_read. rewrite Hrd.
  split; intros Hc; rewrite Hc; simpl; [done|].
  destruct (replace_first_leftmost old_text new_text content Hc)
    as (pre & post & Hs & Hmin & Hr).
  exists pre, post. split; [done|]. split; [done|].
  unfold do_write. simpl. rewrite Hr.
  destruct (write_text fp (pre +:+ new_text +:+ post) (fs FS w)) as [[[]|e] fs2];
    simpl; by rewrite <- app_assoc.
Qed.

End EditTool.

Section EditToolExample.
Import PyStr Tools FileSpec.

Lemma X9_edit_replaces_first_occurrence_witness :
  run_edit MemFS.t MemFS.resolve MemFS.read_text MemFS.write_text example_root
    "notes.txt" "forget" "recall" example_world
  = ("Error: Text not found in notes.txt",
     World MemFS.t (fs _ example_world)
       [OpRead ["home"; "user"; "project"; "notes.txt"]]).
Proof.
  refine (proj1 (X9_edit_replaces_first_occurrence MemFS.resolve MemFS.read_text
                   MemFS.write_text example_root example_world
                   "notes.txt" "forget" "recall"
                   ["home"; "user"; "project"; "notes.txt"] "remember" _ _) _);
    vm_compute; reflexivity.
Defined.

End EditToolExample.

(** ** Code points *)

Section CodePoints.
Import PyStr CodePointSpec.

Lemma chars_cons2 (c d : ascii) (r : string) :
  chars (String c (String d r))
  = if is_lead d then String c EmptyString :: chars (String d r)
    else match chars (String d r) with
         | ch :: rest => String c ch :: rest
         | [] => [String c EmptyString]
         end.
Proof. reflexivity. Qed.

Lemma unchars_cons (ch : string) (l : list string) :
  unchars (ch :: l) = ch +:+ unchars l.
Proof. reflexivity. Qed.

Lemma chars_chunk (t : string) :
  forall c u,
    continuation t = true -> starts_lead u = true ->
    chars (String c (t +:+ u)) = String c t :: chars u.
Proof.
  induction t as [|e t IH]; intros c u Ht Hu.
  - change (EmptyString +:+ u) with u. destruct u as [|d u]; [done|].
    simpl in Hu. by rewrite chars_cons2, Hu.
  - simpl in Ht. apply andb_true_iff in Ht as [He Ht].
    rewrite append_cons, chars_cons2.
    apply negb_true_iff in He. rewrite He.
    by rewrite (IH e u Ht Hu).
Qed.

Lemma later_ok_chunk (ch : string) : later_ok ch = true -> chunk_ok ch = true.
Proof. destruct ch as [|c t]; [done|]. simpl. by intros [_ ?]%andb_true_iff. Qed.

Lemma unchars_starts_lead (l : list string) :
  Forall (fun c => later_ok c = true) l -> starts_lead (unchars l) = true.
Proof.
  intros H. destruct H as [|ch l Hch _]; [done|].
  destruct ch as [|c t]; [done|]. simpl in Hch.
  cbn [unchars]. rewrite append_cons. simpl. by apply andb_true_iff in Hch as [? _].
Qed.

Lemma chars_unchars_later (l : list string) :
  Forall (fun c => later_ok c = true) l -> chars (unchars l) = l.
Proof.
  induction 1 as [|ch l Hch Hl IH]; [done|].
  destruct ch as [|c t]; [done|]. simpl in Hch.
  apply andb_true_iff in Hch as [_ Ht].
  cbn [unchars]. rewrite append_cons.
  rewrite chars_chunk by (done || by apply unchars_starts_lead).
  by rewrite IH.
Qed.

Lemma chars_unchars (l : list string) : chunks_ok l -> chars (unchars l) = l.
Proof.
  destruct l as [|ch l]; [done|]. intros [Hch Hl].
  destruct ch as [|c t]; [done|]. simpl in Hch.
  cbn [unchars]. rewrite append_cons.
  rewrite chars_chunk by (done || by apply unchars_starts_lead).
  by rewrite chars_unchars_later.
Qed.

(** [chars s] is never empty for a non-empty [s]; its first chunk
    starts with the first byte of [s]. *)
Lemma chars_shape (s : string) :
  match s with
  | EmptyString => chars s = []
  | String c _ =>
      exists t rest,
        chars s = String c t :: rest
        /\ continuation t = true /\ Forall (fun c => later_ok c = true) rest
  end.
Proof.
  induction s as [|c r IH]; [done|].
  destruct r as [|d r'].
  - exists EmptyString, []. by repeat split.
  - destruct IH as (t & rest & E & Ht & Hrest).
    rewrite chars_cons2, E.
    destruct (is_lead d) eqn:Hd.
    + exists EmptyString, (String d t :: rest). split; [done|]. split; [done|].
      constructor; [|done]. simpl. by rewrite Hd, Ht.
    + exists (String d t), rest. split; [done|]. split; [|done].
      simpl. by rewrite Hd, Ht.
Qed.

Lemma chars_chunks_ok (s : string) : chunks_ok (chars s).
Proof.
  pose proof (chars_shape s) as H. destruct s as [|c r]; [by rewrite H|].
  destruct H as (t & rest & -> & Ht & Hrest). by split.
Qed.

Lemma unchars_chars (s : string) : unchars (chars s) = s.
Proof.
  induction s as [|c r IH]; [done|].
  pose proof (chars_shape r) as H.
  destruct r as [|d r']; [done|].
  destruct H as (t & rest & E & _ & _).
  rewrite chars_cons2. destruct (is_lead d).
  - rewrite unchars_cons, IH. done.
  - rewrite E in *. rewrite unchars_cons in *. by rewrite append_cons, IH.
Qed.

Lemma chunks_ok_take (n : nat) (l : list string) : chunks_ok l -> chunks_ok (take n l).
Proof.
  destruct l as [|ch l]; [by destruct n|]. intros [Hch Hl].
  destruct n as [|n]; [done|]. simpl. split; [done|]. by apply Forall_take.
Qed.

Lemma chunks_ok_tail (ch : string) (l : list string) :
  chunks_ok (ch :: l) -> chunks_ok l.
Proof.
  intros [_ Hl]. destruct Hl as [|c l Hc Hl]; [done|].
  split; [by apply later_ok_chunk|done].
Qed.

Lemma py_len_take (n : nat) (s : string) : py_len (py_take n s) <= n.
Proof.
  unfold py_len, py_take.
  rewrite chars_unchars by (apply chunks_ok_take, chars_chunks_ok).
  rewrite length_take. lia.
Qed.

End CodePoints.

(** ** [run_bash] *)

Section ShellProofs.
Import PyStr PyDict Json Adapter Shell CodePointSpec.

Context {W : Type}.
Variable subprocess_run : pyval -> W -> proc_result * W.

Abbreviation run_bash := (run_bash W subprocess_run).

Lemma any_in_str (ds : list string) (cmd : string) :
  any_in ds (PStr cmd) = Ret (existsb (fun d => contains d cmd) ds).
Proof.
  induction ds as [|d ds IH]; [done|]. simpl.
  destruct (contains d cmd); [done|]. by rewrite IH.
Qed.

(** X10.  The denylist of [run_bash].  A command string that contains
    one of the four denylisted texts anywhere (inside a longer word
    too) is refused with the fixed message, and no process is started:
    the machine is untouched.  Any other command string is handed to the
    shell, and [run_bash] returns a string whatever the process does. *)
Theorem X10_run_bash_denylist (cmd : string) (w : W) :
  (existsb (fun d => contains d cmd) dangerous = true ->
   run_bash (PStr cmd) w = (Ret "Error: Dangerous command blocked", w))
  /\ (existsb (fun d => contains d cmd) dangerous = false ->
      snd (run_bash (PStr cmd) w) = snd (subprocess_run (PStr cmd) w)
      /\ is_raise (fst (run_bash (PStr cmd) w)) = false).
Proof.
  unfold Shell.run_bash. rewrite any_in_str.
  split; intros ->; [done|].
  by destruct (subprocess_run (PStr cmd) w) as [[out err| |e] w'].
Qed.

Lemma py_take_nonempty (n : nat) (s : string) :
  s <> EmptyString -> py_take (S n) s <> EmptyString.
Proof.
  intros Hs. unfold py_take. pose proof (chars_shape s) as H.
  destruct s as [|c r]; [done|]. destruct H as (t & rest & -> & _). done.
Qed.

(** X11.  What [run_bash] returns is never empty, and it is at most
    50000 code points long unless it reports an exception of the process
    call, in which case it is the text of that exception after the
    prefix Error. *)
Theorem X11_run_bash_output_bounded (cmd : pyval) (w w' : W) (out : string) :
  run_bash cmd w = (Ret out, w') ->
  out <> EmptyString
  /\ ((Z.of_nat (py_len out) <= 50000)%Z
      \/ exists e, fst (subprocess_run cmd w) = ProcError e /\ out = "Error: " +:+ e).
Proof.
  unfold Shell.run_bash.
  destruct (any_in dangerous cmd) as [[|]|e]; [| |done].
  { intros [= <- <-]. split; [done|]. left. vm_compute. discriminate. }
  destruct (subprocess_run cmd w) as [[stdout stderr| |e] w1]; intros [= <- <-].
  - destruct (String.eqb_spec (strip (stdout +:+ stderr)) EmptyString) as [E|E].
    + split; [done|]. left. vm_compute. discriminate.
    + split; [by apply py_take_nonempty|]. left.
      etrans; [apply Nat2Z.inj_le, py_len_take|]. vm_compute. discriminate.
  - split; [done|]. left. vm_compute. discriminate.
  - split; [done|]. right. by exists e.
Qed.

End ShellProofs.

Section ShellExample.
Import PyStr PyDict Json Adapter Shell.

Lemma X11_run_bash_output_bounded_witness :
  Shell.run_bash unit (fun _ w => (Completed "a.py" EmptyString, w)) (PStr "ls") tt
  = (Ret "a.py", tt)
  /\ "a.py" <> EmptyString.
Proof.
  assert (Shell.run_bash unit (fun _ w => (Completed "a.py" EmptyString, w)) (PStr "ls") tt
          = (Ret "a.py", tt)) as H by (vm_compute; reflexivity).
  split; [exact H|].
  exact (proj1 (X11_run_bash_output_bounded
                  (fun _ w => (Completed "a.py" EmptyString, w)) (PStr "ls") tt tt
                  "a.py" H)).
Defined.

End ShellExample.

(** ** The dispatchers *)

Section DispatchProofs.
Import PyStr PyDict Json Adapter Tools Skills Agent Shell Todo Dispatch DispatchSpec
       TodoState.

Context {FS : Type}.
Variable resolve : FS -> path -> path.
Variable read_text : FS -> path -> outcome string.
Variable mkdir : path -> FS -> outcome unit * FS.
Variable write_text : path -> string -> FS -> outcome unit * FS.
Variable subprocess_run : pyval -> FS -> proc_result * FS.
Variable WORKDIR : path.
Variable path_class : string.
Variable py_str : pyval -> string.
Variable SKILLS : list (string * skill).
Variable glob : string -> string -> option (list string).

Abbreviation execute_base_tools :=
  (execute_base_tools FS resolve read_text mkdir write_text subprocess_run WORKDIR
                      path_class py_str).
Abbreviation execute_tool_v1 :=
  (execute_tool_v1 FS resolve read_text mkdir write_text subprocess_run WORKDIR
                   path_class py_str).
Abbreviation execute_tool_v4 :=
  (execute_tool_v4 FS resolve read_text mkdir write_text subprocess_run WORKDIR
                   path_class py_str SKILLS glob).

Lemma dhas_dget {V} (k : string) (d : list (string * V)) :
  dhas k d = match dget k d with Some _ => true | None => false end.
Proof. reflexivity. Qed.

(** X12.  Arguments that are missing, and tools that do not exist.  For
    an object as arguments, the dispatcher of v1 answers a call of a
    base tool that lacks a required argument with the error text naming
    the first missing one, and does nothing: no file operation, no
    process.  A name that is not one of the four base tools ([TodoWrite]
    included) is answered with Unknown tool, whatever the arguments
    are. *)
Theorem X12_missing_arguments_and_unknown_tools (name : string) (args : pyval)
        (w : world FS) :
  (forall kvs k,
      args = PDict kvs ->
      find (fun k => negb (dhas k kvs)) (required_keys name) = Some k ->
      execute_tool_v1 (PStr name) args w
      = (Ret ("Error: " +:+ name +:+ " " +:+ k +:+ " required"), w))
  /\ (is_base_tool name = false ->
      execute_tool_v1 (PStr name) args w
      = (Ret ("Unknown tool: " +:+ py_str (PStr name)), w)).
Proof.
  unfold Dispatch.execute_tool_v1, Dispatch.execute_base_tools, required_keys,
    is_base_tool.
  cbn [is_str].
  destruct (String.eqb_spec name "bash") as [->|_].
  { split; [|done]. intros kvs k -> Hk. cbn in Hk. cbn [py_in].
    destruct (dhas "command" kvs); [done|]. by injection Hk as <-. }
  destruct (String.eqb_spec name "read_file") as [->|_].
  { split; [|done]. intros kvs k -> Hk. cbn in Hk. cbn [py_in].
    destruct (dhas "path" kvs); [done|]. by injection Hk as <-. }
  destruct (String.eqb_spec name "write_file") as [->|_].
  { split; [|done]. intros kvs k -> Hk. cbn in Hk. cbn [py_in].
    destruct (dhas "path" kvs); [|by injection Hk as <-].
    destruct (dhas "content" kvs); [done|]. by injection Hk as <-. }
  destruct (String.eqb_spec name "edit_file") as [->|_].
  { split; [|done]. intros kvs k -> Hk. cbn in Hk. cbn [py_in].
    destruct (dhas "path" kvs); [|by injection Hk as <-].
    destruct (dhas "old_text" kvs); [|by injection Hk as <-].
    destruct (dhas "new_text" kvs); [done|]. by injection Hk as <-. }
  split; [done|]. done.
Qed.

Lemma any_in_container (ds : list string) (cmd : pyval) :
  scalar cmd = false -> exists b, any_in ds cmd = Ret b.
Proof.
  intros Hc. induction ds as [|d ds IH]; [by exists false|]. simpl.
  destruct cmd; try done; simpl;
    match goal with |- context [if ?b then _ else _] => destruct b end; eauto.
Qed.

Lemma any_in_scalar (cmd : pyval) :
  scalar cmd = true -> exists e, any_in dangerous cmd = Raise e.
Proof. destruct cmd; try done; intros _; by eexists. Qed.

Lemma run_bash_raises {W : Type} (run : pyval -> W -> proc_result * W)
      (cmd : pyval) (w : W) :
  is_raise (fst (run_bash W run cmd w)) = scalar cmd.
Proof.
  unfold run_bash. destruct (scalar cmd) eqn:E.
  - destruct (any_in_scalar cmd E) as [e ->]. done.
  - destruct (any_in_container dangerous cmd E) as [b ->].
    destruct b; [done|]. by destruct (run cmd w) as [[out err| |e] w'].
Qed.

Lemma base_tools_raise (name : pyval) (kvs : list (string * pyval))
      (todo : option TodoManager) (w : world FS) :
  todo = None ->
  is_raise (fst (fst (execute_base_tools name (PDict kvs) todo w)))
  = is_str "bash" name
    && match dget "command" kvs with Some cmd => scalar cmd | None => false end.
Proof.
  intros ->. unfold Dispatch.execute_base_tools. cbn [py_in py_item py_get obind].
  rewrite !dhas_dget.
  destruct (is_str "bash" name); cbn [andb].
  { destruct (dget "command" kvs) as [cmd|]; [|done].
    rewrite <- (run_bash_raises
                  (run_process FS subprocess_run) cmd w).
    by destruct (run_bash _ _ cmd w) as [[out|e] w']. }
  destruct (is_str "read_file" name).
  { destruct (dget "path" kvs) as [p|]; [|done].
    destruct (dget "limit" kvs) as [l|]; cbn [obind default].
    - destruct (negb (is_int l)); [done|]. by destruct (read_value _ _ _ _ _ _ _ _).
    - by destruct (read_value _ _ _ _ _ _ _ _). }
  destruct (is_str "write_file" name).
  { destruct (dget "path" kvs) as [p|]; [|done].
    destruct (dget "content" kvs) as [c|]; [|done]. cbn [obind].
    by destruct (write_value _ _ _ _ _ _ _ _ _). }
  destruct (is_str "edit_file" name); [|done].
  destruct (dget "path" kvs) as [p|]; [|done].
  destruct (dget "old_text" kvs) as [o|]; [|done].
  destruct (dget "new_text" kvs) as [n|]; [|done]. cbn [obind].
  by destruct (edit_value _ _ _ _ _ _ _ _ _ _).
Qed.

(** X13.  When a dispatcher raises.  Called with an object as
    arguments, [execute_tool] of v1 and of v4 raise in one case only: the
    tool is [bash] and its command is a value that is neither a string
    nor a container ([None], a boolean, a number).  Every other call
    returns a string; in v4 this holds whatever the subagent runner
    does, since the [TodoWrite], [Task] and [Skill] branches catch
    their exceptions. *)
Theorem X13_when_a_dispatcher_raises (name : pyval) (kvs : list (string * pyval))
        (w : world FS) (todo : TodoManager)
        (run_task : pyval -> pyval -> pyval -> state FS -> outcome string * state FS) :
  let bad_command :=
    is_str "bash" name
    && match dget "command" kvs with Some cmd => scalar cmd | None => false end in
  is_raise (fst (execute_tool_v1 name (PDict kvs) w)) = bad_command
  /\ is_raise (fst (execute_tool_v4 run_task name (PDict kvs) (w, todo))) = bad_command.
Proof.
  intros bad_command. subst bad_command.
  rewrite <- (base_tools_raise name kvs None w eq_refl).
  unfold Dispatch.execute_tool_v1, Dispatch.execute_tool_v4. cbn [fst snd].
  destruct (execute_base_tools name (PDict kvs) None w) as [[[[r|]|e] w'] t];
    cbn [fst is_raise]; split; try done.
  destruct (is_str "TodoWrite" name).
  { destruct (subscript _ _) as [items|e]; [|done].
    by destruct (update_value py_str todo items) as [[out|e] m]. }
  destruct (is_str "Task" name).
  { destruct (obind _ _) as [[[d p] a]|e]; [|done].
    by destruct (run_task d p a (w', todo)) as [[out|e] st']. }
  destruct (is_str "Skill" name); [|done].
  by destruct (obind _ _) as [out|e].
Qed.

Abbreviation item_ok :=
  (fun it : item => Todo.content it <> EmptyString
                    /\ activeForm it <> EmptyString
                    /\ status_ok (status it) = true).

Lemma in_progress_count_app (l1 l2 : list item) :
  in_progress_count (l1 ++ l2) = in_progress_count l1 + in_progress_count l2.
Proof. unfold in_progress_count. by rewrite filter_app, length_app. Qed.

Lemma validate_values_ok (l : list pyval) :
  forall i acc c v c',
    validate_values py_str i l acc c = Ret (v, c') ->
    exists new,
      v = acc ++ new /\ Forall item_ok new /\ c' = c + in_progress_count new.
Proof.
  induction l as [|it l IH]; intros i acc c v c'; simpl.
  - intros [= <- <-]. exists []. rewrite app_nil_r. repeat split; [constructor|].
    unfold in_progress_count. simpl. lia.
  - destruct (field py_str it "content" EmptyString) as [co|e]; [|done].
    destruct (field py_str it "status" "pending") as [st|e]; [|done].
    destruct (field py_str it "activeForm" EmptyString) as [af|e]; [|done].
    simpl.
    destruct (String.eqb_spec (strip co) EmptyString) as [|Hc]; [done|].
    destruct (status_ok (lower st)) eqn:Hs; [|done]. simpl.
    destruct (String.eqb_spec (strip af) EmptyString) as [|Ha]; [done|].
    intros H. apply IH in H as (new & -> & Hnew & ->).
    exists (Item (strip co) (lower st) (strip af) :: new).
    split; [by rewrite <- app_assoc|]. split; [by constructor|].
    change (Item (strip co) (lower st) (strip af) :: new)
      with ([Item (strip co) (lower st) (strip af)] ++ new).
    rewrite in_progress_count_app. unfold in_progress_count at 2.
    rewrite filter_cons. simpl.
    destruct (String.eqb (lower st) "in_progress") eqn:E.
    + rewrite decide_True by done. simpl. lia.
    + rewrite decide_False by (by intros ?). simpl. lia.
Qed.

Lemma update_value_cases (self : TodoManager) (items : pyval) :
  (exists e, update_value py_str self items = (Raise e, self))
  \/ (exists self',
        update_value py_str self items = (Ret (render self'), self')
        /\ well_formed self').
Proof.
  unfold update_value.
  destruct (iter_values items) as [l|e]; [|left; by eexists].
  destruct (validate_values py_str 0 l [] 0) as [[v c]|e] eqn:E; [|left; by eexists].
  apply validate_values_ok in E as (new & -> & Hnew & ->). simpl.
  destruct (20 <? length new) eqn:E1; [left; by eexists|].
  destruct (1 <? in_progress_count new) eqn:E2; [left; by eexists|].
  right. eexists. split; [done|].
  apply Nat.ltb_ge in E1, E2. by repeat split.
Qed.

(** X14.  [TodoWrite] through the dispatcher of v4.  Whatever the
    arguments are, the call returns a string and leaves the machine
    untouched.  Either the list is refused (or the arguments are
    unusable): the string is an error text and the stored list is the
    one from before; or the list is replaced: the string is the
    rendering of the new list, and the new list satisfies the
    constraints. *)
Theorem X14_todo_write_through_dispatcher (args : pyval) (w : world FS)
        (todo : TodoManager)
        (run_task : pyval -> pyval -> pyval -> state FS -> outcome string * state FS) :
  exists s todo',
    execute_tool_v4 run_task (PStr "TodoWrite") args (w, todo) = (Ret s, (w, todo'))
    /\ ((todo' = todo /\ exists e, s = "Error: " +:+ e)
        \/ (s = render todo' /\ well_formed todo')).
Proof.
  unfold Dispatch.execute_tool_v4, Dispatch.execute_base_tools. cbn.
  destruct (subscript args "items") as [items|e].
  - destruct (update_value_cases todo items) as [[e ->]|(self' & -> & Hwf)].
    + eexists _, _. split; [done|]. left. split; [done|]. by eexists.
    + eexists _, _. split; [done|]. by right.
  - eexists _, _. split; [done|]. left. split; [done|]. by eexists.
Qed.

Lemma field_str (kvs : list (string * pyval)) (k dflt : string) (m : option string) :
  (forall s, py_str (PStr s) = s) ->
  str_member k kvs = Some m ->
  field py_str (PDict kvs) k dflt = Ret (default dflt m).
Proof.
  intros Hstr. unfold str_member, field.
  destruct (dget k kvs) as [[]|]; intros [= <-]; simpl; by rewrite ?Hstr.
Qed.

Lemma validate_values_typed (l : list pyval) :
  (forall s, py_str (PStr s) = s) ->
  forall raws i acc c,
    raws_of l = Some raws ->
    validate_values py_str i l acc c = validate i raws acc c.
Proof.
  intros Hstr. induction l as [|v l IH]; intros raws i acc c; simpl.
  - by intros [= <-].
  - destruct (raw_of v) as [r|] eqn:Er; [|done].
    destruct (raws_of l) as [rs|] eqn:Ers; [|done]. intros [= <-].
    unfold raw_of in Er. destruct v as [| | | | | |kvs]; try done.
    destruct (str_member "content" kvs) as [co|] eqn:Ec; [|done].
    destruct (str_member "status" kvs) as [st|] eqn:Es; [|done].
    destruct (str_member "activeForm" kvs) as [af|] eqn:Ea; [|done].
    injection Er as <-.
    rewrite (field_str kvs "content" EmptyString co Hstr Ec).
    rewrite (field_str kvs "status" "pending" st Hstr Es).
    rewrite (field_str kvs "activeForm" EmptyString af Hstr Ea).
    cbn [obind validate raw_content raw_status raw_activeForm].
    destruct (String.eqb _ EmptyString); [done|].
    destruct (negb _); [done|].
    destruct (String.eqb _ EmptyString); [done|].
    by apply IH.
Qed.

(** X15.  The list the model sends and the list [update] sees.  When
    [str] leaves strings as they are and every element of the list is an
    object whose [content], [status] and [activeForm] members, where
    present, are strings, [update] applied to the list of Python values
    does what it does on the corresponding entries: the same result or
    the same error, and the same stored list. *)
Theorem X15_update_on_python_values (self : TodoManager) (l : list pyval)
        (raws : list raw_item) :
  (forall s, py_str (PStr s) = s) ->
  raws_of l = Some raws ->
  update_value py_str self (PList l) = update self raws.
Proof.
  intros Hstr Hl. unfold update_value, update. cbn [iter_values].
  by rewrite (validate_values_typed l Hstr raws 0 [] 0 Hl).
Qed.

End DispatchProofs.

Section DispatchExample.
Import PyStr PyDict Json Adapter Agent AgentSpec Todo Dispatch DispatchSpec.

Lemma X15_update_on_python_values_witness :
  update_value show_value init
    (PList [PDict [("content", PStr "write tests"); ("status", PStr "pending");
                   ("activeForm", PStr "writing tests")]])
  = update init [RawItem (Some "write tests") (Some "pending") (Some "writing tests")].
Proof.
  apply (X15_update_on_python_values show_value init); [by intros s|reflexivity].
Defined.

End DispatchExample.

(** ** The loop of v0 and the other tools *)

Section V0Tools.
Import PyStr PyDict Json Adapter Tools Agent.

Context {interp : Interpreter}.

Context {W : Type}.
Variable llm_invoke : list lc_message -> list string -> W -> outcome string * W.
Variable py_str : pyval -> string.
Variable client : LLMChatAdapter.
Variable run_bash : pyval -> W -> outcome string * W.

Abbreviation chat_with_tools := (chat_with_tools W llm_invoke client).
Abbreviation run_tools_v0 := (run_tools_v0 W py_str run_bash).
Abbreviation loop_v0 := (loop_v0 W llm_invoke py_str client run_bash).

Lemma run_tools_v0_skips (calls : list tool_call) (outs : list string) (w : W) :
  Forall (fun tc => is_str "bash" (tc_name tc) = false) calls ->
  run_tools_v0 calls outs w = (Ret outs, w).
Proof.
  induction 1 as [|tc calls Htc Hcalls IH]; [done|]. simpl. by rewrite Htc.
Qed.

(** X16.  The loop of v0 runs [bash] and nothing else.  When the model
    asks for tools and none of the calls is a [bash] call, no command is
    run and the machine is as the model call left it.  If the text
    blocks of the turn are strings, the next iteration starts from the
    history extended by the assistant text (or the fixed marker when
    there is none) and the fixed error message, which does not say which
    tools were asked for.  If a text block is not a string, the
    [TypeError] of [str.join] ends the loop at once, with the history as
    it was. *)
Theorem X16_v0_runs_bash_only (remaining step : nat) (prompt : string)
        (history : list message) (w : W) :
  let response := fst (chat_with_tools prompt history BASH_TOOLS w) in
  let w1 := snd (chat_with_tools prompt history BASH_TOOLS w) in
  tool_calls (resp_content response) <> [] ->
  Forall (fun tc => is_str "bash" (tc_name tc) = false)
         (tool_calls (resp_content response)) ->
  loop_v0 (S remaining) step prompt history w
  = match join_values nl (assistant_text (resp_content response)) with
    | Ret full_text =>
        loop_v0 remaining (step + 1) (if step + 1 =? 1 then "继续" else prompt)
          (history
             ++ [Message "assistant"
                   (if String.eqb full_text EmptyString
                    then "(Executing tools...)" else full_text);
                 Message "user" "Error: Tool call failed or produced no output."])
          w1
    | Raise e => ChatExit W (Raise e) history (step + 1) w1
    end.
Proof.
  intros response w1 Hc Hnb. subst response w1.
  cbn [Agent.loop_v0].
  destruct (chat_with_tools prompt history BASH_TOOLS w) as [response w1].
  cbn [fst snd] in *.
  destruct (join_values nl (assistant_text (resp_content response))) as [full_text|e];
    [|done].
  destruct (tool_calls (resp_content response)) as [|tc calls] eqn:E; [done|].
  rewrite run_tools_v0_skips by done.
  destruct (String.eqb full_text EmptyString); cbn [negb];
    by rewrite <- app_assoc.
Qed.

End V0Tools.

Section V0ToolsExample.
Import PyStr PyDict Json Adapter Tools Agent AgentSpec LoopSpec.

#[local] Existing Instance example_interpreter.

Lemma X16_v0_runs_bash_only_witness :
  loop_v0 nat (constant_llm read_call_reply) show_value new_adapter
    (fun _ w => (Ret "hi", w)) 1 0 "look" example_history 0
  = ChatExit nat (Ret step_limit_message)
      (example_history
         ++ [Message "assistant" "(Executing tools...)";
             Message "user" "Error: Tool call failed or produced no output."])
      1 1.
Proof.
  rewrite (X16_v0_runs_bash_only (constant_llm read_call_reply) show_value new_adapter
             (fun _ w => (Ret "hi", w)) 0 0 "look" example_history 0);
    [reflexivity|vm_compute; discriminate|].
  vm_compute. repeat constructor.
Defined.

End V0ToolsExample.

(** ** The factory *)

Section FactoryProofs.
Import PyStr PyDict Factory FactorySpec.

Context {LLM W : Type}.
Variable SUPPORTED_MODELS : list (string * model_class LLM W).
Variable supported_text : string.

Abbreviation create := (create LLM W SUPPORTED_MODELS supported_text).

Lemma key_eqb_refl (k : string * string) : key_eqb k k = true.
Proof. unfold key_eqb. by rewrite !String.eqb_refl. Qed.

Lemma lookup_store (key : string * string) (v : LLM) (d : instances LLM) :
  lookup LLM key (store LLM key v d) = Some v.
Proof.
  induction d as [|[k v'] d IH]; simpl; [by rewrite key_eqb_refl|].
  destruct (key_eqb key k) eqn:E; simpl; [by rewrite key_eqb_refl|by rewrite E].
Qed.

Lemma create_valid (cache : instances LLM) (model_type : string)
      (model_name : option string) (temperature top_p : option number)
      (max_tokens : option Z) (w : W) :
  valid_params temperature top_p max_tokens = true ->
  create cache model_type model_name temperature top_p max_tokens w
  = match lookup LLM (cache_key model_type model_name) cache with
    | Some instance => (Ret instance, cache, w)
    | None =>
        match dget model_type SUPPORTED_MODELS with
        | None =>
            (Raise ("不支持的模型类型: " +:+ model_type +:+ "，支持的类型: "
                      +:+ supported_text), cache, w)
        | Some cls =>
            match cls model_name temperature top_p max_tokens w with
            | (Raise e, w') => (Raise e, cache, w')
            | (Ret instance, w') =>
                (Ret instance,
                 store LLM (cache_key model_type model_name) instance cache, w')
            end
        end
    end.
Proof.
  unfold valid_params, Factory.create. intros H.
  apply andb_true_iff in H as [H Hm]. apply andb_true_iff in H as [Ht Hp].
  destruct temperature as [t|]; [rewrite Ht|]; cbn [negb];
    (destruct top_p as [p|]; [rewrite Hp|]; cbn [negb];
     (destruct max_tokens as [m|];
      [apply Z.ltb_lt in Hm;
       destruct (m <=? 0)%Z eqn:E; [apply Z.leb_le in E; lia|]|]; done)).
Qed.

(** X17.  The cache of the factory.  After [create] returned an
    instance, a later call with valid parameters whose model type and
    name agree with the first ones up to letter case and surrounding
    blanks returns that same instance: no constructor runs and the cache
    is unchanged, whatever the new temperature, [top_p] and
    [max_tokens] are, and whether or not the type name as written is a
    supported one.  Parameters out of range raise before the cache is
    looked at. *)
Theorem X17_factory_cache (cache cache1 : instances LLM)
        (type1 type2 : string) (name1 name2 : option string)
        (temperature1 top_p1 temperature2 top_p2 : option number)
        (max_tokens1 max_tokens2 : option Z) (w w1 : W) (instance : LLM) :
  create cache type1 name1 temperature1 top_p1 max_tokens1 w
  = (Ret instance, cache1, w1) ->
  cache_key type2 name2 = cache_key type1 name1 ->
  (valid_params temperature2 top_p2 max_tokens2 = true ->
   create cache1 type2 name2 temperature2 top_p2 max_tokens2 w1
   = (Ret instance, cache1, w1))
  /\ (valid_params temperature2 top_p2 max_tokens2 = false ->
      exists e,
        create cache1 type2 name2 temperature2 top_p2 max_tokens2 w1
        = (Raise e, cache1, w1)).
Proof.
  intros H1 Hkey. split.
  - intros Hv. rewrite create_valid by done. rewrite Hkey.
    assert (valid_params temperature1 top_p1 max_tokens1 = true) as Hv1.
    { destruct (valid_params temperature1 top_p1 max_tokens1) eqn:E; [done|].
      exfalso. revert H1. unfold valid_params in E. unfold Factory.create.
      destruct temperature1 as [t|]; [destruct (in_range t 2)|]; cbn [negb]; try done;
        (destruct top_p1 as [p|]; [destruct (in_range p 1)|]; cbn [negb]; try done;
         (destruct max_tokens1 as [m|]; [|done];
          cbn [andb] in E; apply Z.ltb_ge in E;
          destruct (m <=? 0)%Z eqn:E'; [done|apply Z.leb_gt in E'; lia])). }
    rewrite create_valid in H1 by done.
    destruct (lookup LLM (cache_key type1 name1) cache) as [i|] eqn:El.
    + injection H1 as <- <- <-. by rewrite El.
    + destruct (dget type1 SUPPORTED_MODELS) as [cls|]; [|done].
      destruct (cls name1 temperature1 top_p1 max_tokens1 w) as [[i|e] w'];
        [|done].
      injection H1 as <- <- <-. by rewrite lookup_store.
  - intros Hv. unfold valid_params in Hv. unfold Factory.create.
    destruct temperature2 as [t|]; [destruct (in_range t 2)|]; cbn [negb];
      try (by eexists);
      (destruct top_p2 as [p|]; [destruct (in_range p 1)|]; cbn [negb];
       try (by eexists);
       (destruct max_tokens2 as [m|]; [|done];
        cbn [andb] in Hv; apply Z.ltb_ge in Hv;
        destruct (m <=? 0)%Z eqn:E'; [by eexists|apply Z.leb_gt in E'; lia])).
Qed.

End FactoryProofs.

Section FactoryExample.
Import PyStr PyDict Factory FactorySpec.

Lemma X17_factory_cache_witness :
  create string nat example_models "['openai']" [] "openai" (Some "gpt")
         (Some (Finite 0 1)) None (Some 8192%Z) 0
  = (Ret "openai/gpt", [(("openai", "gpt"), "openai/gpt")], 1)
  /\ create string nat example_models "['openai']"
       [(("openai", "gpt"), "openai/gpt")] " OpenAI " (Some "GPT")
       (Some (Finite 3 2)) (Some (Finite 1 2)) None 1
     = (Ret "openai/gpt", [(("openai", "gpt"), "openai/gpt")], 1).
Proof.
  assert (create string nat example_models "['openai']" [] "openai" (Some "gpt")
                 (Some (Finite 0 1)) None (Some 8192%Z) 0
          = (Ret "openai/gpt", [(("openai", "gpt"), "openai/gpt")], 1)) as H
      by (vm_compute; reflexivity).
  split; [exact H|].
  apply (X17_factory_cache example_models "['openai']" _ _ _ _ _ _ _ _ _ _ _ _ _ _ _
           H); vm_compute; reflexivity.
Defined.

End FactoryExample.

(** ** The conversion of the tool definitions *)

Section ToolFormatProofs.
Import PyStr PyDict Json Adapter ToolFormat ToolFormatSpec.

Lemma convert_tool_result (t c : pyval) :
  convert_tool t = Ret (Some c) ->
  is_dict t = true /\ is_function_tool c = true /\ convert_tool c = Ret (Some c).
Proof.
  destruct t as [| | | | | |kvs]; try done. unfold convert_tool.
  destruct (dhas "type" kvs && is_str "function" (default PNone (dget "type" kvs)))
    eqn:E.
  - intros [= <-]. apply andb_true_iff in E as [E1 E2].
    split; [done|]. split; [done|]. by rewrite E1, E2.
  - destruct (dhas "input_schema" kvs).
    + destruct (py_item (PDict kvs) "name") as [name|]; [|done].
      destruct (py_item (PDict kvs) "description") as [d|]; [|done].
      by intros [= <-].
    + destruct (py_item (PDict kvs) "name") as [name|]; [|done].
      by intros [= <-].
Qed.

Lemma convert_tool_skipped (t : pyval) :
  convert_tool t = Ret None -> is_dict t = false.
Proof.
  destruct t as [| | | | | |kvs]; try done. unfold convert_tool.
  destruct (_ && _); [done|].
  destruct (dhas "input_schema" kvs).
  - destruct (py_item (PDict kvs) "name") as [name|]; [|done].
    by destruct (py_item (PDict kvs) "description").
  - by destruct (py_item (PDict kvs) "name").
Qed.

Lemma convert_tools_fixed (l : list pyval) :
  Forall (fun c => convert_tool c = Ret (Some c)) l ->
  forall acc, convert_tools l acc = Ret (acc ++ l).
Proof.
  induction 1 as [|c l Hc Hl IH]; intros acc; simpl; [by rewrite app_nil_r|].
  rewrite Hc, IH. by rewrite <- app_assoc.
Qed.

Lemma convert_tools_result (tools : list pyval) :
  forall acc converted,
    convert_tools tools acc = Ret converted ->
    exists new,
      converted = acc ++ new
      /\ Forall (fun c => is_function_tool c = true
                          /\ convert_tool c = Ret (Some c)) new
      /\ length new = length (filter (fun t => is_dict t = true) tools).
Proof.
  induction tools as [|t tools IH]; intros acc converted; simpl.
  - intros [= <-]. exists []. by rewrite app_nil_r.
  - destruct (convert_tool t) as [[c|]|e] eqn:E; [| |done]; intros H.
    + apply convert_tool_result in E as (Hd & Hf & Hc).
      apply IH in H as (new & -> & Hnew & Hlen).
      exists (c :: new). split; [by rewrite <- app_assoc|].
      split; [by constructor|]. rewrite filter_cons, decide_True by done.
      simpl. by rewrite Hlen.
    + apply convert_tool_skipped in E.
      apply IH in H as (new & -> & Hnew & Hlen).
      exists new. split; [done|]. split; [done|].
      rewrite filter_cons, decide_False; [done|]. by rewrite E.
Qed.

(** X18.  The conversion of the tool definitions.  When the loop ends
    without an exception, every converted entry is in function format,
    there is one entry per object of the input (values that are not
    objects are dropped without a word), and converting the converted
    list again gives the same list.  A definition with [name],
    [description] and [input_schema] becomes the function entry with
    that name and description and the schema as its parameters. *)
Theorem X18_tool_conversion (tools converted : list pyval) :
  convert_tools tools [] = Ret converted ->
  Forall (fun c => is_function_tool c = true) converted
  /\ length converted = length (filter (fun t => is_dict t = true) tools)
  /\ convert_tools converted [] = Ret converted
  /\ (forall kvs name description schema,
        dget "name" kvs = Some name ->
        dget "description" kvs = Some description ->
        dget "input_schema" kvs = Some schema ->
        is_function_tool (PDict kvs) = false ->
        convert_tool (PDict kvs) = Ret (Some (function_tool name description schema))).
Proof.
  intros H. apply convert_tools_result in H as (new & -> & Hnew & Hlen). simpl.
  split; [by eapply Forall_impl; [exact Hnew|intros c [? _]]|].
  split; [done|]. split.
  - rewrite (convert_tools_fixed new); [done|].
    by eapply Forall_impl; [exact Hnew|intros c [_ ?]].
  - intros kvs name description schema Hn Hd Hs Hf.
    unfold convert_tool, dhas, py_item. unfold is_function_tool in Hf.
    rewrite Hf, andb_false_r.
    destruct (dget "input_schema" kvs) as [s|]; [injection Hs as ->|done].
    destruct (dget "name" kvs) as [n|]; [injection Hn as ->|done].
    destruct (dget "description" kvs) as [d|]; [injection Hd as ->|done].
    reflexivity.
Qed.

End ToolFormatProofs.

Section ToolFormatExample.
Import PyStr PyDict Json Adapter ToolFormat ToolFormatSpec.

Lemma X18_tool_conversion_witness :
  convert_tools [read_file_tool; PStr "bash"] []
  = Ret [function_tool (PStr "read_file") (PStr "Read file contents.")
           (PDict [("type", PStr "object")])]
  /\ length [function_tool (PStr "read_file") (PStr "Read file contents.")
               (PDict [("type", PStr "object")])] = 1.
Proof.
  assert (convert_tools [read_file_tool; PStr "bash"] []
          = Ret [function_tool (PStr "read_file") (PStr "Read file contents.")
                   (PDict [("type", PStr "object")])]) as H by reflexivity.
  split; [exact H|].
  exact (proj1 (proj2 (X18_tool_conversion _ _ H))).
Defined.

End ToolFormatExample.

(** ** The encoder and the decoder of JSON *)

Section JsonNumbers.
Import PyStr PyDict Json JsonEncode JsonSpec.

Context {interp : Interpreter}.

Abbreviation digit_string := NilEmpty.string_of_uint.

Lemma digits_value_acc (d : Decimal.uint) :
  forall acc : positive,
    digits_value (Z.pos acc) (digit_string d) = Z.pos (Pos.of_uint_acc d acc).
Proof.
  induction d; intros acc; simpl; [done|..];
    (etrans; [|apply IHd]); f_equal; lia.
Qed.

Lemma digits_value_uint (d : Decimal.uint) :
  digits_value 0 (digit_string d) = Z.of_N (Pos.of_uint d).
Proof.
  induction d; simpl; [done|done|..]; apply digits_value_acc.
Qed.

Lemma span_digits_cons (c : ascii) (r : string) :
  is_digit c = true ->
  span_digits (String c r) = (String c (fst (span_digits r)), snd (span_digits r)).
Proof. intros H. simpl. rewrite H. by destruct (span_digits r). Qed.

Lemma span_digits_uint (d : Decimal.uint) (rest : string) :
  terminator rest = true ->
  span_digits (digit_string d +:+ rest) = (digit_string d, rest).
Proof.
  intros Hr. induction d; cbn [NilEmpty.string_of_uint];
    try (rewrite append_cons, span_digits_cons by done; by rewrite IHd).
  change (EmptyString +:+ rest) with rest.
  destruct rest as [|c r]; [done|]. simpl in *.
  apply orb_true_iff in Hr as [Hr|Hr]; [apply orb_true_iff in Hr as [Hr|Hr]|];
    apply Ascii.eqb_eq in Hr; by subst c.
Qed.

Lemma to_uint_head (p : positive) :
  match Pos.to_uint p with
  | Decimal.Nil | Decimal.D0 _ => False
  | _ => True
  end.
Proof.
  pose proof (DecimalPos.Unsigned.to_of (Pos.to_uint p)) as H.
  rewrite DecimalPos.Unsigned.of_to in H. simpl in H.
  pose proof (DecimalPos.Unsigned.to_uint_nonzero p) as Hnz.
  destruct (Pos.to_uint p) eqn:E; try done.
  unfold Decimal.unorm in H. rewrite DecimalFacts.nzhead_D0 in H.
  destruct (Decimal.nzhead u) eqn:En; try discriminate H.
  - injection H as H. by subst u.
  - pose proof (DecimalFacts.nzhead_nonzero u u0). congruence.
Qed.

Lemma terminator_cases (rest : string) :
  terminator rest = true ->
  rest = EmptyString
  \/ exists r, rest = String "," r \/ rest = String "]" r \/ rest = String "}" r.
Proof.
  destruct rest as [|c r]; [by left|]. simpl. intros H. right. exists r.
  apply orb_true_iff in H as [H|H]; [apply orb_true_iff in H as [H|H]|];
    apply Ascii.eqb_eq in H; subst c; auto.
Qed.

Lemma scan_number_digits (c : ascii) (d : Decimal.uint) (rest : string) :
  is_digit c = true -> Ascii.eqb c "0" = false ->
  terminator rest = true ->
  exceeds_int_limit (String.length (String c (digit_string d))) = false ->
  scan_number (String c (digit_string d +:+ rest))
  = Some (PInt (digits_value 0 (String c (digit_string d))), rest).
Proof.
  intros Hc H0 Hr Hlim.
  destruct c as [b0 b1 b2 b3 b4 b5 b6 b7].
  destruct b0, b1, b2, b3, b4, b5, b6, b7; try discriminate Hc; try discriminate H0;
    unfold scan_number;
    cbn -[span_digits digits_value String.append String.length exceeds_int_limit];
    rewrite span_digits_uint by done;
    destruct (terminator_cases rest Hr) as [ -> | [r [ -> | [ -> | -> ]]]];
    cbn -[digits_value String.length exceeds_int_limit]; by rewrite Hlim.
Qed.

Lemma scan_number_zero (rest : string) :
  terminator rest = true ->
  scan_number (String "0" rest) = Some (PInt 0, rest).
Proof.
  intros Hr. destruct (terminator_cases rest Hr) as [ -> | [r [ -> | [ -> | -> ]]]]; reflexivity.
Qed.

Lemma to_uint_digits (p : positive) :
  exists c d,
    digit_string (Pos.to_uint p) = String c (digit_string d)
    /\ is_digit c = true /\ Ascii.eqb c "0" = false.
Proof.
  pose proof (to_uint_head p) as Hh.
  destruct (Pos.to_uint p) as [|u|u|u|u|u|u|u|u|u|u]; try done;
    eexists _, u; by repeat split.
Qed.

(** The decoder reads an integer within the limit back. *)
Lemma scan_number_of_Z (z : Z) (rest : string) :
  terminator rest = true ->
  exceeds_int_limit (int_digits z) = false ->
  scan_number (of_Z z +:+ rest) = Some (PInt z, rest).
Proof.
  intros Hr Hlim. unfold int_digits in Hlim.
  assert (of_Z (Z.abs z)
          = match z with
            | Z0 => "0"
            | Zpos p | Zneg p => NilZero.string_of_uint (Pos.to_uint p)
            end) as Habs by (by destruct z).
  rewrite Habs in Hlim. clear Habs.
  unfold of_Z. destruct z as [|p|p]; cbn [Z.to_int NilZero.string_of_int].
  - by apply scan_number_zero.
  - pose proof (digits_value_uint (Pos.to_uint p)) as Hv.
    rewrite DecimalPos.Unsigned.of_to in Hv.
    destruct (to_uint_digits p) as (c & d & E & Hc & H0).
    pose proof (to_uint_head p) as Hh.
    replace (NilZero.string_of_uint (Pos.to_uint p)) with (digit_string (Pos.to_uint p))
      in * by (by destruct (Pos.to_uint p)).
    rewrite E in *. rewrite append_cons, scan_number_digits by done.
    by rewrite Hv.
  - pose proof (digits_value_uint (Pos.to_uint p)) as Hv.
    rewrite DecimalPos.Unsigned.of_to in Hv.
    destruct (to_uint_digits p) as (c & d & E & Hc & H0).
    pose proof (to_uint_head p) as Hh.
    replace (NilZero.string_of_uint (Pos.to_uint p)) with (digit_string (Pos.to_uint p))
      in * by (by destruct (Pos.to_uint p)).
    rewrite E in *. rewrite !append_cons.
    unfold scan_number.
    destruct c as [b0 b1 b2 b3 b4 b5 b6 b7].
    destruct b0, b1, b2, b3, b4, b5, b6, b7; try discriminate Hc; try discriminate H0;
      cbn -[span_digits digits_value String.append String.length exceeds_int_limit];
      rewrite span_digits_uint by done;
      destruct (terminator_cases rest Hr) as [ -> | [r [ -> | [ -> | -> ]]]];
      cbn -[digits_value String.length exceeds_int_limit]; by rewrite Hlim, Hv.
Qed.

End JsonNumbers.

Section JsonStrings.
Import PyStr PyDict Json JsonEncode JsonSpec.

Lemma scan_units_escape_char (c : ascii) (r : string) :
  scan_units (escape_char c +:+ r)
  = match scan_units r with
    | Some (us, rest) => Some (unit_of c :: us, rest)
    | None => None
    end.
Proof.
  destruct c as [b0 b1 b2 b3 b4 b5 b6 b7].
  destruct b0, b1, b2, b3, b4, b5, b6, b7; reflexivity.
Qed.

Lemma encode_units_unit_of (c : ascii) (us : list sunit) :
  encode_units (unit_of c :: us) = String c (encode_units us).
Proof.
  destruct c as [b0 b1 b2 b3 b4 b5 b6 b7].
  destruct b0, b1, b2, b3, b4, b5, b6, b7; try reflexivity;
    destruct us as [|[c'|lo] us']; reflexivity.
Qed.

Lemma scan_units_escape (s rest : string) :
  scan_units (escape s +:+ dq +:+ rest) = Some (map unit_of (list_ascii_of_string s), rest).
Proof.
  induction s as [|c s IH]; [done|].
  cbn [escape]. rewrite append_assoc, scan_units_escape_char, IH. done.
Qed.

Lemma encode_units_map (s : string) :
  encode_units (map unit_of (list_ascii_of_string s)) = s.
Proof.
  induction s as [|c s IH]; [done|].
  cbn [list_ascii_of_string map]. by rewrite encode_units_unit_of, IH.
Qed.

(** The decoder reads an encoded string back. *)
Lemma scan_string_encode (s rest : string) :
  scan_string (escape s +:+ dq +:+ rest) = Some (s, rest).
Proof. unfold scan_string. by rewrite scan_units_escape, encode_units_map. Qed.

End JsonStrings.

Section JsonRoundTrip.
Import PyStr PyDict Json JsonEncode JsonSpec.

Context {interp : Interpreter}.

Variable float_repr : string -> string.

Abbreviation dumps := (json_dumps float_repr).
Abbreviation digit_string := NilEmpty.string_of_uint.

Lemma pyval_induction (P : pyval -> Prop) :
  P PNone -> (forall b, P (PBool b)) -> (forall z, P (PInt z)) ->
  (forall lx, P (PFloat lx)) -> (forall s, P (PStr s)) ->
  (forall l, Forall P l -> P (PList l)) ->
  (forall kvs, Forall (fun kv => P (snd kv)) kvs -> P (PDict kvs)) ->
  forall v, P v.
Proof.
  intros HN HB HI HF HS HL HD.
  fix IH 1. intros [| | | | |l|kvs];
    [apply HN|apply HB|apply HI|apply HF|apply HS| |].
  - apply HL. induction l as [|x l IHl]; constructor; [apply IH|apply IHl].
  - apply HD. induction kvs as [|[k x] kvs IHk]; constructor; [apply IH|apply IHk].
Qed.

Lemma of_Z_head (z : Z) :
  exists c ds, of_Z z = String c ds /\ (is_digit c = true \/ c = "-"%char).
Proof.
  unfold of_Z. destruct z as [|p|p]; cbn [Z.to_int NilZero.string_of_int].
  - eexists _, _. split; [reflexivity|by left].
  - destruct (to_uint_digits p) as (c & d & E & Hc & _).
    pose proof (to_uint_head p) as Hh.
    replace (NilZero.string_of_uint (Pos.to_uint p)) with (digit_string (Pos.to_uint p))
      in * by (by destruct (Pos.to_uint p)).
    rewrite E. eexists _, _. split; [reflexivity|by left].
  - eexists _, _. split; [reflexivity|by right].
Qed.

Lemma dumps_head (v : pyval) :
  plain v = true -> exists c s, dumps v = String c s /\ value_start c = true.
Proof.
  destruct v as [|[]|z|lx|s|[|x l]|[|kv kvs]]; try done; intros _;
    try (eexists _, _; split; [reflexivity|reflexivity]).
  destruct (of_Z_head z) as (c & ds & E & [Hc| -> ]).
  - exists c, ds. split; [done|]. unfold value_start. by rewrite Hc.
  - by exists "-"%char, ds.
Qed.

Lemma skip_ws_start (c : ascii) (s : string) :
  value_start c = true -> skip_ws (String c s) = String c s.
Proof.
  intros H. destruct c as [b0 b1 b2 b3 b4 b5 b6 b7].
  destruct b0, b1, b2, b3, b4, b5, b6, b7; try discriminate H; reflexivity.
Qed.

Lemma skip_ws_dumps (v : pyval) (rest : string) :
  plain v = true -> skip_ws (dumps v +:+ rest) = dumps v +:+ rest.
Proof.
  intros Hv. destruct (dumps_head v Hv) as (c & s & -> & Hc).
  rewrite append_cons. by apply skip_ws_start.
Qed.

Lemma skip_ws_terminator (rest : string) :
  terminator rest = true -> skip_ws rest = rest.
Proof.
  intros H. destruct (terminator_cases rest H) as [ -> | [r [ -> | [ -> | -> ]]]];
    reflexivity.
Qed.

Lemma scan_once_number (c : ascii) (r : string) (f depth : nat)
      (res : pyval * string) :
  is_digit c = true \/ c = "-"%char ->
  scan_number (String c r) = Some res ->
  scan_once (S f) depth (String c r) = Some res.
Proof.
  intros Hc Hs.
  destruct c as [b0 b1 b2 b3 b4 b5 b6 b7].
  destruct b0, b1, b2, b3, b4, b5, b6, b7;
    try (exfalso; destruct Hc as [Hc|Hc]; discriminate Hc);
    cbn -[scan_number]; by rewrite Hs.
Qed.

Lemma substring_rest (n : nat) (pre rest : string) :
  String.length pre = n ->
  String.substring n (String.length (pre +:+ rest)) (pre +:+ rest) = rest.
Proof.
  intros <-. apply substring_skip. rewrite length_append. lia.
Qed.

Lemma dset_fresh {V} (k : string) (v : V) (d : list (string * V)) :
  k ∉ map fst d -> dset k v d = d ++ [(k, v)].
Proof.
  induction d as [|[k' v'] d IH]; simpl; [done|].
  intros H. apply not_elem_of_cons in H as [Hne Hd].
  destruct (String.eqb_spec k k'); [done|]. by rewrite IH.
Qed.

Lemma join_cons2 (sep x y : string) (l : list string) :
  join sep (x :: y :: l) = x +:+ sep +:+ join sep (y :: l).
Proof. reflexivity. Qed.

Lemma append_lit2 (a b : ascii) (s : string) :
  String a (String b EmptyString) +:+ s = String a (String b s).
Proof. reflexivity. Qed.

Lemma append_lit1 (a : ascii) (s : string) : String a EmptyString +:+ s = String a s.
Proof. reflexivity. Qed.

Lemma skip_ws_comma (s : string) : skip_ws (String "," s) = String "," s.
Proof. reflexivity. Qed.

Lemma skip_ws_space (s : string) : skip_ws (String " " s) = skip_ws s.
Proof. reflexivity. Qed.

(** The array loop of the decoder on the encoded elements. *)
Lemma array_loop_dumps (depth : nat) (l : list pyval) :
  Forall (fun v => plain v = true -> readable depth v = true ->
                   forall fuel rest, size v <= fuel -> terminator rest = true ->
                                     scan_once fuel depth (dumps v +:+ rest)
                                     = Some (v, rest)) l ->
  forallb plain l = true ->
  forallb (readable depth) l = true ->
  l <> [] ->
  forall fuel acc rest,
    list_sum (map (fun x => S (size x)) l) <= fuel ->
    array_loop fuel depth (join ", " (map dumps l) +:+ "]" +:+ rest) acc
    = Some (PList (acc ++ l), rest).
Proof.
  induction 1 as [|x l Hx Hl IH]; [done|].
  intros Hp Hd _ fuel acc rest Hf. simpl in Hp. apply andb_true_iff in Hp as [Hpx Hpl].
  cbn [forallb] in Hd. apply andb_true_iff in Hd as [Hdx Hdl].
  assert (list_sum (map (fun x => S (size x)) (x :: l))
          = S (size x) + list_sum (map (fun x => S (size x)) l)) as Hsum by reflexivity.
  rewrite Hsum in Hf. clear Hsum. destruct fuel as [|f]; [lia|].
  destruct l as [|y l'].
  - cbn [map join]. cbn [array_loop].
    rewrite (Hx Hpx Hdx f ("]" +:+ rest)); [reflexivity|lia|reflexivity].
  - cbn [map]. rewrite join_cons2. rewrite !append_assoc.
    cbn [array_loop].
    rewrite (Hx Hpx Hdx f); [|lia|reflexivity].
    rewrite append_lit2, skip_ws_comma. cbv beta iota. rewrite skip_ws_space.
    change (dumps y :: map dumps l') with (map dumps (y :: l')).
    assert (skip_ws (join ", " (map dumps (y :: l')) +:+ "]" +:+ rest)
            = join ", " (map dumps (y :: l')) +:+ "]" +:+ rest) as ->.
    { simpl in Hpl. apply andb_true_iff in Hpl as [Hpy _].
      destruct l' as [|z l''].
      - cbn [map join]. by apply skip_ws_dumps.
      - cbn [map]. rewrite join_cons2, !append_assoc. by apply skip_ws_dumps. }
    rewrite IH; [by rewrite <- app_assoc|done|done|done|lia].
Qed.

Lemma list_sum_cons (a : nat) (l : list nat) : list_sum (a :: l) = a + list_sum l.
Proof. reflexivity. Qed.

Lemma skip_ws_colon (s : string) : skip_ws (String ":" s) = String ":" s.
Proof. reflexivity. Qed.

Lemma encode_string_append (k rest : string) :
  encode_string k +:+ rest = String "034" (escape k +:+ dq +:+ rest).
Proof. unfold encode_string. by rewrite !append_assoc. Qed.

Abbreviation entry :=
  (fun kv : string * pyval => encode_string (fst kv) +:+ ": " +:+ dumps (snd kv)).

(** The object loop of the decoder on the encoded members. *)
Lemma object_loop_dumps (depth : nat) (kvs : list (string * pyval)) :
  Forall (fun kv => plain (snd kv) = true -> readable depth (snd kv) = true ->
                    forall fuel rest, size (snd kv) <= fuel -> terminator rest = true ->
                                      scan_once fuel depth (dumps (snd kv) +:+ rest)
                                      = Some (snd kv, rest)) kvs ->
  forallb (fun kv => plain (snd kv)) kvs = true ->
  forallb (fun kv => readable depth (snd kv)) kvs = true ->
  kvs <> [] ->
  forall fuel acc rest,
    NoDup (map fst acc ++ map fst kvs) ->
    list_sum (map (fun kv => S (size (snd kv))) kvs) <= fuel ->
    object_loop fuel depth (join ", " (map entry kvs) +:+ "}" +:+ rest) acc
    = Some (PDict (acc ++ kvs), rest).
Proof.
  induction 1 as [|[k x] l Hx Hl IH]; [done|].
  intros Hp Hd _ fuel acc rest Hnd Hf. simpl in Hp. apply andb_true_iff in Hp as [Hpx Hpl].
  cbn [forallb snd] in Hd. apply andb_true_iff in Hd as [Hdx Hdl].
  assert (list_sum (map (fun kv => S (size (snd kv))) ((k, x) :: l))
          = S (size x) + list_sum (map (fun kv => S (size (snd kv))) l)) as Hsum
      by reflexivity.
  rewrite Hsum in Hf. clear Hsum. destruct fuel as [|f]; [lia|].
  assert (dset k x acc = acc ++ [(k, x)]) as Hset.
  { apply dset_fresh. apply NoDup_app in Hnd as (_ & Hd & _).
    intros Hin. apply (Hd k Hin). simpl. apply list_elem_of_here. }
  assert (NoDup (map fst (acc ++ [(k, x)]) ++ map fst l)) as Hnd'.
  { rewrite map_app. simpl. by rewrite <- app_assoc. }
  simpl in Hx.
  destruct l as [|y l'].
  - cbn [map join fst snd].
    rewrite !append_assoc, encode_string_append. cbn [object_loop].
    rewrite scan_string_encode, append_lit2, skip_ws_colon. cbv beta iota.
    rewrite skip_ws_space, skip_ws_dumps by done.
    rewrite (Hx Hpx Hdx f ("}" +:+ rest)); [|lia|reflexivity].
    cbn. by rewrite Hset.
  - cbn [map]. rewrite join_cons2. cbn [fst snd].
    rewrite !append_assoc, encode_string_append. cbn [object_loop].
    rewrite scan_string_encode, append_lit2, skip_ws_colon. cbv beta iota.
    rewrite skip_ws_space, skip_ws_dumps by done.
    rewrite (Hx Hpx Hdx f); [|lia|reflexivity].
    rewrite append_lit2, skip_ws_comma. cbv beta iota. rewrite skip_ws_space.
    match goal with
    | |- context [skip_ws ?t] => assert (skip_ws t = t) as ->
    end.
    { destruct l' as [|z l'']; cbn [map]; rewrite ?join_cons2; cbn [join];
        rewrite ?append_assoc, encode_string_append; reflexivity. }
    rewrite Hset.
    pose proof (IH Hpl Hdl ltac:(done) f (acc ++ [(k, x)]) rest Hnd' ltac:(lia)) as Hih.
    cbn [map] in Hih. rewrite Hih. by rewrite <- app_assoc.
Qed.

Lemma size_le_length (v : pyval) :
  plain v = true -> size v <= String.length (dumps v).
Proof.
  induction v as [|b|z|lx|s|l IH|kvs IH] using pyval_induction; intros Hp.
  - simpl. lia.
  - destruct b; simpl; lia.
  - destruct (of_Z_head z) as (c & ds & E & _). simpl. rewrite E. simpl. lia.
  - done.
  - simpl. unfold encode_string. rewrite length_append. simpl. lia.
  - simpl in Hp. destruct l as [|x l]; [simpl; lia|].
    cbn [size json_dumps]. rewrite !length_append.
    change (String.length "[") with 1. change (String.length "]") with 1.
    assert (forall l : list pyval,
               Forall (fun v => plain v = true -> size v <= String.length (dumps v)) l ->
               forallb plain l = true -> l <> [] ->
               list_sum (map (fun x => S (size x)) l)
               <= S (String.length (join ", " (map dumps l)))) as Hsum.
    { clear. induction 1 as [|x l Hx Hl IHl]; [done|]. intros Hp _.
      simpl in Hp. apply andb_true_iff in Hp as [Hpx Hpl].
      destruct l as [|y l'].
      - simpl. specialize (Hx Hpx). lia.
      - specialize (Hx Hpx). specialize (IHl Hpl ltac:(done)).
        cbn [map] in *. rewrite join_cons2, !length_append.
        change (String.length ", ") with 2.
        rewrite list_sum_cons. lia. }
    specialize (Hsum (x :: l) IH Hp ltac:(done)). lia.
  - simpl in Hp. apply andb_true_iff in Hp as [Hp _].
    destruct kvs as [|kv kvs]; [simpl; lia|].
    cbn [size json_dumps]. rewrite !length_append.
    change (String.length "{") with 1. change (String.length "}") with 1.
    assert (forall l : list (string * pyval),
               Forall (fun kv => plain (snd kv) = true ->
                                 size (snd kv) <= String.length (dumps (snd kv))) l ->
               forallb (fun kv => plain (snd kv)) l = true -> l <> [] ->
               list_sum (map (fun kv => S (size (snd kv))) l)
               <= S (String.length (join ", " (map entry l)))) as Hsum.
    { clear. induction 1 as [|x l Hx Hl IHl]; [done|]. intros Hp _.
      simpl in Hp. apply andb_true_iff in Hp as [Hpx Hpl].
      destruct l as [|y l'].
      - simpl. rewrite !length_append. specialize (Hx Hpx). lia.
      - specialize (Hx Hpx). specialize (IHl Hpl ltac:(done)).
        cbn [map] in *. rewrite join_cons2, !length_append.
        change (String.length ", ") with 2.
        rewrite list_sum_cons. lia. }
    specialize (Hsum (kv :: kvs) IH Hp ltac:(done)). lia.
Qed.

(** The decoder reads an encoded value back, whatever follows it. *)
Lemma scan_once_dumps (v : pyval) :
  plain v = true ->
  forall depth,
    readable depth v = true ->
    forall fuel rest,
      size v <= fuel -> terminator rest = true ->
      scan_once fuel depth (dumps v +:+ rest) = Some (v, rest).
Proof.
  induction v as [|b|z|lx|s|l IH|kvs IH] using pyval_induction;
    intros Hp depth Hd fuel rest Hf Hr;
    (destruct fuel as [|f]; [simpl in Hf; lia|]).
  - change (scan_once (S f) depth (String "n" (String "u" (String "l" (String "l" rest))))
            = Some (PNone, rest)).
    cbn. rewrite prefix_nil. f_equal. f_equal. apply substring_all. lia.
  - destruct b.
    + change (scan_once (S f) depth
                (String "t" (String "r" (String "u" (String "e" rest))))
              = Some (PBool true, rest)).
      cbn. rewrite prefix_nil. f_equal. f_equal. apply substring_all. lia.
    + change (scan_once (S f) depth
                (String "f" (String "a" (String "l" (String "s" (String "e" rest)))))
              = Some (PBool false, rest)).
      cbn. rewrite prefix_nil. f_equal. f_equal. apply substring_all. lia.
  - destruct (of_Z_head z) as (c & ds & E & Hc).
    cbn [readable] in Hd. apply negb_true_iff in Hd.
    pose proof (scan_number_of_Z z rest Hr Hd) as Hs.
    cbn [json_dumps] in *. rewrite E in *. rewrite append_cons in *.
    by apply scan_once_number.
  - done.
  - cbn [json_dumps]. rewrite encode_string_append. cbn [scan_once].
    cbn [Ascii.eqb Bool.eqb andb]. by rewrite scan_string_encode.
  - simpl in Hp. destruct depth as [|d]; [done|]. cbn [readable] in Hd.
    destruct l as [|x l]; [reflexivity|].
    cbn [json_dumps]. rewrite !append_assoc, append_lit1.
    assert (skip_ws (join ", " (map dumps (x :: l)) +:+ "]" +:+ rest)
            = join ", " (map dumps (x :: l)) +:+ "]" +:+ rest) as Hws.
    { simpl in Hp. apply andb_true_iff in Hp as [Hpx _].
      destruct l as [|y l'].
      - cbn [map join]. by apply skip_ws_dumps.
      - cbn [map]. rewrite join_cons2, !append_assoc. by apply skip_ws_dumps. }
    assert (Forall (fun v => plain v = true -> readable d v = true ->
                             forall fuel rest,
                               size v <= fuel -> terminator rest = true ->
                               scan_once fuel d (dumps v +:+ rest) = Some (v, rest))
                   (x :: l)) as IHd.
    { eapply Forall_impl; [exact IH|]. intros v Hv Hpv Hdv. by apply Hv. }
    pose proof (array_loop_dumps d (x :: l) IHd Hp Hd ltac:(done) f [] rest) as Ha.
    cbn [size] in Hf. specialize (Ha ltac:(lia)).
    simpl in Hp. apply andb_true_iff in Hp as [Hpx _].
    destruct (dumps_head x Hpx) as (c & s & E & Hc).
    set (R := join ", " (map dumps (x :: l)) +:+ "]" +:+ rest) in *.
    assert (exists s', R = String c s') as [s' HR].
    { subst R. destruct l as [|y l']; cbn [map]; [cbn [join]|rewrite join_cons2];
        rewrite E, ?append_cons; by eexists. }
    cbn [scan_once Ascii.eqb Bool.eqb andb]. rewrite Hws, HR.
    rewrite HR in Ha. clear HR E Hws.
    destruct c as [b0 b1 b2 b3 b4 b5 b6 b7].
    destruct b0, b1, b2, b3, b4, b5, b6, b7; try discriminate Hc; exact Ha.
  - simpl in Hp. apply andb_true_iff in Hp as [Hp Hnd].
    apply bool_decide_eq_true in Hnd.
    destruct depth as [|d]; [done|]. cbn [readable] in Hd.
    destruct kvs as [|[k x] kvs]; [reflexivity|].
    cbn [json_dumps]. rewrite !append_assoc, append_lit1.
    assert (Forall (fun kv => plain (snd kv) = true -> readable d (snd kv) = true ->
                              forall fuel rest,
                                size (snd kv) <= fuel -> terminator rest = true ->
                                scan_once fuel d (dumps (snd kv) +:+ rest)
                                = Some (snd kv, rest))
                   ((k, x) :: kvs)) as IHd.
    { eapply Forall_impl; [exact IH|]. intros kv Hv Hpv Hdv. by apply Hv. }
    pose proof (object_loop_dumps d ((k, x) :: kvs) IHd Hp Hd ltac:(done) f [] rest Hnd)
      as Ha.
    cbn [size] in Hf. specialize (Ha ltac:(lia)).
    set (R := join ", " (map entry ((k, x) :: kvs)) +:+ "}" +:+ rest) in *.
    assert (exists s', R = String "034" s') as [s' HR].
    { subst R. destruct kvs as [|y l']; cbn [map]; [cbn [join]|rewrite join_cons2];
        cbn [fst snd]; rewrite ?append_assoc, encode_string_append; by eexists. }
    cbn [scan_once Ascii.eqb Bool.eqb andb]. rewrite HR in *. exact Ha.
Qed.

Lemma json_loads_dumps (v : pyval) :
  plain v = true -> within_limits v = true -> json_loads (dumps v) = Some v.
Proof.
  intros Hp Hl. unfold json_loads.
  pose proof (skip_ws_dumps v EmptyString Hp) as Hws.
  rewrite append_nil_r in Hws. rewrite Hws.
  pose proof (scan_once_dumps v Hp json_nesting Hl (S (String.length (dumps v)))
                EmptyString) as Hs.
  rewrite append_nil_r in Hs. rewrite Hs; [done| |done].
  pose proof (size_le_length v Hp). lia.
Qed.

(** X19.  Encoding and decoding.  For every value without floats whose
    objects have pairwise distinct keys, and which is within the limits
    of the interpreter (the digits of its integers, the nesting of its
    lists and objects), [json.loads] applied to the text [json.dumps]
    writes with [ensure_ascii=False] gives the value back: strings with
    quotes, backslashes and control characters, integers of either
    sign, nested lists and objects (in their order) all survive the
    trip. *)
Theorem X19_json_round_trip (v : pyval) :
  plain v = true -> within_limits v = true -> json_loads (dumps v) = Some v.
Proof.
  intros Hp Hl. unfold json_loads.
  pose proof (skip_ws_dumps v EmptyString Hp) as Hws.
  rewrite append_nil_r in Hws. rewrite Hws.
  pose proof (size_le_length v Hp) as Hsize.
  pose proof (scan_once_dumps v Hp json_nesting Hl (S (String.length (dumps v)))
                EmptyString) as Hs.
  rewrite append_nil_r in Hs. rewrite Hs; [done|lia|done].
Qed.

End JsonRoundTrip.

Section JsonRoundTripExample.
Import PyStr PyDict Json JsonEncode JsonSpec.

#[local] Existing Instance example_interpreter.

Lemma X19_json_round_trip_witness :
  json_loads
    (json_dumps (fun lexeme => lexeme)
       (PDict [("name", PStr ("say " +:+ dq +:+ "hi" +:+ dq +:+ nl));
               ("sizes", PList [PInt (-12); PInt 0; PBool true; PNone])]))
  = Some (PDict [("name", PStr ("say " +:+ dq +:+ "hi" +:+ dq +:+ nl));
                 ("sizes", PList [PInt (-12); PInt 0; PBool true; PNone])]).
Proof. apply X19_json_round_trip; vm_compute; reflexivity. Defined.

End JsonRoundTripExample.

(** ** From the reply of a provider to the content blocks *)

Section ProviderReplies.
Import PyStr PyDict Json Adapter Agent Dispatch JsonEncode JsonSpec LlmUtils ReplySpec.

Context {interp : Interpreter}.

Variable py_str : pyval -> string.
Variable float_repr : string -> string.

Abbreviation dumps := (json_dumps float_repr).
Abbreviation process_llm_response := (process_llm_response py_str float_repr).

Lemma process_message (response : pyval) (m : list (string * pyval)) :
  message_of response = Some (PDict m) ->
  process_llm_response response
  = let content := default PNone (dget "content" m) in
    if dhas "tool_calls" m && truthy (default PNone (dget "tool_calls" m))
    then Ret (PStr (dumps (PDict [("content",
                                   if truthy content then content else PStr EmptyString);
                                  ("tool_calls", default PNone (dget "tool_calls" m))])))
    else if negb (truthy content) && dhas "tool_calls" m
    then Ret (PStr (dumps (default PNone (dget "tool_calls" m))))
    else if negb (truthy content) && dhas "function_call" m
    then Ret (PStr (dumps (default PNone (dget "function_call" m))))
    else Ret (match content with PNone => PStr EmptyString | _ => content end).
Proof.
  unfold message_of, LlmUtils.process_llm_response.
  destruct response as [| | | | | |r]; try done. cbn [contains_key obind].
  destruct (dhas "error" r); [done|]. unfold dhas at 1. cbn [subscript].
  destruct (dget "choices" r) as [[| | | | |[|[| | | | | |choice] rest]|]|]; try done.
  cbn [negb obind first_item subscript]. intros ->. reflexivity.
Qed.

Lemma forallb_dget (P : pyval -> bool) (m : list (string * pyval)) (k : string)
      (v : pyval) :
  forallb (fun kv => P (snd kv)) m = true -> dget k m = Some v -> P v = true.
Proof.
  induction m as [|[k' x] m IH]; [done|]. cbn [forallb dget snd].
  intros [Hx Hm]%andb_true_iff. destruct (String.eqb k k'); [|by apply IH].
  by intros [= <-].
Qed.

(** X20.  Tool calls survive the way from the provider to the agent.
    When the message of the reply holds a non-empty [tool_calls] list
    (without floats, keys distinct) and is within the limits of the
    interpreter, [process_llm_response] returns a text which the
    normalisation of [chat_with_tools], given that text as the
    successful reply, turns into exactly the conversion of those calls:
    the content as leading text block when it is not empty, then one
    block per call, with the stop reason [tool_use]. *)
Theorem X20_tool_calls_survive_the_provider (response : pyval)
        (m : list (string * pyval)) (calls : list pyval) :
  message_of response = Some (PDict m) ->
  dget "tool_calls" m = Some (PList calls) ->
  calls <> [] ->
  plain (PList calls) = true ->
  plain (default PNone (dget "content" m)) = true ->
  within_limits (PDict m) = true ->
  let content := default PNone (dget "content" m) in
  exists s,
    process_llm_response response = Ret (PStr s)
    /\ normalize true s
       = let '(blocks, raised) :=
           convert_calls calls (if truthy content then [TextBlock content] else []) in
         {| resp_content := if raised then blocks ++ [TextBlock (PStr s)] else blocks;
            stop_reason := "tool_use" |}.
Proof.
  intros Hm Hc Hne Hpc Hpt Hl content.
  rewrite (process_message response m Hm). fold content.
  rewrite dhas_dget, Hc. simpl default.
  assert (truthy (PList calls) = true) as -> by (by destruct calls).
  cbn [andb]. eexists. split; [reflexivity|].
  unfold normalize.
  set (c' := if truthy content then content else PStr EmptyString).
  rewrite json_loads_dumps.
  - cbn [interpret]. cbn -[convert_calls json_dumps truthy].
    assert (truthy c' = truthy content) as Ht.
    { subst c'. by destruct (truthy content) eqn:E. }
    rewrite Ht. subst c'.
    destruct (truthy content);
      by destruct (convert_calls calls _) as [blocks raised].
  - cbn [plain forallb snd] in Hpc |- *. rewrite Hpc, andb_true_r.
    apply andb_true_iff. split; [|by vm_compute].
    subst c'. by destruct (truthy content).
  - unfold within_limits in *. destruct json_nesting as [|d]; [done|].
    cbn [readable] in Hl.
    pose proof (forallb_dget (readable d) m "tool_calls" (PList calls) Hl Hc) as H1.
    assert (readable d c' = true) as H2.
    { subst c' content. destruct (truthy _); [|done].
      destruct (dget "content" m) as [c|] eqn:E; [|done].
      exact (forallb_dget (readable d) m "content" c Hl E). }
    change (readable d c' && (readable d (PList calls) && true) = true).
    by rewrite H1, H2.
Qed.

(** X21.  Legacy replies come out as text.  When the message has no
    content, a [function_call] member (an object without floats, keys
    distinct, and no [tool_calls] member of its own) is serialized, and
    [chat_with_tools] turns that text into a single text block with the
    stop reason [end_turn]: no tool_use block is made, so the agent
    loops end there.  The same happens to an empty [tool_calls] list:
    the agent receives the two characters of the empty list as the
    answer (when the decoder can enter a list at all). *)
Theorem X21_legacy_replies_become_text (response : pyval) (m : list (string * pyval)) :
  message_of response = Some (PDict m) ->
  truthy (default PNone (dget "content" m)) = false ->
  (forall fc,
      dget "tool_calls" m = None ->
      dget "function_call" m = Some (PDict fc) ->
      plain (PDict fc) = true ->
      within_limits (PDict fc) = true ->
      dget "tool_calls" fc = None ->
      process_llm_response response = Ret (PStr (dumps (PDict fc)))
      /\ normalize true (dumps (PDict fc))
         = {| resp_content := [TextBlock (PStr (dumps (PDict fc)))];
              stop_reason := "end_turn" |})
  /\ (dget "tool_calls" m = Some (PList []) ->
      0 < json_nesting ->
      process_llm_response response = Ret (PStr "[]")
      /\ normalize true "[]"
         = {| resp_content := [TextBlock (PStr "[]")]; stop_reason := "end_turn" |}).
Proof.
  intros Hm Hc. rewrite (process_message response m Hm). cbv zeta. rewrite Hc.
  split.
  - intros fc Ht Hf Hp Hl Hn. rewrite !dhas_dget, Ht, Hf. cbn [andb negb default].
    split; [done|]. unfold normalize. rewrite json_loads_dumps by done.
    unfold interpret. by rewrite Hn.
  - intros Ht Hd. rewrite !dhas_dget, Ht. cbn. split; [done|].
    unfold normalize, json_loads. destruct json_nesting as [|d]; [lia|]. reflexivity.
Qed.

End ProviderReplies.

Section ProviderRepliesExample.
Import PyStr PyDict Json Adapter Agent AgentSpec Dispatch JsonEncode JsonSpec LlmUtils
       ReplySpec.

#[local] Existing Instance example_interpreter.

Lemma X20_tool_calls_survive_the_provider_witness :
  exists s,
    process_llm_response show_value (fun lexeme => lexeme)
      (reply_with (PDict [("content", PNone); ("tool_calls", PList [bash_call])]))
    = Ret (PStr s)
    /\ normalize true s
       = {| resp_content :=
              [ToolUseBlock (PStr "call_7") (PStr "bash")
                            (PDict [("command", PStr "ls")])];
            stop_reason := "tool_use" |}.
Proof.
  destruct (X20_tool_calls_survive_the_provider show_value (fun lexeme => lexeme)
              (reply_with (PDict [("content", PNone); ("tool_calls", PList [bash_call])]))
              [("content", PNone); ("tool_calls", PList [bash_call])] [bash_call]
              eq_refl eq_refl ltac:(discriminate) eq_refl eq_refl eq_refl)
    as (s & Hs & Hn).
  exists s. split; [exact Hs|]. rewrite Hn. vm_compute. reflexivity.
Defined.

Lemma X21_legacy_replies_become_text_witness :
  process_llm_response show_value (fun lexeme => lexeme)
    (reply_with (PDict [("content", PStr EmptyString); ("tool_calls", PList [])]))
  = Ret (PStr "[]").
Proof.
  refine (proj1 (proj2 (X21_legacy_replies_become_text show_value (fun lexeme => lexeme)
                          (reply_with (PDict [("content", PStr EmptyString);
                                              ("tool_calls", PList [])]))
                          [("content", PStr EmptyString); ("tool_calls", PList [])]
                          eq_refl eq_refl) eq_refl _)).
  apply Nat.lt_0_succ.
Defined.

End ProviderRepliesExample.

(** ** The dispatchers of the four versions *)

Section DispatchVersions.
Import PyStr PyDict Json Adapter Tools Skills Agent Shell Todo Dispatch DispatchSpec.

Context {FS : Type}.
Variable resolve : FS -> path -> path.
Variable read_text : FS -> path -> outcome string.
Variable mkdir : path -> FS -> outcome unit * FS.
Variable write_text : path -> string -> FS -> outcome unit * FS.
Variable subprocess_run : pyval -> FS -> proc_result * FS.
Variable WORKDIR : path.
Variable path_class : string.
Variable py_str : pyval -> string.
Variable SKILLS : list (string * skill).
Variable glob : string -> string -> option (list string).

Abbreviation execute_base_tools :=
  (execute_base_tools FS resolve read_text mkdir write_text subprocess_run WORKDIR
                      path_class py_str).
Abbreviation execute_tool_v1 :=
  (execute_tool_v1 FS resolve read_text mkdir write_text subprocess_run WORKDIR
                   path_class py_str).
Abbreviation execute_tool_v2 :=
  (execute_tool_v2 FS resolve read_text mkdir write_text subprocess_run WORKDIR
                   path_class py_str).
Abbreviation execute_tool_v3 :=
  (execute_tool_v3 FS resolve read_text mkdir write_text subprocess_run WORKDIR
                   path_class py_str).
Abbreviation execute_tool_v4 :=
  (execute_tool_v4 FS resolve read_text mkdir write_text subprocess_run WORKDIR
                   path_class py_str SKILLS glob).

Lemma base_tools_other (t : string) (name args : pyval) (w : world FS) :
  is_base_tool t = false -> is_str t name = true ->
  execute_base_tools name args None w = (Ret None, w, None).
Proof.
  intros Ht Hn. destruct name as [| | | |s| |]; try done.
  apply String.eqb_eq in Hn as ->. unfold is_base_tool in Ht.
  unfold Dispatch.execute_base_tools. cbn [is_str].
  destruct (String.eqb t "bash"); [done|].
  destruct (String.eqb t "read_file"); [done|].
  destruct (String.eqb t "write_file"); [done|].
  by destruct (String.eqb t "edit_file").
Qed.

Lemma is_str_excl (a b : string) (name : pyval) :
  a <> b -> is_str a name = true -> is_str b name = false.
Proof.
  destruct name; try done. simpl. intros Hab ->%String.eqb_eq.
  by apply String.eqb_neq.
Qed.


(** X23.  The workspace boundary holds through the dispatcher.  A call
    of [read_file], [write_file] or [edit_file] through [execute_tool]
    that has its required arguments, a string as path and (for
    [read_file]) an integer limit if any, and whose path resolves
    outside the workspace, returns the error text naming the path and
    leaves the machine as it was: no read, no folder made, no write;
    also when the content or the texts to replace are not strings. *)
Theorem X23_dispatcher_keeps_to_workspace (name p : string)
        (kvs : list (string * pyval)) (w : world FS) :
  name ∈ ["read_file"; "write_file"; "edit_file"] ->
  find (fun k => negb (dhas k kvs)) (required_keys name) = None ->
  dget "path" kvs = Some (PStr p) ->
  (forall l, name = "read_file" -> dget "limit" kvs = Some l -> is_int l = true) ->
  is_relative_to (resolve (fs FS w) (joinpath WORKDIR p)) WORKDIR = false ->
  execute_tool_v1 (PStr name) (PDict kvs) w
  = (Ret ("Error: Path escapes workspace: " +:+ p), w).
Proof.
  intros Hn Hk Hp Hl Hesc.
  assert (safe_path FS resolve WORKDIR w p = Raise ("Path escapes workspace: " +:+ p))
    as Hsp by (unfold safe_path; by rewrite Hesc).
  unfold Dispatch.execute_tool_v1, Dispatch.execute_base_tools.
  cbn [is_str py_in py_item py_get obind]. rewrite !dhas_dget, Hp.
  apply elem_of_cons in Hn as [ -> | Hn].
  { change (String.eqb "read_file" "bash") with false.
    change (String.eqb "read_file" "read_file") with true.
    cbn [default]. unfold read_value, run_read.
    destruct (dget "limit" kvs) as [l|] eqn:El; cbn [obind default].
    - rewrite (Hl l eq_refl eq_refl). cbn [negb]. by rewrite Hsp.
    - by rewrite Hsp. }
  apply elem_of_cons in Hn as [ -> | Hn].
  { change (required_keys "write_file") with ["path"; "content"] in Hk.
    change (String.eqb "write_file" "bash") with false.
    change (String.eqb "write_file" "read_file") with false.
    change (String.eqb "write_file" "write_file") with true.
    cbn [find] in Hk. rewrite !dhas_dget, Hp in Hk. cbn [negb] in Hk.
    destruct (dget "content" kvs) as [c|]; [|done]. cbn [obind].
    unfold write_value, run_write. rewrite Hsp. by destruct c. }
  apply list_elem_of_singleton in Hn as ->.
  change (required_keys "edit_file") with ["path"; "old_text"; "new_text"] in Hk.
  change (String.eqb "edit_file" "bash") with false.
  change (String.eqb "edit_file" "read_file") with false.
  change (String.eqb "edit_file" "write_file") with false.
  change (String.eqb "edit_file" "edit_file") with true.
  cbn [find] in Hk. rewrite !dhas_dget, Hp in Hk. cbn [negb] in Hk.
  destruct (dget "old_text" kvs) as [o|]; [|done]. cbn [negb] in Hk.
  destruct (dget "new_text" kvs) as [n|]; [|done]. cbn [obind].
  unfold edit_value, run_edit. rewrite Hsp. by destruct o, n.
Qed.

Lemma run_tools_sub_any_type {W : Type} (execute_tool : pyval -> pyval -> W -> outcome string * W)
      (a1 a2 : string) (calls : list tool_call) :
  forall (results1 results2 : list string) (w : W),
    snd (run_tools_sub W execute_tool py_str a1 calls results1 w)
    = snd (run_tools_sub W execute_tool py_str a2 calls results2 w)
    /\ is_raise (fst (run_tools_sub W execute_tool py_str a1 calls results1 w))
       = is_raise (fst (run_tools_sub W execute_tool py_str a2 calls results2 w)).
Proof.
  induction calls as [|tc calls IH]; intros results1 results2 w; [done|].
  cbn [run_tools_sub].
  destruct (execute_tool (tc_name tc) (tc_input tc) w) as [[output|e] w']; [|done].
  apply IH.
Qed.

(** X24.  The tool list of an agent type is advice to the model, not a
    restriction of the dispatcher.  What the tool calls of a subagent
    turn do to the machine and to the todo list, and whether they raise,
    does not depend on the agent type: the type only labels the result
    lines.  So although [write_file] is not among the tools of the
    [explore] agent, a [write_file] call in a turn of that agent is
    carried out as [run_write] does. *)
Theorem X24_tool_list_is_not_enforced
        (run_task : pyval -> pyval -> pyval -> state FS -> outcome string * state FS)
        (calls : list tool_call) (st : state FS) :
  let run agent_type :=
    run_tools_sub (state FS) (execute_tool_v4 run_task) py_str agent_type calls [] st in
  (forall a1 a2,
      snd (run a1) = snd (run a2)
      /\ is_raise (fst (run a1)) = is_raise (fst (run a2)))
  /\ ("write_file" ∉ get_tools_for_agent "explore")
  /\ (forall p c,
        calls = [ToolCall (PStr "write_file")
                          (PDict [("path", PStr p); ("content", PStr c)])] ->
        snd (run "explore")
        = (snd (run_write FS resolve mkdir write_text WORKDIR p c (fst st)), snd st)).
Proof.
  intros run. subst run. split; [|split].
  - intros a1 a2. apply run_tools_sub_any_type.
  - vm_compute. intros H. repeat (apply elem_of_cons in H as [H|H]; [done|]).
    by apply elem_of_nil in H.
  - intros p c ->. cbn [run_tools_sub tc_name tc_input].
    set (kvs := [("path", PStr p); ("content", PStr c)]).
    assert (dget "path" kvs = Some (PStr p)) as Hp by reflexivity.
    assert (dget "content" kvs = Some (PStr c)) as Hc by reflexivity.
    unfold Dispatch.execute_tool_v4, Dispatch.execute_base_tools.
    cbn [is_str py_in py_item obind].
    change (String.eqb "write_file" "bash") with false.
    change (String.eqb "write_file" "read_file") with false.
    change (String.eqb "write_file" "write_file") with true.
    cbv iota. rewrite !dhas_dget, Hp, Hc. cbn [obind write_value].
    by destruct (run_write FS resolve mkdir write_text WORKDIR p c (fst st)) as [out w'].
Qed.

End DispatchVersions.

Section DispatchVersionsExample.
Import PyStr PyDict Json Adapter Tools Agent AgentSpec Shell Dispatch DispatchSpec FileSpec.

Lemma X23_dispatcher_keeps_to_workspace_witness :
  execute_tool_v1 MemFS.t MemFS.resolve MemFS.read_text MemFS.mkdir MemFS.write_text
    (fun _ fs => (Completed EmptyString EmptyString, fs)) example_root "PosixPath"
    show_value (PStr "write_file")
    (PDict [("path", PStr "../../../etc/passwd"); ("content", PInt 0)]) example_world
  = (Ret "Error: Path escapes workspace: ../../../etc/passwd", example_world).
Proof.
  apply (X23_dispatcher_keeps_to_workspace MemFS.resolve MemFS.read_text MemFS.mkdir
           MemFS.write_text (fun _ fs => (Completed EmptyString EmptyString, fs))
           example_root "PosixPath" show_value "write_file" "../../../etc/passwd"
           [("path", PStr "../../../etc/passwd"); ("content", PInt 0)] example_world).
  - apply list_elem_of_further, list_elem_of_here.
  - reflexivity.
  - reflexivity.
  - intros l H. discriminate H.
  - vm_compute. reflexivity.
Defined.

End DispatchVersionsExample.

(** ** The reminder counter of v2_todo.py *)

Section V2Counter.
Import PyStr PyDict Json Adapter Tools Agent AgentV2.

Context {interp : Interpreter}.

Context {W : Type}.
Variable llm_invoke : list lc_message -> list string -> W -> outcome string * W.
Variable execute_tool : pyval -> pyval -> W -> outcome string * W.
Variable py_str : pyval -> string.
Variable client : LLMChatAdapter.

Abbreviation run_tools_v2 := (run_tools_v2 W execute_tool py_str).
Abbreviation loop_v2 := (loop_v2 W llm_invoke execute_tool py_str client).
Abbreviation agent_loop_v2 := (agent_loop_v2 W llm_invoke execute_tool py_str client).

Lemma run_tools_v2_flag (calls : list tool_call) :
  forall (results : list string) (used : bool) (w w' : W) (r : list string) (u : bool),
    run_tools_v2 calls results used w = (Ret (r, u), w') ->
    u = used || existsb (fun tc => is_str "TodoWrite" (tc_name tc)) calls.
Proof.
  induction calls as [|tc calls IH]; intros results used w w' r u; cbn [AgentV2.run_tools_v2 existsb].
  - intros [= _ <- _]. by rewrite orb_false_r.
  - destruct (execute_tool (tc_name tc) (tc_input tc) w) as [[output|e] w1]; [|done].
    intros H%IH. rewrite H. by destruct (is_str "TodoWrite" (tc_name tc)), used.
Qed.

Lemma loop_v2_counter (remaining : nat) :
  forall (step : nat) (prompt : string) (history : list message) (rounds : nat) (w : W),
    let out := loop_v2 remaining step prompt history rounds w in
    step <= x2_step W out <= step + remaining
    /\ x2_rounds W out <= rounds + (x2_step W out - step).
Proof.
  induction remaining as [|k IH]; intros step prompt history rounds w; cbn [AgentV2.loop_v2].
  { cbn. lia. }
  destruct (chat_with_tools W llm_invoke client prompt history BASE_TOOLS w)
    as [response w1].
  destruct (join_values nl (assistant_text (resp_content response))) as [full_text|e];
    [|cbn; lia].
  destruct (tool_calls (resp_content response)) as [|tc calls]; [cbn; lia|].
  destruct (run_tools_v2 (tc :: calls) [] false w1) as [[[results used]|e] w2];
    [|cbn; lia].
  specialize (IH (step + 1) prompt
                 (history ++ [Message "assistant" full_text; results_message results])
                 (if used then 0 else rounds + 1) w2).
  cbv zeta in IH |- *. destruct used; lia.
Qed.

(** X25.  The reminder counter of v2.  A run of [agent_loop] takes at
    most [max_steps] steps and raises [rounds_without_todo] by at most
    the number of steps it took.  Hence, while the counter before a run
    plus the step budget does not exceed 20, the message [main] builds
    for the next input carries no reminder: it is the input line
    alone. *)
Theorem X25_reminder_counter (SYSTEM prompt : string) (history : list message)
        (steps rounds : nat) (w : W) :
  let out := agent_loop_v2 SYSTEM prompt history steps rounds w in
  x2_step W out <= steps
  /\ x2_rounds W out <= rounds + x2_step W out
  /\ (rounds + steps <= max_steps ->
      forall user_input,
        user_content false (x2_rounds W out) user_input = "输入：" +:+ user_input).
Proof.
  intros out. subst out. unfold AgentV2.agent_loop_v2.
  pose proof (loop_v2_counter steps 0 prompt (with_system SYSTEM history) rounds w) as H.
  cbv zeta in H. destruct H as [[_ H1] H2]. rewrite Nat.sub_0_r in H2.
  split; [lia|]. split; [lia|].
  intros Hm user_input. unfold user_content.
  destruct (Nat.ltb_spec max_steps
              (x2_rounds W (loop_v2 steps 0 prompt (with_system SYSTEM history) rounds w)));
    [lia|]. done.
Qed.

(** X26.  What resets the counter.  After a turn with tool calls that
    [execute_tool] all answers, [rounds_without_todo] is 0 when one of
    the calls is named [TodoWrite] (whatever it returned, an error text
    included), and one more than before otherwise. *)
Theorem X26_todo_call_resets_counter (step rounds : nat) (prompt full_text : string)
        (history : list message) (w : W) :
  let response := fst (chat_with_tools W llm_invoke client prompt history BASE_TOOLS w) in
  let w1 := snd (chat_with_tools W llm_invoke client prompt history BASE_TOOLS w) in
  let calls := tool_calls (resp_content response) in
  join_values nl (assistant_text (resp_content response)) = Ret full_text ->
  calls <> [] ->
  is_raise (fst (run_tools_v2 calls [] false w1)) = false ->
  x2_rounds W (loop_v2 1 step prompt history rounds w)
  = if existsb (fun tc => is_str "TodoWrite" (tc_name tc)) calls
    then 0 else rounds + 1.
Proof.
  intros response w1 calls Hj Hc Hr. subst response w1 calls.
  cbn [AgentV2.loop_v2].
  destruct (chat_with_tools W llm_invoke client prompt history BASE_TOOLS w)
    as [response w1].
  cbn [fst snd] in *. rewrite Hj.
  destruct (tool_calls (resp_content response)) as [|tc calls] eqn:E; [done|].
  destruct (run_tools_v2 (tc :: calls) [] false w1) as [[[results used]|e] w2] eqn:Er;
    [|done].
  apply run_tools_v2_flag in Er. cbn [orb] in Er. by rewrite <- Er.
Qed.

End V2Counter.

Section V2CounterExample.
Import PyStr PyDict Json Adapter Tools Agent AgentSpec LoopSpec AgentV2.

#[local] Existing Instance example_interpreter.

Lemma X26_todo_call_resets_counter_witness :
  x2_rounds nat
    (loop_v2 nat (constant_llm todo_call_reply)
       (constant_tool "Error: Item 0: activeForm required") show_value new_adapter
       1 0 "plan" example_history 7 0)
  = 0.
Proof.
  rewrite (X26_todo_call_resets_counter (constant_llm todo_call_reply)
             (constant_tool "Error: Item 0: activeForm required") show_value new_adapter
             0 7 "plan" EmptyString example_history 0);
    [reflexivity|vm_compute; reflexivity|vm_compute; discriminate|].
  vm_compute. reflexivity.
Defined.

End V2CounterExample.

(** ** Writing the stored todo list back *)

Section StripTwice.
Import PyStr CodePointSpec.

Lemma drop_blanks_suffix (l : list string) : exists p, l = p ++ drop_blanks l.
Proof.
  induction l as [|ch l [p IH]]; [by exists []|]. simpl.
  destruct (is_space ch); [|by exists []].
  exists (ch :: p). simpl. by rewrite <- IH.
Qed.

Lemma drop_blanks_head (l : list string) (ch : string) (r : list string) :
  drop_blanks l = ch :: r -> is_space ch = false.
Proof.
  induction l as [|a l IH]; [done|]. simpl.
  destruct (is_space a) eqn:E; [done|]. by intros [= <- _].
Qed.

Lemma drop_blanks_fixed (l : list string) : drop_blanks (drop_blanks l) = drop_blanks l.
Proof.
  destruct (drop_blanks l) as [|ch r] eqn:E; [done|].
  simpl. by rewrite (drop_blanks_head l ch r E).
Qed.

Lemma chunks_ok_drop_blanks (l : list string) : chunks_ok l -> chunks_ok (drop_blanks l).
Proof.
  induction l as [|ch l IH]; [done|]. intros H. simpl.
  destruct (is_space ch); [|done]. by apply IH, (chunks_ok_tail ch).
Qed.

Lemma rev_drop_blanks_take (x : list string) :
  rev (drop_blanks (rev x)) = take (length (drop_blanks (rev x))) x.
Proof.
  destruct (drop_blanks_suffix (rev x)) as [p Hp].
  remember (drop_blanks (rev x)) as D eqn:ED. clear ED.
  assert (x = rev D ++ rev p) as ->
      by (by rewrite <- rev_app_distr, <- Hp, rev_involutive).
  rewrite <- (length_rev D). by rewrite take_app_length.
Qed.

Lemma strip_strip (s : string) : strip (strip s) = strip s.
Proof.
  unfold strip.
  set (d := drop_blanks (chars s)).
  set (m := rev (drop_blanks (rev d))).
  assert (chunks_ok m) as Hm.
  { unfold m. rewrite rev_drop_blanks_take. apply chunks_ok_take.
    apply chunks_ok_drop_blanks, chars_chunks_ok. }
  rewrite (chars_unchars m Hm).
  assert (drop_blanks m = m) as ->.
  { destruct m as [|ch r] eqn:E; [done|]. simpl.
    assert (is_space ch = false) as ->; [|done].
    unfold m in E. rewrite rev_drop_blanks_take in E.
    destruct d as [|ch' r'] eqn:Ed; [by rewrite take_nil in E|].
    destruct (length (drop_blanks (rev (ch' :: r')))); [done|].
    simpl in E. injection E as <- _.
    by apply (drop_blanks_head (chars s) ch' r'). }
  unfold m at 1. by rewrite rev_involutive, drop_blanks_fixed.
Qed.

End StripTwice.

Section TodoFixedPoint.
Import PyStr Todo TodoSpec TodoState.

Lemma lower_status (s : string) : status_ok s = true -> lower s = s.
Proof.
  unfold status_ok. intros H.
  apply orb_true_iff in H as [H|H]; [apply orb_true_iff in H as [H|H]|];
    apply String.eqb_eq in H as ->; reflexivity.
Qed.

Lemma normalized_stored (it : raw_item) :
  rejected it = false ->
  normalized (raw_of_item (normalized it)) = normalized it
  /\ rejected (raw_of_item (normalized it)) = false.
Proof.
  intros H. unfold rejected in *.
  apply orb_false_iff in H as [H Ha]. apply orb_false_iff in H as [Hc Hs].
  apply negb_false_iff in Hs.
  unfold normalized, raw_of_item, norm_content, norm_status, norm_activeForm in *.
  cbn [raw_content raw_status raw_activeForm content status activeForm default] in *.
  cbv [id] in *. rewrite !strip_strip, (lower_status _ Hs), Hc, Ha, Hs. done.
Qed.

Lemma stored_list (l : list raw_item) :
  existsb rejected l = false ->
  map normalized (map raw_of_item (map normalized l)) = map normalized l
  /\ existsb rejected (map raw_of_item (map normalized l)) = false.
Proof.
  induction l as [|it l IH]; [done|]. cbn [existsb map].
  intros H. apply orb_false_iff in H as [Hit Hl].
  destruct (normalized_stored it Hit) as [-> ->].
  destruct (IH Hl) as [-> ->]. done.
Qed.

(** X27.  The stored list is accepted again.  When [update] accepts a
    list, writing the stored entries back (content, status and active
    form as stored) is accepted by any manager and gives the same
    rendering and the same stored list: stripping and lower-casing
    change nothing the second time. *)
Theorem X27_stored_list_is_accepted_again (self other : TodoManager) (l : list raw_item) :
  is_raise (fst (update self l)) = false ->
  update other (map raw_of_item (items (snd (update self l)))) = update self l.
Proof.
  intros E.
  assert (~ (existsb rejected l = true \/ 20 < length l \/ 1 < in_progress_total l))
    as Hok.
  { intros H. apply (update_fails_iff self) in H. congruence. }
  assert (existsb rejected l = false) as Hr by (destruct (existsb rejected l); tauto).
  rewrite (update_accepts self l) by (done || lia). cbn [snd items].
  destruct (stored_list l Hr) as [Hn Hr'].
  rewrite update_accepts; [by rewrite Hn|done|rewrite !length_map; lia|].
  rewrite <- normalized_in_progress, Hn, normalized_in_progress. lia.
Qed.

End TodoFixedPoint.

Section TodoFixedPointExample.
Import PyStr Todo TodoSpec TodoState.

Lemma X27_stored_list_is_accepted_again_witness :
  update init
    (map raw_of_item
       (items (snd (update init [RawItem (Some "  write tests ") (Some "In_Progress")
                                         (Some " writing tests")]))))
  = update init [RawItem (Some "  write tests ") (Some "In_Progress")
                         (Some " writing tests")].
Proof.
  apply (X27_stored_list_is_accepted_again init init
           [RawItem (Some "  write tests ") (Some "In_Progress") (Some " writing tests")]).
  vm_compute. reflexivity.
Defined.

End TodoFixedPointExample.
